(** * terraform-provider-edgecenter: resource handlers over the cloud SDK

    A shallow embedding of the provider's resource files
    (resource_edgecenter_lbpool.go, resource_edgecenter_lbmember.go,
    resource_edgecenter_router.go, resource_edgecenter_baremetal.go,
    data_source_edgecenter_image.go) and of the configuration of the
    provider (provider.go).

    Every handler of the provider has the Go type
    [func(ctx, d *schema.ResourceData, m interface{}) diag.Diagnostics]:
    it mutates the resource data [d] in place, talks to the cloud through
    the SDK and returns a list of diagnostics.  Here a handler is a function
    from the resource data to a program over SDK calls ([prog]) that returns
    the final resource data together with the diagnostics, or a Go panic.
    The context [ctx], the provider configuration [m] and the calls to
    [log] have no part in it.  A closure that a handler passes to the SDK
    and the body of a loop are definitions of their own, named after the
    handler. *)

From stdpp Require Import base strings list gmap fin_maps pretty.
From Stdlib Require Import ZArith Lia Ascii.

Local Open Scope string_scope.
Local Open Scope Z_scope.
Local Open Scope list_scope.

Set Warnings "-register-all".

(** ** Go errors *)

(** An [error] value with its chain of wrapped errors.  [Default404Error] is
    the SDK's typed "not found" error ([edgecloud.Default404Error]);
    [ErrorString] is any other leaf ([errors.New], [fmt.Errorf] without
    [%w]); [WrapError] is [fmt.Errorf] with one [%w] verb, carrying the
    formatted text and the error it wraps. *)
Inductive error : Type :=
| Default404Error (msg : string)
| ErrorString (msg : string)
| WrapError (msg : string) (inner : error).

(** [err.Error()] *)
Definition Error (e : error) : string :=
  match e with
  | Default404Error msg => msg
  | ErrorString msg => msg
  | WrapError msg _ => msg
  end.

(** [errors.As(err, &errDefault404)] with
    [var errDefault404 edgecloud.Default404Error]: walks the chain. *)
Fixpoint errors_As_Default404 (e : error) : bool :=
  match e with
  | Default404Error _ => true
  | ErrorString _ => false
  | WrapError _ inner => errors_As_Default404 inner
  end.

(** [fmt.Errorf(prefix + "%w", err)]: the text is the prefix followed by the
    text of the wrapped error. *)
Definition Errorf_w (prefix : string) (e : error) : error :=
  WrapError (prefix +:+ Error e) e.

(** A Go [(value, error)] result whose value is only read when the error is
    nil. *)
Inductive result (A : Type) : Type :=
| Ok (a : A)
| Err (e : error).
Arguments Ok {A} a.
Arguments Err {A} e.

(** ** Diagnostics *)

Inductive Severity : Type := SevError | SevWarning.

Record Diagnostic : Type := mkDiagnostic {
  diag_Severity : Severity;
  diag_Summary : string;
}.

Definition Diagnostics : Type := list Diagnostic.

(** [diag.FromErr(err)] for a non-nil [err]. *)
Definition diag_FromErr (e : error) : Diagnostics :=
  [mkDiagnostic SevError (Error e)].

(** [diag.Errorf(format, args...)], applied to the formatted text. *)
Definition diag_Errorf (msg : string) : Diagnostics :=
  [mkDiagnostic SevError msg].

(** [diags.HasError()] *)
Definition HasError (ds : Diagnostics) : bool :=
  existsb (fun dg => match diag_Severity dg with SevError => true | SevWarning => false end) ds.

(** ** Schema validators *)

Module Validators.

(** resource_edgecenter_lbmember.go: [minWeight], [maxWeight]. *)
Definition minWeight : Z := 0.
Definition maxWeight : Z := 256.

(** [fmt.Sprintf("%d", v)] *)
Definition fmt_d (v : Z) : string := pretty v.

(** The [ValidateDiagFunc] of the LB member's "weight" attribute. *)
Definition validateWeight (v : Z) : Diagnostics :=
  if (v >=? minWeight) && (v <=? maxWeight) then []
  else diag_Errorf ("Valid values: " +:+ fmt_d minWeight +:+ " to " +:+ fmt_d maxWeight
                    +:+ " got: " +:+ fmt_d v).

Section Address.
(** [net.IP], [net.ParseIP] and the [%q] rendering of the attribute
    path belong to Go's library and to go-cty; the validator is
    parametric in them. *)
Context {IP Path : Type}.
Variable ParseIP : string -> option IP.
Variable fmt_q : Path -> string.

(** The [ValidateDiagFunc] of the LB member's "address" attribute. *)
Definition validateAddress (v : string) (key : Path) : Diagnostics :=
  match ParseIP v with
  | Some _ => []
  | None => diag_FromErr (ErrorString (fmt_q key +:+ " must be a valid ip, got: " +:+ v))
  end.
End Address.

(** Modelled from the spec: the four values of the SDK's
    [types.LoadBalancerAlgorithm] constants, which are declared in the SDK's
    loadbalancer/v1/types package and not in this repository. *)
Definition LoadBalancerAlgorithmRoundRobin : string := "ROUND_ROBIN".
Definition LoadBalancerAlgorithmLeastConnections : string := "LEAST_CONNECTIONS".
Definition LoadBalancerAlgorithmSourceIP : string := "SOURCE_IP".
Definition LoadBalancerAlgorithmSourceIPPort : string := "SOURCE_IP_PORT".

(** The text after the offending value in the validator's message. *)
Definition lbAlgorithmAvailable : string :=
  ", available values is '" +:+ LoadBalancerAlgorithmRoundRobin
  +:+ "', '" +:+ LoadBalancerAlgorithmLeastConnections
  +:+ "', '" +:+ LoadBalancerAlgorithmSourceIP
  +:+ "', '" +:+ LoadBalancerAlgorithmSourceIPPort +:+ "'".

(** The [ValidateDiagFunc] of the LB pool's "lb_algorithm" attribute: a Go
    [switch] with one [case] of four constants. *)
Definition validateLBAlgorithm (v : string) : Diagnostics :=
  if bool_decide (v = LoadBalancerAlgorithmRoundRobin)
     || bool_decide (v = LoadBalancerAlgorithmLeastConnections)
     || bool_decide (v = LoadBalancerAlgorithmSourceIP)
     || bool_decide (v = LoadBalancerAlgorithmSourceIPPort)
  then []
  else diag_Errorf ("wrong type " +:+ v +:+ lbAlgorithmAvailable).

Section Protocol.
(** The values of the SDK's [types.ProtocolType] constants are declared
    in the SDK's loadbalancer/v1/types package; the validator is
    parametric in them. *)
Variables ProtocolTypeHTTP ProtocolTypeHTTPS ProtocolTypeTCP ProtocolTypeUDP : string.
Variables ProtocolTypeTerminatedHTTPS ProtocolTypePROXY : string.

(** The [ValidateDiagFunc] of the LB pool's "protocol" attribute: a Go
    [switch] whose first [case] returns no diagnostic and whose second
    [case] has an empty body, so that control leaves the [switch] and
    reaches the [return diag.Errorf(...)] after it, as it does for a
    value that matches no [case]. *)
Definition validateProtocol (v : string) : Diagnostics :=
  let wrong :=
    diag_Errorf ("wrong type " +:+ v +:+ ", available values is '" +:+ ProtocolTypeHTTP
                 +:+ "', '" +:+ ProtocolTypeHTTPS +:+ "', '" +:+ ProtocolTypeTCP
                 +:+ "', '" +:+ ProtocolTypeUDP +:+ "'") in
  if bool_decide (v = ProtocolTypeHTTP) || bool_decide (v = ProtocolTypeHTTPS)
     || bool_decide (v = ProtocolTypeTCP) || bool_decide (v = ProtocolTypeUDP)
  then []
  else if bool_decide (v = ProtocolTypeTerminatedHTTPS) || bool_decide (v = ProtocolTypePROXY)
  then wrong
  else wrong.
End Protocol.

Section HealthMonitorType.
(** The values of the SDK's [types.HealthMonitorType] constants. *)
Variables HealthMonitorTypeHTTP HealthMonitorTypeHTTPS HealthMonitorTypePING : string.
Variables HealthMonitorTypeTCP HealthMonitorTypeTLSHello HealthMonitorTypeUDPConnect : string.

(** The [ValidateDiagFunc] of the "type" of the LB pool's
    "health_monitor".  The format of its message does not close the
    quote after the last value. *)
Definition validateHealthMonitorType (v : string) : Diagnostics :=
  if bool_decide (v = HealthMonitorTypeHTTP) || bool_decide (v = HealthMonitorTypeHTTPS)
     || bool_decide (v = HealthMonitorTypePING) || bool_decide (v = HealthMonitorTypeTCP)
     || bool_decide (v = HealthMonitorTypeTLSHello)
     || bool_decide (v = HealthMonitorTypeUDPConnect)
  then []
  else diag_Errorf ("wrong type " +:+ v +:+ ", available values is '"
                    +:+ HealthMonitorTypeHTTP +:+ "', '" +:+ HealthMonitorTypeHTTPS
                    +:+ "', '" +:+ HealthMonitorTypePING +:+ "', '" +:+ HealthMonitorTypeTCP
                    +:+ "', '" +:+ HealthMonitorTypeTLSHello
                    +:+ "', '" +:+ HealthMonitorTypeUDPConnect).
End HealthMonitorType.

End Validators.

(** ** Terraform resource data *)

(** The values the Terraform plugin SDK stores in a resource: Go's
    [interface{}] restricted to what a schema holds.  A [VMap] keeps its
    entries as an association list (a map of the state in the order of its
    keys, a map a handler builds in the order it is built); a [VSet] keeps
    the elements in the order the set's [List()] returns them, which is
    the order of their hash codes. *)
Inductive value : Type :=
| VString (s : string)
| VInt (z : Z)
| VBool (b : bool)
| VList (l : list value)
| VSet (l : list value)
| VMap (m : list (string * value)).

(** Structural equality of values ([reflect.DeepEqual]). *)
Fixpoint value_eqb (a b : value) : bool :=
  let fix list_eqb (l1 l2 : list value) : bool :=
    match l1, l2 with
    | [], [] => true
    | x :: l1', y :: l2' => value_eqb x y && list_eqb l1' l2'
    | _, _ => false
    end in
  let fix map_eqb (m1 m2 : list (string * value)) : bool :=
    match m1, m2 with
    | [], [] => true
    | (k1, x) :: m1', (k2, y) :: m2' => bool_decide (k1 = k2) && value_eqb x y && map_eqb m1' m2'
    | _, _ => false
    end in
  match a, b with
  | VString s1, VString s2 => bool_decide (s1 = s2)
  | VInt z1, VInt z2 => bool_decide (z1 = z2)
  | VBool b1, VBool b2 => bool_decide (b1 = b2)
  | VList l1, VList l2 => list_eqb l1 l2
  | VSet l1, VSet l2 => list_eqb l1 l2
  | VMap m1, VMap m2 => map_eqb m1 m2
  | _, _ => false
  end.

Definition option_value_eqb (a b : option value) : bool :=
  match a, b with
  | None, None => true
  | Some x, Some y => value_eqb x y
  | _, _ => false
  end.

(** [*schema.ResourceData]: the resource ID, the prior state and the
    current view (configuration merged with what the handler has written).
    [d.Get] and [d.Set] work on the current view, [d.GetChange] and
    [d.HasChange] compare it with the prior state. *)
Record ResourceData : Type := mkResourceData {
  rd_Id : string;
  rd_old : gmap string value;
  rd_new : gmap string value;
}.

(** [d.Id()] *)
Definition Id (d : ResourceData) : string := rd_Id d.

(** [d.SetId(id)] *)
Definition SetId (d : ResourceData) (id : string) : ResourceData :=
  mkResourceData id (rd_old d) (rd_new d).

(** [d.Get(key)] *)
Definition Get (d : ResourceData) (key : string) : option value := rd_new d !! key.

(** [d.Get(key).(string)]; an attribute that is not set reads as the zero
    value. *)
Definition Get_string (d : ResourceData) (key : string) : string :=
  match Get d key with Some (VString s) => s | _ => "" end.

(** [d.Get(key).(int)] *)
Definition Get_int (d : ResourceData) (key : string) : Z :=
  match Get d key with Some (VInt z) => z | _ => 0 end.

(** [d.Get(key).(bool)] *)
Definition Get_bool (d : ResourceData) (key : string) : bool :=
  match Get d key with Some (VBool b) => b | _ => false end.

(** [d.Get(key).([]interface{})] *)
Definition Get_list (d : ResourceData) (key : string) : list value :=
  match Get d key with Some (VList l) => l | _ => [] end.

(** [d.Get(key)], asserted to be a schema set, and its [List()] *)
Definition Get_set_List (d : ResourceData) (key : string) : list value :=
  match Get d key with Some (VSet l) => l | _ => [] end.

(** [d.Get(key).(map[string]interface{})] *)
Definition Get_map (d : ResourceData) (key : string) : list (string * value) :=
  match Get d key with Some (VMap m) => m | _ => [] end.

(** The zero values [d.GetOk] reports as "not set". *)
Definition is_zero_value (v : value) : bool :=
  match v with
  | VString s => bool_decide (s = "")
  | VInt z => bool_decide (z = 0)
  | VBool b => negb b
  | VList l => bool_decide (l = [])
  | VSet l => bool_decide (l = [])
  | VMap m => bool_decide (m = [])
  end.

(** [v, ok := d.GetOk(key)]: [Some v] when [ok]. *)
Definition GetOk (d : ResourceData) (key : string) : option value :=
  match Get d key with
  | Some v => if is_zero_value v then None else Some v
  | None => None
  end.

(** [d.GetChange(key)] *)
Definition GetChange (d : ResourceData) (key : string) : option value * option value :=
  (rd_old d !! key, rd_new d !! key).

(** [d.HasChange(key)] *)
Definition HasChange (d : ResourceData) (key : string) : bool :=
  negb (option_value_eqb (rd_old d !! key) (rd_new d !! key)).

(** ** The cloud SDK's data *)

(** The SDK's structs, with the fields the handlers read or write.  A
    field that the handlers use as a pointer is an [option], with [None]
    for the nil pointer, whether they test it against nil
    ([lb.HealthMonitor]) or dereference it without a test
    ([pm.Address]). *)

Definition TaskID : Type := string.

(** [tasks.TaskResults] *)
Record TaskResults : Type := mkTaskResults { Tasks : list TaskID }.

(** What [X(client, ...).Extract()] returns for a call that starts a task:
    the [*tasks.TaskResults] pointer ([None] is a nil pointer) and the
    error, both of which the handlers read. *)
Definition task_response : Type := option TaskResults * option error.

(** [results.Tasks[0]]; [None] is Go's panic on a nil pointer or on an
    index out of range. *)
Definition Tasks_0 (results : option TaskResults) : option TaskID :=
  match results with
  | Some r => head (Tasks r)
  | None => None
  end.

(** [tasks.Task], as far as the SDK's [Extract...IDFromTask] read it. *)
Record TaskInfo : Type := mkTaskInfo {
  ti_ID : string;
  ti_State : string;
  ti_CreatedResources : list (string * list string);
}.

(** [*edgecloud.ServiceClient] *)
Record ServiceClient : Type := mkServiceClient {
  sc_Endpoint : string;
  sc_point : string;
  sc_version : string;
}.

(** [net.IP] *)
Definition net_IP : Type := list N.

(** [net.HardwareAddr] and the SDK's CIDR type *)
Definition net_HardwareAddr : Type := list N.
Definition CIDR : Type := (net_IP * N)%type.

(** *** loadbalancer/v1/lbpools *)

Record CreateHealthMonitorOpts : Type := mkCreateHealthMonitorOpts {
  chm_Type : string;
  chm_Delay : Z;
  chm_MaxRetries : Z;
  chm_Timeout : Z;
  chm_MaxRetriesDown : Z;
  chm_HTTPMethod : option string;
  chm_URLPath : string;
  chm_ExpectedCodes : string;
  chm_ID : string;
}.

Record CreateSessionPersistenceOpts : Type := mkCreateSessionPersistenceOpts {
  csp_Type : string;
  csp_CookieName : string;
  csp_PersistenceGranularity : string;
  csp_PersistenceTimeout : Z;
}.

Record CreatePoolMemberOpts : Type := mkCreatePoolMemberOpts {
  cpm_Address : option net_IP;
  cpm_ProtocolPort : Z;
  cpm_Weight : Z;
  cpm_SubnetID : string;
  cpm_InstanceID : string;
  cpm_ID : string;
}.

Record lbpools_CreateOpts : Type := mklbpools_CreateOpts {
  lco_Name : string;
  lco_Protocol : string;
  lco_LBPoolAlgorithm : string;
  lco_LoadBalancerID : string;
  lco_ListenerID : string;
  lco_HealthMonitor : option CreateHealthMonitorOpts;
  lco_SessionPersistence : option CreateSessionPersistenceOpts;
}.

Record lbpools_UpdateOpts : Type := mklbpools_UpdateOpts {
  luo_Name : string;
  luo_LBPoolAlgorithm : string;
  luo_HealthMonitor : option CreateHealthMonitorOpts;
  luo_SessionPersistence : option CreateSessionPersistenceOpts;
  luo_Members : list CreatePoolMemberOpts;
}.

Record HealthMonitor : Type := mkHealthMonitor {
  hm_ID : string;
  hm_Type : string;
  hm_Delay : Z;
  hm_Timeout : Z;
  hm_MaxRetries : Z;
  hm_MaxRetriesDown : Z;
  hm_URLPath : string;
  hm_ExpectedCodes : string;
  hm_HTTPMethod : option string;
}.

Record SessionPersistence : Type := mkSessionPersistence {
  sp_Type : string;
  sp_CookieName : string;
  sp_PersistenceGranularity : string;
  sp_PersistenceTimeout : Z;
}.

(** [lbpools.PoolMember]; [Address] is a [*net.IP]. *)
Record PoolMember : Type := mkPoolMember {
  pm_ID : string;
  pm_Address : option net_IP;
  pm_ProtocolPort : Z;
  pm_Weight : Z;
  pm_SubnetID : string;
  pm_InstanceID : string;
  pm_OperatingStatus : string;
}.

(** [lbpools.Pool]; [LoadBalancers] and [Listeners] are lists of items of
    which the handlers read the [ID]. *)
Record Pool : Type := mkPool {
  pool_ID : string;
  pool_Name : string;
  pool_LoadBalancerAlgorithm : string;
  pool_Protocol : string;
  pool_LoadBalancers : list string;
  pool_Listeners : list string;
  pool_HealthMonitor : option HealthMonitor;
  pool_SessionPersistence : option SessionPersistence;
  pool_Members : list PoolMember;
}.

(** *** router/v1/routers, subnet/v1/subnets *)

Record GatewayOpts : Type := mkGatewayOpts {
  gw_Type : string;
  gw_EnableSNat : option bool;
  gw_NetworkID : string;
}.

Record routers_Interface : Type := mkrouters_Interface {
  ri_Type : string;
  ri_SubnetID : string;
}.

Record HostRoute : Type := mkHostRoute {
  hr_Destination : CIDR;
  hr_NextHop : net_IP;
}.

Record routers_CreateOpts : Type := mkrouters_CreateOpts {
  rco_Name : string;
  rco_ExternalGatewayInfo : option GatewayOpts;
  rco_Interfaces : list routers_Interface;
  rco_Routes : list HostRoute;
}.

(** [Routes] is a slice that the update handler leaves nil ([None]) or
    sets, possibly to an empty slice. *)
Record routers_UpdateOpts : Type := mkrouters_UpdateOpts {
  ruo_Name : string;
  ruo_ExternalGatewayInfo : option GatewayOpts;
  ruo_Routes : option (list HostRoute);
}.

Record ExtFixedIPs : Type := mkExtFixedIPs {
  efip_IPAddress : string;
  efip_SubnetID : string;
}.

Record ExtGatewayInfo : Type := mkExtGatewayInfo {
  egi_EnableSNat : bool;
  egi_NetworkID : string;
  egi_ExternalFixedIPs : list ExtFixedIPs;
}.

Record PortIP : Type := mkPortIP {
  pip_IPAddress : net_IP;
  pip_SubnetID : string;
}.

Record RouterInterface : Type := mkRouterInterface {
  rif_PortID : string;
  rif_NetworkID : string;
  rif_MacAddress : net_HardwareAddr;
  rif_IPAssignments : list PortIP;
}.

Record Router : Type := mkRouter {
  router_ID : string;
  router_Name : string;
  router_ExternalGatewayInfo : ExtGatewayInfo;
  router_Interfaces : list RouterInterface;
  router_Routes : list HostRoute;
}.

(** *** instance/v1/instances, baremetal/v1/bminstances *)

Record FloatingIPOpts : Type := mkFloatingIPOpts {
  fip_Source : string;
  fip_ExistingFloatingID : string;
}.

(** [bminstances.InterfaceOpts] and [instances.InterfaceOpts] *)
Record InterfaceOpts : Type := mkInterfaceOpts {
  io_Type : string;
  io_NetworkID : string;
  io_SubnetID : string;
  io_PortID : string;
  io_IPAddress : string;
  io_FloatingIP : option FloatingIPOpts;
}.

Record MetadataOpts : Type := mkMetadataOpts {
  md_Key : string;
  md_Value : string;
}.

Record bminstances_CreateOpts : Type := mkbminstances_CreateOpts {
  bco_Flavor : string;
  bco_ImageID : string;
  bco_AppTemplateID : string;
  bco_Keypair : string;
  bco_Password : string;
  bco_Username : string;
  bco_UserData : string;
  bco_AppConfig : list (string * value);
  bco_Interfaces : list InterfaceOpts;
  bco_Names : list string;
  bco_NameTemplates : list string;
  bco_Metadata : option (list MetadataOpts);
}.

Record instances_DeleteOpts : Type := mkinstances_DeleteOpts {
  ido_Volumes : list string;
  ido_DeleteFloatings : bool;
  ido_FloatingIPs : list string;
}.

Record Flavor : Type := mkFlavor {
  fl_FlavorID : string;
  fl_FlavorName : string;
  fl_RAM : Z;
  fl_VCPUS : Z;
}.

Record InstanceAddress : Type := mkInstanceAddress {
  ia_Type : string;
  ia_Address : net_IP;
}.

(** [instances.Instance]; [Addresses] is a Go map that the read handler
    ranges over, kept here in the order of that iteration. *)
Record Instance : Type := mkInstance {
  inst_ID : string;
  inst_Name : string;
  inst_Flavor : Flavor;
  inst_Status : string;
  inst_VMState : string;
  inst_Addresses : list (string * list InstanceAddress);
}.

Record SubPort : Type := mkSubPort {
  subp_PortID : string;
  subp_NetworkID : string;
  subp_IPAssignments : list PortIP;
}.

Record instances_Interface : Type := mkinstances_Interface {
  iif_PortID : string;
  iif_NetworkID : string;
  iif_IPAssignments : list PortIP;
  iif_SubPorts : list SubPort;
}.

(** *** image/v1/images *)

Record images_ListOpts : Type := mkimages_ListOpts {
  ilo_MetadataK : string;
  ilo_MetadataKV : option (gmap string string);
}.

Record ImageMetadata : Type := mkImageMetadata {
  imd_Key : string;
  imd_Value : string;
  imd_ReadOnly : bool;
}.

Record Image : Type := mkImage {
  img_ID : string;
  img_Name : string;
  img_MinDisk : Z;
  img_MinRAM : Z;
  img_OsDistro : string;
  img_OsVersion : string;
  img_Description : string;
  img_Metadata : list ImageMetadata;
}.

(** ** Programs over the SDK *)

(** The calls a handler makes to its environment: the provider's
    [CreateClient], the SDK's requests (each [X(client, ...)] followed by
    [Extract()] or [Err]), the polling of a task's status and the clock.
    [CreateClient(provider, d, point, version)] is recorded with the two
    arguments that differ between call sites. *)
Inductive sdk_call : Type :=
| CreateClient (point version : string)
| lbpools_Create (client : ServiceClient) (opts : lbpools_CreateOpts)
| lbpools_Get (client : ServiceClient) (id : string)
| lbpools_Update (client : ServiceClient) (id : string) (opts : lbpools_UpdateOpts)
| lbpools_Delete (client : ServiceClient) (id : string)
| lbpools_CreateMember (client : ServiceClient) (poolID : string) (opts : CreatePoolMemberOpts)
| lbpools_DeleteMember (client : ServiceClient) (poolID memberID : string)
| tasks_Get (client : ServiceClient) (task : TaskID)
| tasks_WaitForStatus (client : ServiceClient) (task : TaskID) (waitSeconds : Z)
    (stopOnTaskError : bool)
| routers_Create (client : ServiceClient) (opts : routers_CreateOpts)
| routers_Get (client : ServiceClient) (id : string)
| routers_Update (client : ServiceClient) (id : string) (opts : routers_UpdateOpts)
| routers_Delete (client : ServiceClient) (id : string)
| routers_Attach (client : ServiceClient) (routerID subnetID : string)
| routers_Detach (client : ServiceClient) (routerID subnetID : string)
| bminstances_Create (client : ServiceClient) (opts : bminstances_CreateOpts)
| instances_Get (client : ServiceClient) (id : string)
| instances_Delete (client : ServiceClient) (id : string) (opts : instances_DeleteOpts)
| instances_ListInterfacesAll (client : ServiceClient) (id : string)
| instances_MetadataGet (client : ServiceClient) (id key : string)
| images_ListAll (client : ServiceClient) (opts : images_ListOpts)
| time_Now.

(** What the environment answers. *)
Inductive response : Type :=
| RClient (r : result ServiceClient)
| RTasks (r : task_response)
| RPool (r : result Pool)
| RTaskInfo (r : result TaskInfo)
| RError (r : option error)
| RRouter (r : result Router)
| RInstance (r : result Instance)
| RInterfaces (r : result (list instances_Interface))
| RMetadata (r : result MetadataOpts)
| RImages (r : result (list Image))
| RString (s : string).

(** The Go type of each call's answer. *)
Definition sdk_resp (c : sdk_call) : Type :=
  match c with
  | CreateClient _ _ => result ServiceClient
  | lbpools_Create _ _ | lbpools_Update _ _ _ | lbpools_Delete _ _
  | lbpools_CreateMember _ _ _ | lbpools_DeleteMember _ _ _
  | routers_Create _ _ | routers_Delete _ _
  | bminstances_Create _ _ | instances_Delete _ _ _ => task_response
  | lbpools_Get _ _ => result Pool
  | tasks_Get _ _ => result TaskInfo
  | tasks_WaitForStatus _ _ _ _ => option error
  | routers_Get _ _ | routers_Update _ _ _
  | routers_Attach _ _ _ | routers_Detach _ _ _ => result Router
  | instances_Get _ _ => result Instance
  | instances_ListInterfacesAll _ _ => result (list instances_Interface)
  | instances_MetadataGet _ _ _ => result MetadataOpts
  | images_ListAll _ _ => result (list Image)
  | time_Now => string
  end.

Definition to_response (c : sdk_call) : sdk_resp c -> response :=
  match c with
  | CreateClient _ _ => RClient
  | lbpools_Create _ _ | lbpools_Update _ _ _ | lbpools_Delete _ _
  | lbpools_CreateMember _ _ _ | lbpools_DeleteMember _ _ _
  | routers_Create _ _ | routers_Delete _ _
  | bminstances_Create _ _ | instances_Delete _ _ _ => RTasks
  | lbpools_Get _ _ => RPool
  | tasks_Get _ _ => RTaskInfo
  | tasks_WaitForStatus _ _ _ _ => RError
  | routers_Get _ _ | routers_Update _ _ _
  | routers_Attach _ _ _ | routers_Detach _ _ _ => RRouter
  | instances_Get _ _ => RInstance
  | instances_ListInterfacesAll _ _ => RInterfaces
  | instances_MetadataGet _ _ _ => RMetadata
  | images_ListAll _ _ => RImages
  | time_Now => RString
  end.

(** A program: it returns, or makes a call and goes on with the answer. *)
Inductive prog (A : Type) : Type :=
| Ret (a : A)
| Call (c : sdk_call) (k : sdk_resp c -> prog A).
Arguments Ret {A} a.
Arguments Call {A} c k.

Definition call (c : sdk_call) : prog (sdk_resp c) := Call c Ret.

Fixpoint bind {A B : Type} (p : prog A) (f : A -> prog B) : prog B :=
  match p with
  | Ret a => f a
  | Call c k => Call c (fun r => bind (k r) f)
  end.

Notation "x <- p ;; q" := (bind p (fun x => q))
  (at level 62, p at next level, right associativity).

(** One call and its answer, as the trace of a run records them. *)
Definition event : Type := (sdk_call * response)%type.

(** The environment: it answers a call knowing the calls made so far. *)
Definition oracle : Type := list event -> forall c : sdk_call, sdk_resp c.

(** [run o h p]: run [p] against [o] after the history [h]; the result of
    [p] and the events of this run, in order. *)
Fixpoint run {A : Type} (o : oracle) (h : list event) (p : prog A) : A * list event :=
  match p with
  | Ret a => (a, [])
  | Call c k =>
      let r := o h c in
      let '(a, tr) := run o (h ++ [(c, to_response c r)]) (k r) in
      (a, (c, to_response c r) :: tr)
  end.

(** What a handler leaves behind: the resource data as the handler mutated
    it and the diagnostics it returned, or a Go run-time panic. *)
Inductive outcome : Type :=
| Done (d : ResourceData) (diags : Diagnostics)
| Panic.

(** Modelled from the spec: the SDK's [tasks.WaitTaskAndReturnResult],
    which this repository calls and does not implement.  It polls the
    task-status endpoint at a fixed interval until success, timeout or
    terminal failure (the call [tasks_WaitForStatus], whose answer is the
    error, if any), and after a success it hands the task to the checker
    and returns what the checker returns. *)
Definition WaitTaskAndReturnResult {A : Type} (client : ServiceClient) (task : TaskID)
    (stopOnTaskError : bool) (waitSeconds : Z) (checker : TaskID -> prog (result A))
  : prog (result A) :=
  w <- call (tasks_WaitForStatus client task waitSeconds stopOnTaskError) ;;
  match w with
  | Some err => Ret (Err err)
  | None => checker task
  end.

(** ** What the handlers take from outside these files *)

(** Functions of Go's library, of the Terraform plugin SDK and of the cloud
    SDK, and the helpers of this repository that live in files other than
    the ones embedded here.  The handlers are parametric in them. *)
Class Env : Type := mkEnv {
  (** Go's library *)
  net_ParseIP : string -> option net_IP;
  IP_String : net_IP -> string;
  HardwareAddr_String : net_HardwareAddr -> string;
  CIDR_String : CIDR -> string;
  strings_ToLower : string -> string;
  strconv_Itoa : Z -> string;
  (** the order in which [range] visits a Go map *)
  range_order : gmap string nat -> list (string * nat);
  (** Terraform plugin SDK: the error of [d.Set(key, value)], if any, and
      [schema.NewSet] *)
  field_writer : string -> value -> option error;
  schema_NewSet : (value -> Z) -> list value -> value;
  (** cloud SDK *)
  ExtractPoolIDFromTask : TaskInfo -> result string;
  ExtractPoolMemberIDFromTask : TaskInfo -> result string;
  ExtractRouterIDFromTask : TaskInfo -> result string;
  ExtractInstanceIDFromTask : TaskInfo -> result string;
  (** this repository, other files *)
  VersionPointV1 : string;
  InstancePoint : string;
  InstanceCreatingTimeout : Z;
  revertState : ResourceData -> list string -> ResourceData;
  extractHealthMonitorMap : ResourceData -> option CreateHealthMonitorOpts;
  extractSessionPersistenceMap : ResourceData -> option CreateSessionPersistenceOpts;
  extractExternalGatewayInfoMap : list value -> result GatewayOpts;
  extractInterfacesMap : list value -> result (list routers_Interface);
  extractHostRoutesMap : list value -> result (list HostRoute);
  routerInterfaceUniqueID : value -> Z;
  sort_instanceInterfaces : list value -> list value;
  extractInstanceInterfaceToListRead : list value -> result (list InterfaceOpts);
  extractKeyValue : list value -> result (list MetadataOpts);
  extractMetadataMap : list (string * value) -> list MetadataOpts;
  PrepareMetadataReadonly : list ImageMetadata -> value;
}.

(** [d.Set(key, value)]: the written resource data and the error; a write
    the field writer refuses leaves the data as it was. *)
Definition d_Set `{Env} (d : ResourceData) (key : string) (v : value)
  : ResourceData * option error :=
  match field_writer key v with
  | Some err => (d, Some err)
  | None => (mkResourceData (rd_Id d) (rd_old d) (<[key := v]> (rd_new d)), None)
  end.

(** [d.Set(key, value)] whose error the handler drops. *)
Definition d_Set_ `{Env} (d : ResourceData) (key : string) (v : value) : ResourceData :=
  (d_Set d key v).1.

(** ** resource_edgecenter_lbpool.go *)

Module LBPool.
Section Handlers.
Context `{Env}.

Definition LBPoolsPoint : string := "lbpools".
Definition LBPoolsCreateTimeout : Z := 2400.

(** The checker [resourceLBPoolCreate] hands to the task wait. *)
Definition resourceLBPoolCreate_checker (client : ServiceClient) (task : TaskID)
  : prog (result string) :=
  rt <- call (tasks_Get client task) ;;
  match rt with
  | Err err =>
      Ret (Err (Errorf_w ("cannot get task with ID: " +:+ task +:+ ". Error: ") err))
  | Ok taskInfo =>
      match ExtractPoolIDFromTask taskInfo with
      | Err err => Ret (Err (Errorf_w "cannot retrieve LBPool ID from task info: " err))
      | Ok lbPoolID => Ret (Ok lbPoolID)
      end
  end.

(** What [resourceLBPoolRead] does with the pool [lb] that
    [lbpools.Get] returned: the writes into [d] and the diagnostics. *)
Definition resourceLBPoolRead_set (d : ResourceData) (lb : Pool) : outcome :=
  let d := d_Set_ d "name" (VString (pool_Name lb)) in
  let d := d_Set_ d "lb_algorithm" (VString (pool_LoadBalancerAlgorithm lb)) in
  let d := d_Set_ d "protocol" (VString (pool_Protocol lb)) in
  let d := match pool_LoadBalancers lb with
           | lb0 :: _ => d_Set_ d "loadbalancer_id" (VString lb0)
           | [] => d
           end in
  let d := match pool_Listeners lb with
           | ls0 :: _ => d_Set_ d "listener_id" (VString ls0)
           | [] => d
           end in
  match
    match pool_HealthMonitor lb with
    | Some hm =>
        let healthMonitor :=
          [("id", VString (hm_ID hm));
           ("type", VString (hm_Type hm));
           ("delay", VInt (hm_Delay hm));
           ("timeout", VInt (hm_Timeout hm));
           ("max_retries", VInt (hm_MaxRetries hm));
           ("max_retries_down", VInt (hm_MaxRetriesDown hm));
           ("url_path", VString (hm_URLPath hm));
           ("expected_codes", VString (hm_ExpectedCodes hm))] in
        let healthMonitor :=
          match hm_HTTPMethod hm with
          | Some method => healthMonitor ++ [("http_method", VString method)]
          | None => healthMonitor
          end in
        d_Set d "health_monitor" (VList [VMap healthMonitor])
    | None => (d, None)
    end
  with
  | (d, Some err) => Done d (diag_FromErr err)
  | (d, None) =>
  match
    match pool_SessionPersistence lb with
    | Some sp =>
        let sessionPersistence :=
          [("type", VString (sp_Type sp));
           ("cookie_name", VString (sp_CookieName sp));
           ("persistence_granularity", VString (sp_PersistenceGranularity sp));
           ("persistence_timeout", VInt (sp_PersistenceTimeout sp))] in
        d_Set d "session_persistence" (VList [VMap sessionPersistence])
    | None => (d, None)
    end
  with
  | (d, Some err) => Done d (diag_FromErr err)
  | (d, None) =>
  let d := revertState d ["project_id"; "region_id"] in
  Done d []
  end end.

Definition resourceLBPoolRead (d : ResourceData) : prog outcome :=
  rc <- call (CreateClient LBPoolsPoint VersionPointV1) ;;
  match rc with
  | Err err => Ret (Done d (diag_FromErr err))
  | Ok client =>
  rl <- call (lbpools_Get client (Id d)) ;;
  match rl with
  | Err err => Ret (Done d (diag_FromErr err))
  | Ok lb => Ret (resourceLBPoolRead_set d lb)
  end end.

(** The options [resourceLBPoolCreate] builds from the resource data. *)
Definition resourceLBPoolCreate_opts (d : ResourceData) : lbpools_CreateOpts :=
  let healthOpts := extractHealthMonitorMap d in
  let sessionOpts := extractSessionPersistenceMap d in
  {| lco_Name := Get_string d "name";
     lco_Protocol := Get_string d "protocol";
     lco_LBPoolAlgorithm := Get_string d "lb_algorithm";
     lco_LoadBalancerID := Get_string d "loadbalancer_id";
     lco_ListenerID := Get_string d "listener_id";
     lco_HealthMonitor := healthOpts;
     lco_SessionPersistence := sessionOpts |}.

Definition resourceLBPoolCreate (d : ResourceData) : prog outcome :=
  rc <- call (CreateClient LBPoolsPoint VersionPointV1) ;;
  match rc with
  | Err err => Ret (Done d (diag_FromErr err))
  | Ok client =>
  let opts := resourceLBPoolCreate_opts d in
  r <- call (lbpools_Create client opts) ;;
  let '(results, err) := r in
  match err with
  | Some err => Ret (Done d (diag_FromErr err))
  | None =>
  match Tasks_0 results with
  | None => Ret Panic
  | Some taskID =>
  rw <- WaitTaskAndReturnResult client taskID true LBPoolsCreateTimeout
          (resourceLBPoolCreate_checker client) ;;
  match rw with
  | Err err => Ret (Done d (diag_FromErr err))
  | Ok lbPoolID =>
  let d := SetId d lbPoolID in
  rr <- resourceLBPoolRead d ;;
  match rr with
  | Done d _ => Ret (Done d [])
  | Panic => Ret Panic
  end end end end end.

(** The checker [resourceLBPoolUpdate] hands to the task wait. *)
Definition resourceLBPoolUpdate_checker (client : ServiceClient) (task : TaskID)
  : prog (result unit) :=
  rt <- call (tasks_Get client task) ;;
  match rt with
  | Err err =>
      Ret (Err (Errorf_w ("cannot get task with ID: " +:+ task +:+ ". Error: ") err))
  | Ok _ => Ret (Ok tt)
  end.

Definition resourceLBPoolUpdate (d : ResourceData) : prog outcome :=
  rc <- call (CreateClient LBPoolsPoint VersionPointV1) ;;
  match rc with
  | Err err => Ret (Done d (diag_FromErr err))
  | Ok client =>
  let change := false in
  let opts := {|
    luo_Name := Get_string d "name";
    luo_LBPoolAlgorithm := "";
    luo_HealthMonitor := None;
    luo_SessionPersistence := None;
    luo_Members := [] |} in
  let '(opts, change) :=
    if HasChange d "lb_algorithm"
    then ({| luo_Name := luo_Name opts;
             luo_LBPoolAlgorithm := Get_string d "lb_algorithm";
             luo_HealthMonitor := luo_HealthMonitor opts;
             luo_SessionPersistence := luo_SessionPersistence opts;
             luo_Members := luo_Members opts |}, true)
    else (opts, change) in
  let '(opts, change) :=
    if HasChange d "health_monitor"
    then ({| luo_Name := luo_Name opts;
             luo_LBPoolAlgorithm := luo_LBPoolAlgorithm opts;
             luo_HealthMonitor := extractHealthMonitorMap d;
             luo_SessionPersistence := luo_SessionPersistence opts;
             luo_Members := luo_Members opts |}, true)
    else (opts, change) in
  let '(opts, change) :=
    if HasChange d "session_persistence"
    then ({| luo_Name := luo_Name opts;
             luo_LBPoolAlgorithm := luo_LBPoolAlgorithm opts;
             luo_HealthMonitor := luo_HealthMonitor opts;
             luo_SessionPersistence := extractSessionPersistenceMap d;
             luo_Members := luo_Members opts |}, true)
    else (opts, change) in
  if negb change then resourceLBPoolRead d
  else
  r <- call (lbpools_Update client (Id d) opts) ;;
  let '(results, err) := r in
  match err with
  | Some err => Ret (Done d (diag_FromErr err))
  | None =>
  match Tasks_0 results with
  | None => Ret Panic
  | Some taskID =>
  rw <- WaitTaskAndReturnResult client taskID true LBPoolsCreateTimeout
          (resourceLBPoolUpdate_checker client) ;;
  match rw with
  | Err err => Ret (Done d (diag_FromErr err))
  | Ok _ =>
  now <- call time_Now ;;
  let d := d_Set_ d "last_updated" (VString now) in
  resourceLBPoolRead d
  end end end end.

(** The checker [resourceLBPoolDelete] hands to the task wait. *)
Definition resourceLBPoolDelete_checker (client : ServiceClient) (id : string)
    (task : TaskID) : prog (result unit) :=
  rg <- call (lbpools_Get client id) ;;
  match rg with
  | Ok _ => Ret (Err (ErrorString ("cannot delete LBPool with ID: " +:+ id)))
  | Err err =>
      if errors_As_Default404 err then Ret (Ok tt)
      else Ret (Err (Errorf_w "extracting LBPool resource error: " err))
  end.

Definition resourceLBPoolDelete (d : ResourceData) : prog outcome :=
  rc <- call (CreateClient LBPoolsPoint VersionPointV1) ;;
  match rc with
  | Err err => Ret (Done d (diag_FromErr err))
  | Ok client =>
  let id := Id d in
  r <- call (lbpools_Delete client id) ;;
  let '(results, err) := r in
  let rest :=
    match Tasks_0 results with
    | None => Ret Panic
    | Some taskID =>
    rw <- WaitTaskAndReturnResult client taskID true LBPoolsCreateTimeout
            (resourceLBPoolDelete_checker client id) ;;
    match rw with
    | Err err => Ret (Done d (diag_FromErr err))
    | Ok _ => Ret (Done (SetId d "") [])
    end end in
  match err with
  | Some err => if negb (errors_As_Default404 err) then Ret (Done d (diag_FromErr err)) else rest
  | None => rest
  end end.

End Handlers.
End LBPool.

(** ** resource_edgecenter_lbmember.go *)

Module LBMember.
Section Handlers.
Context `{Env}.

Import LBPool.

(** The checker [resourceLBMemberCreate] hands to the task wait. *)
Definition resourceLBMemberCreate_checker (client : ServiceClient) (task : TaskID)
  : prog (result string) :=
  rt <- call (tasks_Get client task) ;;
  match rt with
  | Err err =>
      Ret (Err (Errorf_w ("cannot get task with ID: " +:+ task +:+ ". Error: ") err))
  | Ok taskInfo =>
      match ExtractPoolMemberIDFromTask taskInfo with
      | Err err => Ret (Err (Errorf_w "cannot retrieve LBMember ID from task info: " err))
      | Ok pmID => Ret (Ok pmID)
      end
  end.

(** The body of [for _, pm := range pool.Members] in the read handler;
    [None] is the panic of [pm.Address.String()] on a nil [Address]. *)
Definition resourceLBMemberRead_member (mid : string) (d : ResourceData) (pm : PoolMember)
  : option ResourceData :=
  if bool_decide (mid = pm_ID pm) then
    match pm_Address pm with
    | None => None
    | Some address =>
    let d := d_Set_ d "address" (VString (IP_String address)) in
    let d := d_Set_ d "protocol_port" (VInt (pm_ProtocolPort pm)) in
    let d := d_Set_ d "weight" (VInt (pm_Weight pm)) in
    let d := d_Set_ d "subnet_id" (VString (pm_SubnetID pm)) in
    let d := d_Set_ d "instance_id" (VString (pm_InstanceID pm)) in
    let d := d_Set_ d "operating_status" (VString (pm_OperatingStatus pm)) in
    Some d
    end
  else Some d.

(** The loop [for _, pm := range pool.Members] of the read handler. *)
Fixpoint resourceLBMemberRead_members (mid : string) (d : ResourceData)
    (members : list PoolMember) : option ResourceData :=
  match members with
  | [] => Some d
  | pm :: members' =>
      match resourceLBMemberRead_member mid d pm with
      | None => None
      | Some d => resourceLBMemberRead_members mid d members'
      end
  end.

Definition resourceLBMemberRead (d : ResourceData) : prog outcome :=
  rc <- call (CreateClient LBPoolsPoint VersionPointV1) ;;
  match rc with
  | Err err => Ret (Done d (diag_FromErr err))
  | Ok client =>
  rp <- call (lbpools_Get client (Get_string d "pool_id")) ;;
  match rp with
  | Err err => Ret (Done d (diag_FromErr err))
  | Ok pool =>
  let mid := Id d in
  match resourceLBMemberRead_members mid d (pool_Members pool) with
  | None => Ret Panic
  | Some d =>
  let d := revertState d ["project_id"; "region_id"] in
  Ret (Done d [])
  end end end.

(** The options [resourceLBMemberCreate] builds from the resource
    data. *)
Definition resourceLBMemberCreate_opts (d : ResourceData) : CreatePoolMemberOpts :=
  {| cpm_Address := net_ParseIP (Get_string d "address");
     cpm_ProtocolPort := Get_int d "protocol_port";
     cpm_Weight := Get_int d "weight";
     cpm_SubnetID := Get_string d "subnet_id";
     cpm_InstanceID := Get_string d "instance_id";
     cpm_ID := "" |}.

Definition resourceLBMemberCreate (d : ResourceData) : prog outcome :=
  rc <- call (CreateClient LBPoolsPoint VersionPointV1) ;;
  match rc with
  | Err err => Ret (Done d (diag_FromErr err))
  | Ok client =>
  let opts := resourceLBMemberCreate_opts d in
  r <- call (lbpools_CreateMember client (Get_string d "pool_id") opts) ;;
  let '(results, err) := r in
  match err with
  | Some err => Ret (Done d (diag_FromErr err))
  | None =>
  match Tasks_0 results with
  | None => Ret Panic
  | Some taskID =>
  rw <- WaitTaskAndReturnResult client taskID true LBPoolsCreateTimeout
          (resourceLBMemberCreate_checker client) ;;
  match rw with
  | Err err => Ret (Done d (diag_FromErr err))
  | Ok pmID =>
  let d := SetId d pmID in
  rr <- resourceLBMemberRead d ;;
  match rr with
  | Done d _ => Ret (Done d [])
  | Panic => Ret Panic
  end end end end end.

(** The checker [resourceLBMemberDelete] hands to the task wait. *)
Definition resourceLBMemberDelete_checker (client : ServiceClient) (pid mid : string)
    (task : TaskID) : prog (result unit) :=
  rp <- call (lbpools_Get client pid) ;;
  match rp with
  | Err err => Ret (Err (Errorf_w "extracting LBPool resource error: " err))
  | Ok pool =>
      if existsb (fun pm => bool_decide (pm_ID pm = mid)) (pool_Members pool)
      then Ret (Err (ErrorString ("pool member " +:+ mid +:+ " still exist")))
      else Ret (Ok tt)
  end.

Definition resourceLBMemberDelete (d : ResourceData) : prog outcome :=
  rc <- call (CreateClient LBPoolsPoint VersionPointV1) ;;
  match rc with
  | Err err => Ret (Done d (diag_FromErr err))
  | Ok client =>
  let mid := Id d in
  let pid := Get_string d "pool_id" in
  r <- call (lbpools_DeleteMember client pid mid) ;;
  let '(results, err) := r in
  match err with
  | Some err =>
      if errors_As_Default404 err then Ret (Done (SetId d "") [])
      else Ret (Done d (diag_FromErr err))
  | None =>
  match Tasks_0 results with
  | None => Ret Panic
  | Some taskID =>
  rw <- WaitTaskAndReturnResult client taskID true LBPoolsCreateTimeout
          (resourceLBMemberDelete_checker client pid mid) ;;
  match rw with
  | Err err => Ret (Done d (diag_FromErr err))
  | Ok _ => Ret (Done (SetId d "") [])
  end end end end.

End Handlers.

Section Update.
Context `{Env}.

Import LBPool.

(** [fmt.Sprintf("%+v", taskInfo)] *)
Variable fmt_v_Task : TaskInfo -> string.

(** The checker [resourceLBMemberUpdate] hands to the task wait. *)
Definition resourceLBMemberUpdate_checker (client : ServiceClient) (task : TaskID)
  : prog (result string) :=
  rt <- call (tasks_Get client task) ;;
  match rt with
  | Err err =>
      Ret (Err (Errorf_w ("cannot get task with ID: " +:+ task +:+ ". Error: ") err))
  | Ok taskInfo =>
      match ExtractPoolMemberIDFromTask taskInfo with
      | Err err =>
          Ret (Err (WrapError ("cannot retrieve LBPool ID from task info: " +:+ Error err
                               +:+ ", " +:+ fmt_v_Task taskInfo +:+ ", " +:+ task) err))
      | Ok lbPoolID => Ret (Ok lbPoolID)
      end
  end.

(** The body of [for i, pm := range pool.Members]: the value of
    [members[i]]; [None] is the panic of [*pm.Address] on a nil
    [Address]. *)
Definition resourceLBMemberUpdate_member (d : ResourceData) (pm : PoolMember)
  : option CreatePoolMemberOpts :=
  if negb (bool_decide (pm_ID pm = Id d)) then
    match pm_Address pm with
    | None => None
    | Some address =>
        Some {| cpm_Address := Some address;
                cpm_ProtocolPort := pm_ProtocolPort pm;
                cpm_Weight := pm_Weight pm;
                cpm_SubnetID := pm_SubnetID pm;
                cpm_InstanceID := pm_InstanceID pm;
                cpm_ID := pm_ID pm |}
    end
  else
    Some {| cpm_Address := net_ParseIP (Get_string d "address");
            cpm_ProtocolPort := Get_int d "protocol_port";
            cpm_Weight := Get_int d "weight";
            cpm_SubnetID := Get_string d "subnet_id";
            cpm_InstanceID := Get_string d "instance_id";
            cpm_ID := Id d |}.

(** The loop [for i, pm := range pool.Members] of the update handler:
    the slice [members] it fills. *)
Fixpoint resourceLBMemberUpdate_members (d : ResourceData) (members : list PoolMember)
  : option (list CreatePoolMemberOpts) :=
  match members with
  | [] => Some []
  | pm :: members' =>
      match resourceLBMemberUpdate_member d pm with
      | None => None
      | Some m =>
          match resourceLBMemberUpdate_members d members' with
          | None => None
          | Some ms => Some (m :: ms)
          end
      end
  end.

Definition resourceLBMemberUpdate (d : ResourceData) : prog outcome :=
  rc <- call (CreateClient LBPoolsPoint VersionPointV1) ;;
  match rc with
  | Err err => Ret (Done d (diag_FromErr err))
  | Ok client =>
  rp <- call (lbpools_Get client (Get_string d "pool_id")) ;;
  match rp with
  | Err err => Ret (Done d (diag_FromErr err))
  | Ok pool =>
  match resourceLBMemberUpdate_members d (pool_Members pool) with
  | None => Ret Panic
  | Some members =>
  let opts := {|
    luo_Name := pool_Name pool;
    luo_LBPoolAlgorithm := "";
    luo_HealthMonitor := None;
    luo_SessionPersistence := None;
    luo_Members := members |} in
  r <- call (lbpools_Update client (pool_ID pool) opts) ;;
  let '(results, err) := r in
  match err with
  | Some err => Ret (Done d (diag_FromErr err))
  | None =>
  match Tasks_0 results with
  | None => Ret Panic
  | Some taskID =>
  rw <- WaitTaskAndReturnResult client taskID true LBPoolsCreateTimeout
          (resourceLBMemberUpdate_checker client) ;;
  match rw with
  | Err err => Ret (Done d (diag_FromErr err))
  | Ok _ =>
  now <- call time_Now ;;
  let d := d_Set_ d "last_updated" (VString now) in
  resourceLBMemberRead d
  end end end end end end.

End Update.
End LBMember.

(** ** Reading Go values out of [interface{}] *)

(** [v.(string)], [v.(bool)], [v.([]interface{})] and
    [v.(map[string]interface{})] on values the schema fills with the zero
    value when they are not set. *)
Definition value_string (v : value) : string :=
  match v with VString s => s | _ => "" end.
Definition value_bool (v : value) : bool :=
  match v with VBool b => b | _ => false end.
Definition value_list (v : value) : list value :=
  match v with VList l => l | _ => [] end.
Definition value_map (v : value) : list (string * value) :=
  match v with VMap m => m | _ => [] end.

(** [m[key]] on a [map[string]interface{}] *)
Fixpoint map_get (m : list (string * value)) (key : string) : option value :=
  match m with
  | [] => None
  | (k, v) :: m' => if bool_decide (k = key) then Some v else map_get m' key
  end.

(** [m[key].(string)] *)
Definition map_string (m : list (string * value)) (key : string) : string :=
  match map_get m key with Some v => value_string v | None => "" end.

(** The elements of a [*schema.Set] that [d.GetChange] returned. *)
Definition set_List (v : option value) : list value :=
  match v with Some (VSet l) => l | _ => [] end.

(** A handler's block that either falls through with a value or makes the
    handler return. *)
Inductive flow (A : Type) : Type :=
| Next (a : A)
| Return (out : outcome).
Arguments Next {A} a.
Arguments Return {A} out.

(** ** resource_edgecenter_router.go *)

Module Router.
Section Handlers.
Context `{Env}.

Definition RouterDeleting : Z := 1200.
Definition RouterCreatingTimeout : Z := 1200.
Definition RouterPoint : string := "routers".

(** The checker [resourceRouterCreate] hands to the task wait. *)
Definition resourceRouterCreate_checker (client : ServiceClient) (task : TaskID)
  : prog (result string) :=
  rt <- call (tasks_Get client task) ;;
  match rt with
  | Err err =>
      Ret (Err (Errorf_w ("cannot get task with ID: " +:+ task +:+ ". Error: ") err))
  | Ok taskInfo =>
      match ExtractRouterIDFromTask taskInfo with
      | Err err => Ret (Err (Errorf_w "cannot retrieve Router ID from task info: " err))
      | Ok Router => Ret (Ok Router)
      end
  end.

(** [for _, iface := range router.Interfaces]
    [for _, subnet := range iface.IPAssignments]: the maps appended to
    [ifs]. *)
Definition resourceRouterRead_ifs (router : Router) : list value :=
  flat_map (fun iface =>
    map (fun subnet =>
      VMap [("port_id", VString (rif_PortID iface));
            ("network_id", VString (rif_NetworkID iface));
            ("mac_address", VString (HardwareAddr_String (rif_MacAddress iface)));
            ("type", VString "subnet");
            ("subnet_id", VString (pip_SubnetID subnet));
            ("ip_address", VString (IP_String (pip_IPAddress subnet)))])
      (rif_IPAssignments iface))
    (router_Interfaces router).

Definition resourceRouterRead (d : ResourceData) : prog outcome :=
  let routerID := Id d in
  rc <- call (CreateClient RouterPoint VersionPointV1) ;;
  match rc with
  | Err err => Ret (Done d (diag_FromErr err))
  | Ok client =>
  rr <- call (routers_Get client routerID) ;;
  match rr with
  | Err err =>
      Ret (Done d (diag_Errorf ("cannot get router with ID: " +:+ routerID
                                +:+ ". Error: " +:+ Error err)))
  | Ok router =>
  let d := d_Set_ d "name" (VString (router_Name router)) in
  match
    match egi_ExternalFixedIPs (router_ExternalGatewayInfo router) with
    | _ :: _ =>
        let egi :=
          [("enable_snat", VBool (egi_EnableSNat (router_ExternalGatewayInfo router)));
           ("network_id", VString (egi_NetworkID (router_ExternalGatewayInfo router)))] in
        match
          match Get_list d "external_gateway_info" with
          | (_ :: _) as egist =>
              match extractExternalGatewayInfoMap egist with
              | Err err => Err err
              | Ok gws => Ok (egi ++ [("type", VString (gw_Type gws))])%list
              end
          | [] => Ok egi
          end
        with
        | Err err => Return (Done d (diag_FromErr err))
        | Ok egi =>
            let efip :=
              map (fun fip =>
                     VMap [("ip_address", VString (efip_IPAddress fip));
                           ("subnet_id", VString (efip_SubnetID fip))])
                  (egi_ExternalFixedIPs (router_ExternalGatewayInfo router)) in
            let egi := (egi ++ [("external_fixed_ips", VList efip)])%list in
            Next (d_Set_ d "external_gateway_info" (VList [VMap egi]))
        end
    | [] => Next d
    end
  with
  | Return out => Ret out
  | Next d =>
  let ifs := resourceRouterRead_ifs router in
  match d_Set d "interfaces" (schema_NewSet routerInterfaceUniqueID ifs) with
  | (d, Some err) => Ret (Done d (diag_FromErr err))
  | (d, None) =>
  let rs :=
    map (fun r =>
           VMap [("destination", VString (CIDR_String (hr_Destination r)));
                 ("nexthop", VString (IP_String (hr_NextHop r)))])
        (router_Routes router) in
  let d := d_Set_ d "routes" (VList rs) in
  Ret (Done d [])
  end end end end.

(** The options [resourceRouterCreate] builds from the resource data;
    [Err] when one of the three extractions fails. *)
Definition resourceRouterCreate_opts (d : ResourceData) : result routers_CreateOpts :=
  let createOpts := {|
    rco_Name := Get_string d "name";
    rco_ExternalGatewayInfo := None;
    rco_Interfaces := [];
    rco_Routes := [] |} in
  match
    match Get_list d "external_gateway_info" with
    | (_ :: _) as egi =>
        match extractExternalGatewayInfoMap egi with
        | Err err => Err err
        | Ok gws => Ok {| rco_Name := rco_Name createOpts;
                          rco_ExternalGatewayInfo := Some gws;
                          rco_Interfaces := rco_Interfaces createOpts;
                          rco_Routes := rco_Routes createOpts |}
        end
    | [] => Ok createOpts
    end
  with
  | Err err => Err err
  | Ok createOpts =>
  match
    match Get_set_List d "interfaces" with
    | (_ :: _) as ifs =>
        match extractInterfacesMap ifs with
        | Err err => Err err
        | Ok ifaces => Ok {| rco_Name := rco_Name createOpts;
                             rco_ExternalGatewayInfo := rco_ExternalGatewayInfo createOpts;
                             rco_Interfaces := ifaces;
                             rco_Routes := rco_Routes createOpts |}
        end
    | [] => Ok createOpts
    end
  with
  | Err err => Err err
  | Ok createOpts =>
  match Get_list d "routes" with
  | (_ :: _) as rs =>
      match extractHostRoutesMap rs with
      | Err err => Err err
      | Ok routes => Ok {| rco_Name := rco_Name createOpts;
                           rco_ExternalGatewayInfo := rco_ExternalGatewayInfo createOpts;
                           rco_Interfaces := rco_Interfaces createOpts;
                           rco_Routes := routes |}
      end
  | [] => Ok createOpts
  end end end.

Definition resourceRouterCreate (d : ResourceData) : prog outcome :=
  rc <- call (CreateClient RouterPoint VersionPointV1) ;;
  match rc with
  | Err err => Ret (Done d (diag_FromErr err))
  | Ok client =>
  match resourceRouterCreate_opts d with
  | Err err => Ret (Done d (diag_FromErr err))
  | Ok createOpts =>
  r <- call (routers_Create client createOpts) ;;
  let '(results, err) := r in
  match err with
  | Some err => Ret (Done d (diag_FromErr err))
  | None =>
  match Tasks_0 results with
  | None => Ret Panic
  | Some taskID =>
  rw <- WaitTaskAndReturnResult client taskID true RouterCreatingTimeout
          (resourceRouterCreate_checker client) ;;
  match rw with
  | Err err => Ret (Done d (diag_FromErr err))
  | Ok routerID =>
  let d := SetId d routerID in
  rr <- resourceRouterRead d ;;
  match rr with
  | Done d _ => Ret (Done d [])
  | Panic => Ret Panic
  end end end end end end.

(** [for index, iface := range oifs { omap[iface.SubnetID] = index }] *)
Definition resourceRouterUpdate_omap (oifs : list routers_Interface) : gmap string nat :=
  foldl (fun omap ii => <[ri_SubnetID ii.2 := ii.1]> omap) ∅ (imap pair oifs).

(** [for _, niface := range nifs]: the new interfaces found in [omap] are
    struck out of it, the others are attached.  The loop falls through
    with what is left of [omap]. *)
Fixpoint resourceRouterUpdate_attach (d : ResourceData) (client : ServiceClient)
    (routerID : string) (nifs : list routers_Interface) (omap : gmap string nat)
  : prog (flow (gmap string nat)) :=
  match nifs with
  | [] => Ret (Next omap)
  | niface :: nifs' =>
      match omap !! ri_SubnetID niface with
      | Some _ =>
          resourceRouterUpdate_attach d client routerID nifs'
            (delete (ri_SubnetID niface) omap)
      | None =>
          r <- call (routers_Attach client routerID (ri_SubnetID niface)) ;;
          match r with
          | Err err => Ret (Return (Done d (diag_FromErr err)))
          | Ok _ => resourceRouterUpdate_attach d client routerID nifs' omap
          end
      end
  end.

(** [for _, v := range omap]: the interfaces left in [omap] are detached,
    in the order the map is ranged over. *)
Fixpoint resourceRouterUpdate_detach (d : ResourceData) (client : ServiceClient)
    (routerID : string) (oifs : list routers_Interface) (vs : list (string * nat))
  : prog (flow unit) :=
  match vs with
  | [] => Ret (Next tt)
  | (_, v) :: vs' =>
      match oifs !! v with
      | None => Ret (Return Panic)
      | Some oiface =>
          r <- call (routers_Detach client routerID (ri_SubnetID oiface)) ;;
          match r with
          | Err err => Ret (Return (Done d (diag_FromErr err)))
          | Ok _ => resourceRouterUpdate_detach d client routerID oifs vs'
          end
      end
  end.

(** The block [if d.HasChange("interfaces") { ... }]. *)
Definition resourceRouterUpdate_interfaces (d : ResourceData) (client : ServiceClient)
    (routerID : string) : prog (flow unit) :=
  if HasChange d "interfaces" then
    let '(oldValue, newValue) := GetChange d "interfaces" in
    match extractInterfacesMap (set_List oldValue) with
    | Err err => Ret (Return (Done d (diag_FromErr err)))
    | Ok oifs =>
    match extractInterfacesMap (set_List newValue) with
    | Err err => Ret (Return (Done d (diag_FromErr err)))
    | Ok nifs =>
    let omap := resourceRouterUpdate_omap oifs in
    ra <- resourceRouterUpdate_attach d client routerID nifs omap ;;
    match ra with
    | Return out => Ret (Return out)
    | Next omap => resourceRouterUpdate_detach d client routerID oifs (range_order omap)
    end end end
  else Ret (Next tt).

Definition resourceRouterUpdate (d : ResourceData) : prog outcome :=
  let routerID := Id d in
  rc <- call (CreateClient RouterPoint VersionPointV1) ;;
  match rc with
  | Err err => Ret (Done d (diag_FromErr err))
  | Ok client =>
  let updateOpts := {|
    ruo_Name := "";
    ruo_ExternalGatewayInfo := None;
    ruo_Routes := None |} in
  let updateOpts :=
    if HasChange d "name"
    then {| ruo_Name := Get_string d "name";
            ruo_ExternalGatewayInfo := ruo_ExternalGatewayInfo updateOpts;
            ruo_Routes := ruo_Routes updateOpts |}
    else updateOpts in
  match
    if HasChange d "external_gateway_info" then
      match Get_list d "external_gateway_info" with
      | (_ :: _) as egi =>
          match extractExternalGatewayInfoMap egi with
          | Err err => Err err
          | Ok gws =>
              if bool_decide (gw_Type gws = "manual")
              then Ok {| ruo_Name := ruo_Name updateOpts;
                         ruo_ExternalGatewayInfo := Some gws;
                         ruo_Routes := ruo_Routes updateOpts |}
              else Ok updateOpts
          end
      | [] => Ok updateOpts
      end
    else Ok updateOpts
  with
  | Err err => Ret (Done d (diag_FromErr err))
  | Ok updateOpts =>
  ri <- resourceRouterUpdate_interfaces d client routerID ;;
  match ri with
  | Return out => Ret out
  | Next _ =>
  match
    if HasChange d "routes" then
      match Get_list d "routes" with
      | (_ :: _) as rs =>
          match extractHostRoutesMap rs with
          | Err err => Err err
          | Ok routes => Ok {| ruo_Name := ruo_Name updateOpts;
                               ruo_ExternalGatewayInfo := ruo_ExternalGatewayInfo updateOpts;
                               ruo_Routes := Some routes |}
          end
      | [] => Ok {| ruo_Name := ruo_Name updateOpts;
                    ruo_ExternalGatewayInfo := ruo_ExternalGatewayInfo updateOpts;
                    ruo_Routes := Some [] |}
      end
    else Ok updateOpts
  with
  | Err err => Ret (Done d (diag_FromErr err))
  | Ok updateOpts =>
  ru <- call (routers_Update client routerID updateOpts) ;;
  match ru with
  | Err err => Ret (Done d (diag_FromErr err))
  | Ok _ =>
  now <- call time_Now ;;
  let d := d_Set_ d "last_updated" (VString now) in
  resourceRouterRead d
  end end end end end.

(** The checker [resourceRouterDelete] hands to the task wait. *)
Definition resourceRouterDelete_checker (client : ServiceClient) (routerID : string)
    (task : TaskID) : prog (result unit) :=
  rg <- call (routers_Get client routerID) ;;
  match rg with
  | Ok _ => Ret (Err (ErrorString ("cannot delete router with ID: " +:+ routerID)))
  | Err err =>
      if errors_As_Default404 err then Ret (Ok tt)
      else Ret (Err (Errorf_w "extracting Router resource error: " err))
  end.

Definition resourceRouterDelete (d : ResourceData) : prog outcome :=
  let routerID := Id d in
  rc <- call (CreateClient RouterPoint VersionPointV1) ;;
  match rc with
  | Err err => Ret (Done d (diag_FromErr err))
  | Ok client =>
  r <- call (routers_Delete client routerID) ;;
  let '(results, err) := r in
  match err with
  | Some err => Ret (Done d (diag_FromErr err))
  | None =>
  match Tasks_0 results with
  | None => Ret Panic
  | Some taskID =>
  rw <- WaitTaskAndReturnResult client taskID true RouterDeleting
          (resourceRouterDelete_checker client routerID) ;;
  match rw with
  | Err err => Ret (Done d (diag_FromErr err))
  | Ok _ => Ret (Done (SetId d "") [])
  end end end end.

End Handlers.
End Router.

(** ** resource_edgecenter_baremetal.go *)

Module BmInstance.
Section Handlers.
Context `{Env}.

Definition BmInstanceDeleting : Z := 1200.
Definition BmInstanceCreatingTimeout : Z := 3600.
Definition BmInstancePoint : string := "bminstances".

(** The zero value of [instances.InterfaceOpts]. *)
Definition InterfaceOpts_zero : InterfaceOpts :=
  {| io_Type := ""; io_NetworkID := ""; io_SubnetID := ""; io_PortID := "";
     io_IPAddress := ""; io_FloatingIP := None |}.

(** The checker [resourceBmInstanceCreate] hands to the task wait. *)
Definition resourceBmInstanceCreate_checker (client : ServiceClient) (task : TaskID)
  : prog (result string) :=
  rt <- call (tasks_Get client task) ;;
  match rt with
  | Err err =>
      Ret (Err (Errorf_w ("cannot get task with ID: " +:+ task +:+ ". Error: ") err))
  | Ok taskInfo =>
      match ExtractInstanceIDFromTask taskInfo with
      | Err err => Ret (Err (Errorf_w "cannot retrieve Instance ID from task info: " err))
      | Ok Instance => Ret (Ok Instance)
      end
  end.

(** The inner [for _, interfaceExtracted := range interfacesListExtracted]
    with its [break]: the first extracted interface that matches on the
    subnet, the address or the port, or the zero value. *)
Definition resourceBmInstanceRead_match (interfacesListExtracted : list InterfaceOpts)
    (subnetID ipAddress portID : string) : InterfaceOpts :=
  match
    find (fun interfaceExtracted =>
            bool_decide (io_SubnetID interfaceExtracted = subnetID)
            || bool_decide (io_IPAddress interfaceExtracted = ipAddress)
            || bool_decide (io_PortID interfaceExtracted = portID))
         interfacesListExtracted
  with
  | Some interfaceExtracted => interfaceExtracted
  | None => InterfaceOpts_zero
  end.

(** The map [i] appended to [interfacesList] for one IP assignment. *)
Definition resourceBmInstanceRead_entry (interfacesListExtracted : list InterfaceOpts)
    (order : nat) (networkID portID : string) (is_parent : bool) (assignment : PortIP)
  : value :=
  let subnetID := pip_SubnetID assignment in
  let ipAddress := IP_String (pip_IPAddress assignment) in
  let interfaceOpts :=
    resourceBmInstanceRead_match interfacesListExtracted subnetID ipAddress portID in
  let i :=
    [("type", VString (io_Type interfaceOpts));
     ("order", VInt (Z.of_nat order));
     ("network_id", VString networkID);
     ("subnet_id", VString subnetID);
     ("port_id", VString portID);
     ("is_parent", VBool is_parent)] in
  let i :=
    match io_FloatingIP interfaceOpts with
    | Some fip => (i ++ [("fip_source", VString (fip_Source fip));
                         ("existing_fip_id", VString (fip_ExistingFloatingID fip))])%list
    | None => i
    end in
  VMap (i ++ [("ip_address", VString ipAddress)])%list.

(** [for order, iFace := range interfacesListAPI]: an interface without
    IP assignments is skipped; the others give one entry per assignment
    and one per assignment of each sub-port. *)
Definition resourceBmInstanceRead_interfacesList (interfacesListExtracted : list InterfaceOpts)
    (interfacesListAPI : list instances_Interface) : list value :=
  concat (imap (fun order iFace =>
    match iif_IPAssignments iFace with
    | [] => []
    | _ :: _ =>
        (map (resourceBmInstanceRead_entry interfacesListExtracted order
                (iif_NetworkID iFace) (iif_PortID iFace) true)
             (iif_IPAssignments iFace)
         ++ flat_map (fun iFaceSubPort =>
              map (resourceBmInstanceRead_entry interfacesListExtracted order
                     (subp_NetworkID iFaceSubPort) (subp_PortID iFaceSubPort) false)
                  (subp_IPAssignments iFaceSubPort))
            (iif_SubPorts iFace))%list
    end) interfacesListAPI).

(** [for i, data := range metadata]: one [MetadataGet] per entry; the
    loop returns from the handler on the first error. *)
Fixpoint resourceBmInstanceRead_metadata (d : ResourceData) (client : ServiceClient)
    (instanceID : string) (metadata : list value) : prog (flow (list value)) :=
  match metadata with
  | [] => Ret (Next [])
  | data :: metadata' =>
      r <- call (instances_MetadataGet client instanceID (map_string (value_map data) "key")) ;;
      match r with
      | Err err =>
          Ret (Return (Done d (diag_Errorf ("cannot get metadata with key: " +:+ instanceID
                                            +:+ ". Error: " +:+ Error err))))
      | Ok md =>
          rest <- resourceBmInstanceRead_metadata d client instanceID metadata' ;;
          match rest with
          | Return out => Ret (Return out)
          | Next sliced =>
              Ret (Next (VMap [("key", VString (md_Key md));
                               ("value", VString (md_Value md))] :: sliced))
          end
      end
  end.

(** [for k := range metadata] over the "metadata_map" attribute. *)
Fixpoint resourceBmInstanceRead_metadata_map (d : ResourceData) (client : ServiceClient)
    (instanceID : string) (metadata : list (string * value))
  : prog (flow (list (string * value))) :=
  match metadata with
  | [] => Ret (Next [])
  | (k, _) :: metadata' =>
      r <- call (instances_MetadataGet client instanceID k) ;;
      match r with
      | Err err =>
          Ret (Return (Done d (diag_Errorf ("cannot get metadata with key: " +:+ instanceID
                                            +:+ ". Error: " +:+ Error err))))
      | Ok md =>
          rest <- resourceBmInstanceRead_metadata_map d client instanceID metadata' ;;
          match rest with
          | Return out => Ret (Return out)
          | Next newMetadata => Ret (Next ((k, VString (md_Value md)) :: newMetadata))
          end
      end
  end.

(** [for _, data := range instance.Addresses] *)
Definition resourceBmInstanceRead_addresses (instance : Instance) : list value :=
  map (fun data : string * list InstanceAddress =>
         VMap [("net", VList (map (fun iaddr =>
                                     VMap [("type", VString (ia_Type iaddr));
                                           ("addr", VString (IP_String (ia_Address iaddr)))])
                                  data.2))])
      (inst_Addresses instance).

Definition resourceBmInstanceRead (d : ResourceData) : prog outcome :=
  let instanceID := Id d in
  rc <- call (CreateClient InstancePoint VersionPointV1) ;;
  match rc with
  | Err err => Ret (Done d (diag_FromErr err))
  | Ok client =>
  ri <- call (instances_Get client instanceID) ;;
  match ri with
  | Err err =>
      Ret (Done d (diag_Errorf ("cannot get instance with ID: " +:+ instanceID
                                +:+ ". Error: " +:+ Error err)))
  | Ok instance =>
  let d := d_Set_ d "name" (VString (inst_Name instance)) in
  let d := d_Set_ d "flavor_id" (VString (fl_FlavorID (inst_Flavor instance))) in
  let d := d_Set_ d "status" (VString (inst_Status instance)) in
  let d := d_Set_ d "vm_state" (VString (inst_VMState instance)) in
  let flavor :=
    [("flavor_id", VString (fl_FlavorID (inst_Flavor instance)));
     ("flavor_name", VString (fl_FlavorName (inst_Flavor instance)));
     ("ram", VString (strconv_Itoa (fl_RAM (inst_Flavor instance))));
     ("vcpus", VString (strconv_Itoa (fl_VCPUS (inst_Flavor instance))))] in
  let d := d_Set_ d "flavor" (VMap flavor) in
  rl <- call (instances_ListInterfacesAll client instanceID) ;;
  match rl with
  | Err err => Ret (Done d (diag_FromErr err))
  | Ok interfacesListAPI =>
  match interfacesListAPI with
  | [] => Ret (Done d (diag_Errorf "interface not found"))
  | _ :: _ =>
  let ifs := sort_instanceInterfaces (Get_list d "interface") in
  match extractInstanceInterfaceToListRead ifs with
  | Err err => Ret (Done d (diag_FromErr err))
  | Ok interfacesListExtracted =>
  let interfacesList :=
    resourceBmInstanceRead_interfacesList interfacesListExtracted interfacesListAPI in
  match d_Set d "interface" (VList interfacesList) with
  | (d, Some err) => Ret (Done d (diag_FromErr err))
  | (d, None) =>
  rm <- match GetOk d "metadata" with
        | Some metadataRaw =>
            r <- resourceBmInstanceRead_metadata d client instanceID (value_list metadataRaw) ;;
            match r with
            | Return out => Ret (Return out)
            | Next sliced => Ret (Next (d_Set_ d "metadata" (VList sliced)))
            end
        | None =>
            r <- resourceBmInstanceRead_metadata_map d client instanceID
                   (Get_map d "metadata_map") ;;
            match r with
            | Return out => Ret (Return out)
            | Next newMetadata =>
                match d_Set d "metadata_map" (VMap newMetadata) with
                | (d, Some err) => Ret (Return (Done d (diag_FromErr err)))
                | (d, None) => Ret (Next d)
                end
            end
        end ;;
  match rm with
  | Return out => Ret out
  | Next d =>
  match d_Set d "addresses" (VList (resourceBmInstanceRead_addresses instance)) with
  | (d, Some err) => Ret (Done d (diag_FromErr err))
  | (d, None) =>
  let d := revertState d ["user_data"; "app_config"] in
  Ret (Done d [])
  end end end end end end end end.

(** The body of [for i, iFace := range ifs] in the create handler. *)
Definition resourceBmInstanceCreate_interfaceOpts (iFace : value) : InterfaceOpts :=
  let raw := value_map iFace in
  let fipSource := map_string raw "fip_source" in
  let fipID := map_string raw "existing_fip_id" in
  {| io_Type := map_string raw "type";
     io_NetworkID := map_string raw "network_id";
     io_SubnetID := map_string raw "subnet_id";
     io_PortID := map_string raw "port_id";
     io_IPAddress := "";
     io_FloatingIP :=
       if bool_decide (fipSource = "") then None
       else Some {| fip_Source := fipSource; fip_ExistingFloatingID := fipID |} |}.

(** The options [resourceBmInstanceCreate] builds from the resource data;
    [Err] when [extractKeyValue] fails. *)
Definition resourceBmInstanceCreate_opts (d : ResourceData) : result bminstances_CreateOpts :=
  let ifs := sort_instanceInterfaces (Get_list d "interface") in
  let interfaceOptsList := map resourceBmInstanceCreate_interfaceOpts ifs in
  let name := Get_string d "name" in
  let Names := if bool_decide (name = "") then [] else [name] in
  let NameTemplates :=
    match GetOk d "name_templates" with
    | Some nameTemplatesRaw =>
        match value_list nameTemplatesRaw with
        | (_ :: _) as nameTemplates => map value_string nameTemplates
        | [] => []
        end
    | None =>
        match GetOk d "name_template" with
        | Some nameTemplate => [value_string nameTemplate]
        | None => []
        end
    end in
  let mk Metadata :=
    {| bco_Flavor := Get_string d "flavor_id";
       bco_ImageID := Get_string d "image_id";
       bco_AppTemplateID := Get_string d "apptemplate_id";
       bco_Keypair := Get_string d "keypair_name";
       bco_Password := Get_string d "password";
       bco_Username := Get_string d "username";
       bco_UserData := Get_string d "user_data";
       bco_AppConfig := Get_map d "app_config";
       bco_Interfaces := interfaceOptsList;
       bco_Names := Names;
       bco_NameTemplates := NameTemplates;
       bco_Metadata := Metadata |} in
  match GetOk d "metadata" with
  | Some metadata =>
      match value_list metadata with
      | (_ :: _) as metadata =>
          match extractKeyValue metadata with
          | Err err => Err err
          | Ok md => Ok (mk (Some md))
          end
      | [] => Ok (mk None)
      end
  | None =>
      match GetOk d "metadata_map" with
      | Some metadataRaw => Ok (mk (Some (extractMetadataMap (value_map metadataRaw))))
      | None => Ok (mk None)
      end
  end.

Definition resourceBmInstanceCreate (d : ResourceData) : prog outcome :=
  rc <- call (CreateClient BmInstancePoint VersionPointV1) ;;
  match rc with
  | Err err => Ret (Done d (diag_FromErr err))
  | Ok client =>
  match resourceBmInstanceCreate_opts d with
  | Err err => Ret (Done d (diag_FromErr err))
  | Ok opts =>
  r <- call (bminstances_Create client opts) ;;
  let '(results, err) := r in
  match err with
  | Some err => Ret (Done d (diag_FromErr err))
  | None =>
  match Tasks_0 results with
  | None => Ret Panic
  | Some taskID =>
  rw <- WaitTaskAndReturnResult client taskID true BmInstanceCreatingTimeout
          (resourceBmInstanceCreate_checker client) ;;
  match rw with
  | Err err => Ret (Done d (diag_FromErr err))
  | Ok InstanceID =>
  let d := SetId d InstanceID in
  rr <- resourceBmInstanceRead d ;;
  match rr with
  | Done d _ => Ret (Done d [])
  | Panic => Ret Panic
  end end end end end end.

(** The checker [resourceBmInstanceDelete] hands to the task wait. *)
Definition resourceBmInstanceDelete_checker (client : ServiceClient) (instanceID : string)
    (task : TaskID) : prog (result unit) :=
  rg <- call (instances_Get client instanceID) ;;
  match rg with
  | Ok _ => Ret (Err (ErrorString ("cannot delete instance with ID: " +:+ instanceID)))
  | Err err =>
      if errors_As_Default404 err then Ret (Ok tt)
      else Ret (Err (Errorf_w "extracting Instance resource error: " err))
  end.

Definition resourceBmInstanceDelete (d : ResourceData) : prog outcome :=
  let instanceID := Id d in
  rc <- call (CreateClient InstancePoint VersionPointV1) ;;
  match rc with
  | Err err => Ret (Done d (diag_FromErr err))
  | Ok client =>
  let delOpts := {| ido_Volumes := []; ido_DeleteFloatings := true; ido_FloatingIPs := [] |} in
  r <- call (instances_Delete client instanceID delOpts) ;;
  let '(results, err) := r in
  match err with
  | Some err => Ret (Done d (diag_FromErr err))
  | None =>
  match Tasks_0 results with
  | None => Ret Panic
  | Some taskID =>
  rw <- WaitTaskAndReturnResult client taskID true BmInstanceDeleting
          (resourceBmInstanceDelete_checker client instanceID) ;;
  match rw with
  | Err err => Ret (Done d (diag_FromErr err))
  | Ok _ => Ret (Done (SetId d "") [])
  end end end end.

End Handlers.
End BmInstance.

(** ** data_source_edgecenter_image.go *)

Module ImageDataSource.
Section Handlers.
Context `{Env}.

Definition ImagesPoint : string := "images".
Definition bmImagesPoint : string := "bmimages".

(** [strings.HasPrefix(s, prefix)] *)
Definition strings_HasPrefix (s prefix : string) : bool := String.prefix prefix s.

(** The zero value of [images.Image] ([var image images.Image]). *)
Definition Image_zero : Image :=
  {| img_ID := ""; img_Name := ""; img_MinDisk := 0; img_MinRAM := 0; img_OsDistro := "";
     img_OsVersion := ""; img_Description := ""; img_Metadata := [] |}.

(** [for _, img := range allImages] with its [break], on the variables
    [found] and [image]. *)
Fixpoint dataSourceImageRead_loop (name : string) (allImages : list Image)
    (found : bool) (image : Image) : bool * Image :=
  match allImages with
  | [] => (found, image)
  | img :: allImages' =>
      if strings_HasPrefix (strings_ToLower (img_Name img)) (strings_ToLower name)
      then (true, img)
      else dataSourceImageRead_loop name allImages' found image
  end.

(** [typedMetadataKV]: the "metadata_kv" map with its values asserted to
    be strings. *)
Definition typedMetadataKV (metadataRaw : list (string * value)) : gmap string string :=
  list_to_map (map (fun kv : string * value => (kv.1, value_string kv.2)) metadataRaw).

Definition dataSourceImageRead (d : ResourceData) : prog outcome :=
  let name := Get_string d "name" in
  let point := if Get_bool d "is_baremetal" then bmImagesPoint else ImagesPoint in
  rc <- call (CreateClient point VersionPointV1) ;;
  match rc with
  | Err err => Ret (Done d (diag_FromErr err))
  | Ok client =>
  let listOpts := {|
    ilo_MetadataK :=
      match GetOk d "metadata_k" with
      | Some metadataK => value_string metadataK
      | None => ""
      end;
    ilo_MetadataKV :=
      match GetOk d "metadata_kv" with
      | Some metadataRaw => Some (typedMetadataKV (value_map metadataRaw))
      | None => None
      end |} in
  ra <- call (images_ListAll client listOpts) ;;
  match ra with
  | Err err => Ret (Done d (diag_FromErr err))
  | Ok allImages =>
  let '(found, image) := dataSourceImageRead_loop name allImages false Image_zero in
  if negb found then
    Ret (Done d (diag_Errorf ("image with name " +:+ name +:+ " not found")))
  else
  let d := SetId d (img_ID image) in
  let d := d_Set_ d "project_id" (VInt (Get_int d "project_id")) in
  let d := d_Set_ d "region_id" (VInt (Get_int d "region_id")) in
  let d := d_Set_ d "min_disk" (VInt (img_MinDisk image)) in
  let d := d_Set_ d "min_ram" (VInt (img_MinRAM image)) in
  let d := d_Set_ d "os_distro" (VString (img_OsDistro image)) in
  let d := d_Set_ d "os_version" (VString (img_OsVersion image)) in
  let d := d_Set_ d "description" (VString (img_Description image)) in
  let metadataReadOnly := PrepareMetadataReadonly (img_Metadata image) in
  match d_Set d "metadata_read_only" metadataReadOnly with
  | (d, Some err) => Ret (Done d (diag_FromErr err))
  | (d, None) => Ret (Done d [])
  end end end.

End Handlers.
End ImageDataSource.

(** ** The importers of the resources *)

(** The [StateContext] functions of [resourceLBPool], [resourceLBMember],
    [resourceRouter] and [resourceBmInstance].  A function returns the
    resource data it was given, after writing into them, or the error of
    the parser and no resource data. *)
Module Importer.
Section Importers.
Context `{Env}.

(** This repository's [ImportStringParser] and
    [ImportStringParserExtended], which live in another file: the
    project, the region and the one or two IDs of an import string, or
    an error. *)
Variable ImportStringParser : string -> result (Z * Z * string).
Variable ImportStringParserExtended : string -> result (Z * Z * string * string).

(** resource_edgecenter_lbpool.go *)
Definition resourceLBPool_StateContext (d : ResourceData) : result (list ResourceData) :=
  match ImportStringParser (Id d) with
  | Err err => Err err
  | Ok (projectID, regionID, lbPoolID) =>
      let d := d_Set_ d "project_id" (VInt projectID) in
      let d := d_Set_ d "region_id" (VInt regionID) in
      let d := SetId d lbPoolID in
      Ok [d]
  end.

(** resource_edgecenter_lbmember.go *)
Definition resourceLBMember_StateContext (d : ResourceData) : result (list ResourceData) :=
  match ImportStringParserExtended (Id d) with
  | Err err => Err err
  | Ok (projectID, regionID, memberID, lbPoolID) =>
      let d := d_Set_ d "project_id" (VInt projectID) in
      let d := d_Set_ d "region_id" (VInt regionID) in
      let d := d_Set_ d "pool_id" (VString lbPoolID) in
      let d := SetId d memberID in
      Ok [d]
  end.

(** resource_edgecenter_router.go *)
Definition resourceRouter_StateContext (d : ResourceData) : result (list ResourceData) :=
  match ImportStringParser (Id d) with
  | Err err => Err err
  | Ok (projectID, regionID, routerID) =>
      let d := d_Set_ d "project_id" (VInt projectID) in
      let d := d_Set_ d "region_id" (VInt regionID) in
      let d := SetId d routerID in
      Ok [d]
  end.

(** resource_edgecenter_baremetal.go *)
Definition resourceBmInstance_StateContext (d : ResourceData) : result (list ResourceData) :=
  match ImportStringParser (Id d) with
  | Err err => Err err
  | Ok (projectID, regionID, InstanceID) =>
      let d := d_Set_ d "project_id" (VInt projectID) in
      let d := d_Set_ d "region_id" (VInt regionID) in
      let d := SetId d InstanceID in
      Ok [d]
  end.

End Importers.
End Importer.

(** ** provider.go *)

Module Provider.

(** [config.Config], as far as [providerConfigure] fills it. *)
Record Config : Type := mkConfig {
  TerraformVersion : string;
  APIKey : string;
  CloudAPIURL : string;
}.

Section Configure.
(** [conf.Client()] belongs to the package [config]; [Client] is the
    pair of the client and the diagnostics that it returns. *)
Context {Client : Type}.
Variable Config_Client : Config -> Client.

Definition providerConfigure (d : ResourceData) (terraformVersion : string) : Client :=
  let conf := {|
    TerraformVersion := terraformVersion;
    APIKey := Get_string d "api_key";
    CloudAPIURL := Get_string d "edgecenter_cloud_api" |} in
  Config_Client conf.

(** [p.ConfigureContextFunc], for a provider [p] whose
    [TerraformVersion] is [p_TerraformVersion]. *)
Definition ConfigureContextFunc (p_TerraformVersion : string) (d : ResourceData) : Client :=
  let terraformVersion := p_TerraformVersion in
  let terraformVersion :=
    if bool_decide (terraformVersion = "") then "0.12+compatible" else terraformVersion in
  providerConfigure d terraformVersion.

End Configure.
End Provider.

(** * Specifications *)

(** ** Properties of programs *)

(** Whatever the environment answers, what [p] returns satisfies [Q]. *)
Fixpoint returns {A : Type} (p : prog A) (Q : A -> Prop) : Prop :=
  match p with
  | Ret a => Q a
  | Call c k => forall r, returns (k r) Q
  end.

(** Whatever the environment answers, [p] only makes calls that satisfy
    [P]. *)
Fixpoint calls_only {A : Type} (P : sdk_call -> Prop) (p : prog A) : Prop :=
  match p with
  | Ret _ => True
  | Call c k => P c /\ forall r, calls_only P (k r)
  end.

(** The calls that start a task (their answer is a [task_response]). *)
Definition starts_task (c : sdk_call) : bool :=
  match c with
  | lbpools_Create _ _ | lbpools_Update _ _ _ | lbpools_Delete _ _
  | lbpools_CreateMember _ _ _ | lbpools_DeleteMember _ _ _
  | routers_Create _ _ | routers_Delete _ _
  | bminstances_Create _ _ | instances_Delete _ _ _ => true
  | _ => false
  end.

Definition no_task (c : sdk_call) : Prop := starts_task c = false.

(** The [Get] of a resource, which the deletion checkers make. *)
Definition is_Get (c : sdk_call) : bool :=
  match c with
  | lbpools_Get _ _ | routers_Get _ _ | instances_Get _ _ => true
  | _ => false
  end.

(** The error in an answer, if there is one. *)
Definition response_error (r : response) : option error :=
  match r with
  | RClient (Err e) | RPool (Err e) | RTaskInfo (Err e) | RRouter (Err e)
  | RInstance (Err e) | RInterfaces (Err e) | RMetadata (Err e) | RImages (Err e) => Some e
  | RTasks (_, Some e) => Some e
  | RError (Some e) => Some e
  | _ => None
  end.

(** The answer is the typed 404 error. *)
Definition is_404 (r : response) : bool :=
  match response_error r with
  | Some e => errors_As_Default404 e
  | None => false
  end.

(** The handler finished and left the resource ID of [d] in place. *)
Definition keeps_Id (d : ResourceData) (out : outcome) : Prop :=
  match out with
  | Done d' _ => Id d' = Id d
  | Panic => False
  end.

Definition flow_keeps_Id {A : Type} (d : ResourceData) (f : flow A) : Prop :=
  match f with
  | Return out => keeps_Id d out
  | Next _ => True
  end.

(** ** Create handlers *)

(** The four create handlers end in the same way, up to the read handler
    they call, the timeout, the SDK function that extracts the ID and the
    text of its error; [create_tail] is that common end, from the answer
    [r] of the create call on. *)
Definition create_checker (extract : TaskInfo -> result string) (msg : string)
    (client : ServiceClient) (task : TaskID) : prog (result string) :=
  rt <- call (tasks_Get client task) ;;
  match rt with
  | Err err =>
      Ret (Err (Errorf_w ("cannot get task with ID: " +:+ task +:+ ". Error: ") err))
  | Ok taskInfo =>
      match extract taskInfo with
      | Err err => Ret (Err (Errorf_w msg err))
      | Ok id => Ret (Ok id)
      end
  end.

Definition create_tail (read : ResourceData -> prog outcome) (timeout : Z)
    (extract : TaskInfo -> result string) (msg : string)
    (d : ResourceData) (client : ServiceClient) (r : task_response) : prog outcome :=
  let '(results, err) := r in
  match err with
  | Some err => Ret (Done d (diag_FromErr err))
  | None =>
  match Tasks_0 results with
  | None => Ret Panic
  | Some taskID =>
  rw <- WaitTaskAndReturnResult client taskID true timeout (create_checker extract msg client) ;;
  match rw with
  | Err err => Ret (Done d (diag_FromErr err))
  | Ok id =>
  let d := SetId d id in
  rr <- read d ;;
  match rr with
  | Done d _ => Ret (Done d [])
  | Panic => Ret Panic
  end end end end.

(** The read handlers of the LB pool, the router and the baremetal instance
    do not panic. *)
Definition no_panic (id : string) (tr : list event) : Prop := False.

(** The read handler of the LB member panics on a pool it has fetched that
    lists a member with the resource ID [id] and a nil [Address]. *)
Definition member_without_address (id : string) (tr : list event) : Prop :=
  exists client poolID pool,
    (lbpools_Get client poolID, RPool (Ok pool)) ∈ tr /\
    Exists (fun pm => pm_ID pm = id /\ pm_Address pm = None) (pool_Members pool).

(** What the create handlers need of the read handler they end with: it
    keeps the resource ID, and it panics only as [read_panics] says. *)
Definition read_spec (read : ResourceData -> prog outcome)
    (read_panics : string -> list event -> Prop) : Prop :=
  forall (d : ResourceData) (o : oracle) (h : list event),
    match (run o h (read d)).1 with
    | Done d' _ => Id d' = Id d
    | Panic => read_panics (Id d) (run o h (read d)).2
    end.

(** [read_panics] holds within any longer trace. *)
Definition upward (read_panics : string -> list event -> Prop) : Prop :=
  forall id tr tr', tr ⊆ tr' -> read_panics id tr -> read_panics id tr'.

(** What a create handler does once its create call was answered with
    [(results, err)], in terms of the outcome [out] and the trace [tr] of
    the run.  An error of the create call is returned as the diagnostic and
    [d] is as it was.  Otherwise the first task of [results] is waited for
    with the handler's timeout; an error of the wait is returned as the
    diagnostic and [d] is as it was; after the wait the task is fetched and
    the ID extracted from it, and an error of either is returned, wrapped;
    at last the extracted ID is the resource ID and there is no
    diagnostic, unless the read that follows [d.SetId] panics, which it
    does only as [read_panics] says. *)
Definition created (timeout : Z) (extract : TaskInfo -> result string) (msg : string)
    (read_panics : string -> list event -> Prop)
    (d : ResourceData) (client : ServiceClient) (results : option TaskResults)
    (err : option error) (out : outcome) (tr : list event) : Prop :=
  match err with
  | Some e => out = Done d (diag_FromErr e)
  | None =>
      match Tasks_0 results with
      | None => out = Panic
      | Some taskID =>
          exists w, (tasks_WaitForStatus client taskID timeout true, RError w) ∈ tr /\
          match w with
          | Some e => out = Done d (diag_FromErr e)
          | None =>
              exists g, (tasks_Get client taskID, RTaskInfo g) ∈ tr /\
              match g with
              | Err e =>
                  out = Done d (diag_FromErr
                          (Errorf_w ("cannot get task with ID: " +:+ taskID +:+ ". Error: ") e))
              | Ok taskInfo =>
                  match extract taskInfo with
                  | Err e => out = Done d (diag_FromErr (Errorf_w msg e))
                  | Ok id =>
                      (exists d', out = Done d' [] /\ Id d' = id) \/
                      (out = Panic /\ read_panics id tr)
                  end
              end
          end
      end
  end.

(** [handler] is a create handler: in every run, whenever its create call
    (a call [c] with [create client c]) was answered, the run is as
    [created] says. *)
Definition create_spec (handler : ResourceData -> prog outcome)
    (create : ServiceClient -> sdk_call -> Prop) (timeout : Z)
    (extract : TaskInfo -> result string) (msg : string)
    (read_panics : string -> list event -> Prop) : Prop :=
  forall (o : oracle) (d : ResourceData) c client results err,
    let r := run o [] (handler d) in
    (c, RTasks (results, err)) ∈ r.2 -> create client c ->
    created timeout extract msg read_panics d client results err r.1 r.2.

(** [handler] makes its create call: once [CreateClient] at [point] has
    answered with a client, the handler builds the options [opts_of d] and
    the second call of the run is the create call with them; when the
    options cannot be built, the error is the diagnostic, [d] is as it was
    and there is no second call. *)
Definition makes_create_call `{Env} {O : Type} (handler : ResourceData -> prog outcome)
    (point : string) (opts_of : ResourceData -> result O)
    (create : ResourceData -> ServiceClient -> O -> sdk_call) : Prop :=
  forall (o : oracle) (d : ResourceData) (client : ServiceClient),
    let ev1 := (CreateClient point VersionPointV1, RClient (Ok client)) in
    let res := run o [] (handler d) in
    o [] (CreateClient point VersionPointV1) = Ok client ->
    match opts_of d with
    | Err e => res = (Done d (diag_FromErr e), [ev1])
    | Ok opts =>
        let c := create d client opts in
        res.2 !! 0%nat = Some ev1 /\ res.2 !! 1%nat = Some (c, to_response c (o [ev1] c))
    end.

(** ** Delete handlers *)

(** [handler] makes its delete call: once [CreateClient] at [point] has
    answered with a client, the second call of the run is the delete call
    of the resource. *)
Definition makes_delete_call `{Env} (handler : ResourceData -> prog outcome)
    (point : string) (delete : ResourceData -> ServiceClient -> sdk_call) : Prop :=
  forall (o : oracle) (d : ResourceData) (client : ServiceClient),
    let ev1 := (CreateClient point VersionPointV1, RClient (Ok client)) in
    let c := delete d client in
    let res := run o [] (handler d) in
    o [] (CreateClient point VersionPointV1) = Ok client ->
    res.2 !! 0%nat = Some ev1 /\ res.2 !! 1%nat = Some (c, to_response c (o [ev1] c)).

(** Every error that the environment answers to a call of the handler
    itself (the client, the delete call, the wait for the task; not the
    checker's [Get]) ends the run at that call, with that error as the
    diagnostic and the resource data as it was. *)
Definition propagates_errors (handler : ResourceData -> prog outcome) : Prop :=
  forall (o : oracle) (d : ResourceData) c r e,
    let res := run o [] (handler d) in
    (c, r) ∈ res.2 -> is_Get c = false -> response_error r = Some e ->
    res.1 = Done d (diag_FromErr e) /\ last res.2 = Some (c, r).

(** The same, except for a typed 404 answered to the delete call. *)
Definition propagates_errors_but_404 (handler : ResourceData -> prog outcome) : Prop :=
  forall (o : oracle) (d : ResourceData) c r e,
    let res := run o [] (handler d) in
    (c, r) ∈ res.2 -> is_Get c = false -> response_error r = Some e ->
    (starts_task c = true -> errors_As_Default404 e = false) ->
    res.1 = Done d (diag_FromErr e) /\ last res.2 = Some (c, r).

(** A typed 404 answered to the delete call ends the run at that call as a
    success: no diagnostic, and the resource ID cleared. *)
Definition deleted_on_404 (handler : ResourceData -> prog outcome) : Prop :=
  forall (o : oracle) (d : ResourceData) c r e,
    let res := run o [] (handler d) in
    (c, r) ∈ res.2 -> starts_task c = true -> response_error r = Some e ->
    errors_As_Default404 e = true ->
    res.1 = Done (SetId d "") [] /\ last res.2 = Some (c, r).

(** The checker of a delete handler makes one call, the [Get] of the
    resource, and succeeds exactly when the answer is the typed 404: it
    returns an error when the [Get] succeeds and when it fails
    otherwise. *)
Definition deletion_checker_spec
    (checker : ServiceClient -> string -> TaskID -> prog (result unit))
    (get : ServiceClient -> string -> sdk_call) : Prop :=
  forall (o : oracle) (h : list event) client id task,
    let res := run o h (checker client id task) in
    exists g, res.2 = [(get client id, g)] /\
      (res.1 = Ok tt <-> is_404 g = true) /\
      (is_404 g = false -> exists e, res.1 = Err e).

(** A run of the delete handler that returns no diagnostic has cleared the
    resource ID, and its last call is the checker's [Get] of the resource,
    answered with the typed 404. *)
Definition delete_success_spec (handler : ResourceData -> prog outcome)
    (get : ServiceClient -> string -> sdk_call) : Prop :=
  forall (o : oracle) (d d' : ResourceData),
    let res := run o [] (handler d) in
    res.1 = Done d' [] ->
    d' = SetId d "" /\
    exists client g, last res.2 = Some (get client (Id d), g) /\ is_404 g = true.

(** [handler] deletes through [checker]: in a run in which [CreateClient]
    at [point] answers with a client, the delete call of the resource
    answers without error and with tasks, and the wait for the first of
    them under [timeout] ends without error, these are the first three
    calls, the checker comes next, and what the checker returns decides:
    on its success the handler returns no diagnostic and has cleared the
    resource ID, on its error that error is the diagnostic and the resource
    data are as they were. *)
Definition deletes_through_checker `{Env} (handler : ResourceData -> prog outcome)
    (point : string) (delete : ServiceClient -> string -> sdk_call) (timeout : Z)
    (checker : ServiceClient -> string -> TaskID -> prog (result unit)) : Prop :=
  forall (o : oracle) (d : ResourceData) client results taskID,
    let c1 := CreateClient point VersionPointV1 in
    let ev1 := (c1, RClient (Ok client)) in
    let c2 := delete client (Id d) in
    let ev2 := (c2, RTasks (results, None)) in
    let c3 := tasks_WaitForStatus client taskID timeout true in
    let ev3 := (c3, RError None) in
    let check := run o [ev1; ev2; ev3] (checker client (Id d) taskID) in
    to_response c1 (o [] c1) = RClient (Ok client) ->
    to_response c2 (o [ev1] c2) = RTasks (results, None) ->
    Tasks_0 results = Some taskID ->
    to_response c3 (o [ev1; ev2] c3) = RError None ->
    run o [] (handler d) =
      (match check.1 with
       | Ok _ => Done (SetId d "") []
       | Err e => Done d (diag_FromErr e)
       end, [ev1; ev2; ev3] ++ check.2).

(** ** Reading and updating an LB pool *)

(** The entries [resourceLBPoolRead] writes under "health_monitor". *)
Definition health_monitor_mirrors (hm : HealthMonitor) (v : option value) : Prop :=
  exists m, v = Some (VList [VMap m]) /\
    map_get m "id" = Some (VString (hm_ID hm)) /\
    map_get m "type" = Some (VString (hm_Type hm)) /\
    map_get m "delay" = Some (VInt (hm_Delay hm)) /\
    map_get m "timeout" = Some (VInt (hm_Timeout hm)) /\
    map_get m "max_retries" = Some (VInt (hm_MaxRetries hm)) /\
    map_get m "max_retries_down" = Some (VInt (hm_MaxRetriesDown hm)) /\
    map_get m "url_path" = Some (VString (hm_URLPath hm)) /\
    map_get m "expected_codes" = Some (VString (hm_ExpectedCodes hm)) /\
    map_get m "http_method" = VString <$> hm_HTTPMethod hm.

(** The entries [resourceLBPoolRead] writes under "session_persistence". *)
Definition session_persistence_mirrors (sp : SessionPersistence) (v : option value) : Prop :=
  exists m, v = Some (VList [VMap m]) /\
    map_get m "type" = Some (VString (sp_Type sp)) /\
    map_get m "cookie_name" = Some (VString (sp_CookieName sp)) /\
    map_get m "persistence_granularity" = Some (VString (sp_PersistenceGranularity sp)) /\
    map_get m "persistence_timeout" = Some (VInt (sp_PersistenceTimeout sp)).

(** The state [d'] after a read mirrors the pool [lb]; [d] is the state
    before the read. *)
Definition mirrors_pool (d d' : ResourceData) (lb : Pool) : Prop :=
  Get d' "name" = Some (VString (pool_Name lb)) /\
  Get d' "lb_algorithm" = Some (VString (pool_LoadBalancerAlgorithm lb)) /\
  Get d' "protocol" = Some (VString (pool_Protocol lb)) /\
  Get d' "loadbalancer_id" =
    match pool_LoadBalancers lb with
    | lb0 :: _ => Some (VString lb0)
    | [] => Get d "loadbalancer_id"
    end /\
  Get d' "listener_id" =
    match pool_Listeners lb with
    | ls0 :: _ => Some (VString ls0)
    | [] => Get d "listener_id"
    end /\
  match pool_HealthMonitor lb with
  | Some hm => health_monitor_mirrors hm (Get d' "health_monitor")
  | None => Get d' "health_monitor" = Get d "health_monitor"
  end /\
  match pool_SessionPersistence lb with
  | Some sp => session_persistence_mirrors sp (Get d' "session_persistence")
  | None => Get d' "session_persistence" = Get d "session_persistence"
  end.

(** One of the three attributes [resourceLBPoolUpdate] looks at has
    changed. *)
Definition lbpool_changed (d : ResourceData) : bool :=
  HasChange d "lb_algorithm" || HasChange d "health_monitor"
  || HasChange d "session_persistence".

Definition is_lbpools_Update (c : sdk_call) : bool :=
  match c with lbpools_Update _ _ _ => true | _ => false end.

Definition is_tasks_WaitForStatus (c : sdk_call) : bool :=
  match c with tasks_WaitForStatus _ _ _ _ => true | _ => false end.

Definition is_time_Now (c : sdk_call) : bool :=
  match c with time_Now => true | _ => false end.

(** The calls [resourceLBPoolUpdate] makes only to update the pool. *)
Definition is_update_step (c : sdk_call) : bool :=
  is_lbpools_Update c || is_tasks_WaitForStatus c || is_time_Now c.

(** ** The image data source *)

(** The image's name starts with [name], letter case apart. *)
Definition image_matches `{Env} (name : string) (img : Image) : bool :=
  String.prefix (strings_ToLower name) (strings_ToLower (img_Name img)).

(** ** Reconciling a router's interfaces *)

(** The subnet IDs of the [routers.Attach] calls of a trace, in order, and
    those of its [routers.Detach] calls. *)
Definition attach_calls (tr : list event) : list string :=
  omap (fun ev : event => match ev.1 with routers_Attach _ _ s => Some s | _ => None end) tr.

Definition detach_calls (tr : list event) : list string :=
  omap (fun ev : event => match ev.1 with routers_Detach _ _ s => Some s | _ => None end) tr.

Global Arguments attach_calls : simpl never.
Global Arguments detach_calls : simpl never.

Definition subnet_ids (ifs : list routers_Interface) : list string := map ri_SubnetID ifs.

Definition is_routers_Update (c : sdk_call) : bool :=
  match c with routers_Update _ _ _ => true | _ => false end.

Definition is_attach_detach (c : sdk_call) : bool :=
  match c with routers_Attach _ _ _ | routers_Detach _ _ _ => true | _ => false end.

(** The [Attach] and [Detach] calls of the trace [tr] reconcile the old
    interface set with the new one: one [Attach] for each subnet ID that is
    new, one [Detach] for each subnet ID that is gone, and no other. *)
Definition reconciled (old new : list string) (tr : list event) : Prop :=
  NoDup (attach_calls tr) /\
  (forall s, s ∈ attach_calls tr <-> s ∈ new /\ s ∉ old) /\
  NoDup (detach_calls tr) /\
  (forall s, s ∈ detach_calls tr <-> s ∈ old /\ s ∉ new).

(** What holds of the [Attach] and [Detach] calls of every run, also of one
    that an error ends early: at most one [Attach] for a subnet ID, and only
    for one that is new; at most one [Detach], and only for one that is
    gone. *)
Definition within_difference (old new : list string) (tr : list event) : Prop :=
  NoDup (attach_calls tr) /\
  (forall s, s ∈ attach_calls tr -> s ∈ new /\ s ∉ old) /\
  NoDup (detach_calls tr) /\
  (forall s, s ∈ detach_calls tr -> s ∈ old /\ s ∉ new).

(** ** Reading an LB pool: what is written *)

(** The attributes the read handler of the LB pool writes, with those its
    call of [revertState] names. *)
Definition LBPoolRead_fields : list string :=
  ["name"; "lb_algorithm"; "protocol"; "loadbalancer_id"; "listener_id"; "health_monitor";
   "session_persistence"; "project_id"; "region_id"].

(** ** The interfaces of a baremetal instance *)

(** The configured interface [x] matches an IP assignment on its subnet,
    its address or its port. *)
Definition interface_matches (subnetID ipAddress portID : string) (x : InterfaceOpts) : Prop :=
  io_SubnetID x = subnetID \/ io_IPAddress x = ipAddress \/ io_PortID x = portID.

(** [opts] is the first of the configured interfaces that matches, or the
    zero value when none does. *)
Definition first_match (extracted : list InterfaceOpts) (subnetID ipAddress portID : string)
    (opts : InterfaceOpts) : Prop :=
  (Forall (fun x => ~ interface_matches subnetID ipAddress portID x) extracted /\
   opts = BmInstance.InterfaceOpts_zero) \/
  (exists before after,
     extracted = before ++ opts :: after /\
     Forall (fun x => ~ interface_matches subnetID ipAddress portID x) before /\
     interface_matches subnetID ipAddress portID opts).

(** What an entry [v] of the "interface" list says: where the IP
    assignment [a] sits, and the type and the floating IP of the
    configured interface matched with it. *)
Definition interface_entry `{Env} (extracted : list InterfaceOpts) (v : value) (order : nat)
    (networkID portID : string) (is_parent : bool) (a : PortIP) : Prop :=
  let m := value_map v in
  map_get m "order" = Some (VInt (Z.of_nat order)) /\
  map_get m "network_id" = Some (VString networkID) /\
  map_get m "subnet_id" = Some (VString (pip_SubnetID a)) /\
  map_get m "port_id" = Some (VString portID) /\
  map_get m "is_parent" = Some (VBool is_parent) /\
  map_get m "ip_address" = Some (VString (IP_String (pip_IPAddress a))) /\
  exists opts,
    first_match extracted (pip_SubnetID a) (IP_String (pip_IPAddress a)) portID opts /\
    map_get m "type" = Some (VString (io_Type opts)) /\
    map_get m "fip_source" = (fun fip => VString (fip_Source fip)) <$> io_FloatingIP opts /\
    map_get m "existing_fip_id" =
      (fun fip => VString (fip_ExistingFloatingID fip)) <$> io_FloatingIP opts.

(** The entry [v] stands for an IP assignment of an interface of the API's
    list that has an IP assignment of its own: an assignment of that
    interface, or one of a sub-port of it. *)
Definition entry_of_interfaces `{Env} (extracted : list InterfaceOpts)
    (interfacesListAPI : list instances_Interface) (v : value) : Prop :=
  exists order iFace a,
    interfacesListAPI !! order = Some iFace /\
    iif_IPAssignments iFace <> [] /\
    ((a ∈ iif_IPAssignments iFace /\
      interface_entry extracted v order (iif_NetworkID iFace) (iif_PortID iFace) true a) \/
     (exists sp, sp ∈ iif_SubPorts iFace /\ a ∈ subp_IPAssignments sp /\
        interface_entry extracted v order (subp_NetworkID sp) (subp_PortID sp) false a)).

(** The number of IP assignments that get an entry: those of each
    interface of the API's list that has at least one of its own, and
    those of the sub-ports of such an interface. *)
Definition listed_assignments (interfacesListAPI : list instances_Interface) : nat :=
  sum_list_with
    (fun iFace =>
       match iif_IPAssignments iFace with
       | [] => 0
       | _ :: _ =>
           length (iif_IPAssignments iFace)
           + sum_list_with (fun sp => length (subp_IPAssignments sp)) (iif_SubPorts iFace)
       end%nat)
    interfacesListAPI.

(** The attributes the read handler of the baremetal instance writes
    before it lists the interfaces. *)
Definition BmInstanceRead_first_fields : list string :=
  ["name"; "flavor_id"; "status"; "vm_state"; "flavor"].

(** The keys of the entries of the "metadata" attribute. *)
Definition metadata_keys (metadata : list value) : list string :=
  map (fun data => map_string (value_map data) "key") metadata.

(** ** Reading a router *)

(** What an entry [v] of the router's "interfaces" says of the IP
    assignment [subnet] of the interface [iface]. *)
Definition router_interface_entry `{Env} (v : value) (iface : RouterInterface)
    (subnet : PortIP) : Prop :=
  let m := value_map v in
  map_get m "port_id" = Some (VString (rif_PortID iface)) /\
  map_get m "network_id" = Some (VString (rif_NetworkID iface)) /\
  map_get m "mac_address" = Some (VString (HardwareAddr_String (rif_MacAddress iface))) /\
  map_get m "type" = Some (VString "subnet") /\
  map_get m "subnet_id" = Some (VString (pip_SubnetID subnet)) /\
  map_get m "ip_address" = Some (VString (IP_String (pip_IPAddress subnet))).

(** The state [d'] after a read mirrors the router; [d] is the state before
    the read.  The name is the router's.  The interfaces are the set made
    of a list that has an element for each IP assignment of each interface
    of the router, and as many elements as there are such assignments.  The
    routes are the router's, in their order.  The external gateway is
    written only for a router that has external fixed IPs: with its SNAT
    flag, its network, the address and the subnet of each of the router's
    fixed IPs, in their order, and the type that the state had, if it had
    one. *)
Definition mirrors_router `{Env} (d d' : ResourceData) (router : Router) : Prop :=
  Get d' "name" = Some (VString (router_Name router)) /\
  (exists ifs,
     Get d' "interfaces" = Some (schema_NewSet routerInterfaceUniqueID ifs) /\
     length ifs
     = sum_list_with (fun iface => length (rif_IPAssignments iface))
         (router_Interfaces router) /\
     (forall v, v ∈ ifs ->
        exists iface subnet, iface ∈ router_Interfaces router /\
          subnet ∈ rif_IPAssignments iface /\ router_interface_entry v iface subnet) /\
     (forall iface subnet, iface ∈ router_Interfaces router ->
        subnet ∈ rif_IPAssignments iface ->
        exists v, v ∈ ifs /\ router_interface_entry v iface subnet)) /\
  (exists rs,
     Get d' "routes" = Some (VList rs) /\
     length rs = length (router_Routes router) /\
     forall i r, router_Routes router !! i = Some r ->
       exists m, rs !! i = Some (VMap m) /\
         map_get m "destination" = Some (VString (CIDR_String (hr_Destination r))) /\
         map_get m "nexthop" = Some (VString (IP_String (hr_NextHop r)))) /\
  let egi := router_ExternalGatewayInfo router in
  match egi_ExternalFixedIPs egi with
  | [] => Get d' "external_gateway_info" = Get d "external_gateway_info"
  | _ :: _ =>
      exists m efip,
        Get d' "external_gateway_info" = Some (VList [VMap m]) /\
        map_get m "enable_snat" = Some (VBool (egi_EnableSNat egi)) /\
        map_get m "network_id" = Some (VString (egi_NetworkID egi)) /\
        map_get m "external_fixed_ips" = Some (VList efip) /\
        length efip = length (egi_ExternalFixedIPs egi) /\
        (forall i fip, egi_ExternalFixedIPs egi !! i = Some fip ->
           exists fm, efip !! i = Some (VMap fm) /\
             map_get fm "ip_address" = Some (VString (efip_IPAddress fip)) /\
             map_get fm "subnet_id" = Some (VString (efip_SubnetID fip))) /\
        match Get_list d "external_gateway_info" with
        | [] => map_get m "type" = None
        | egist =>
            exists gws, extractExternalGatewayInfoMap egist = Ok gws /\
              map_get m "type" = Some (VString (gw_Type gws))
        end
  end.

(** ** Create handlers: the read at the end *)

(** When the [Get] of the read at the end of the create handler fails, the
    handler still returns no diagnostic: the resource data are those it was
    given, under the new ID. *)
Definition drops_read_error (handler : ResourceData -> prog outcome)
    (get : ServiceClient -> string -> sdk_call) : Prop :=
  forall (o : oracle) (d : ResourceData) client id r e,
    let res := run o [] (handler d) in
    (get client id, r) ∈ res.2 -> response_error r = Some e ->
    exists id', res.1 = Done (SetId d id') [].

(** ** Importers *)

(** What an importer returns for the resource data [d]: one resource, with
    the ID [id] and the attributes [fields], and otherwise as [d] is. *)
Definition imported (d : ResourceData) (fields : list (string * value)) (id : string)
    (r : result (list ResourceData)) : Prop :=
  exists d',
    r = Ok [d'] /\
    Id d' = id /\
    (forall k v, (k, v) ∈ fields -> Get d' k = Some v) /\
    (forall k, k ∉ fields.*1 -> Get d' k = Get d k) /\
    rd_old d' = rd_old d.

(** * An environment to run the handlers in *)

Module Demo.

(** [strings.ToLower] on ASCII text. *)
Definition ascii_ToLower (a : ascii) : ascii :=
  let n := nat_of_ascii a in
  if (65 <=? n)%nat && (n <=? 90)%nat then ascii_of_nat (n + 32) else a.

Fixpoint ToLower (s : string) : string :=
  match s with
  | EmptyString => EmptyString
  | String a s' => String (ascii_ToLower a) (ToLower s')
  end.

(** The first ID a finished task lists under [kind]. *)
Definition first_created (kind : string) (task : TaskInfo) : result string :=
  match list_find (fun kv : string * list string => kv.1 = kind) (ti_CreatedResources task) with
  | Some (_, (_, id :: _)) => Ok id
  | _ => Err (ErrorString ("cannot decode " +:+ kind +:+ " information in task structure"))
  end.

(** A [revertState]: after an update ("last_updated" is
    set), the listed fields that changed go back to their old value. *)
Definition revert_field (d : ResourceData) (field : string) : ResourceData :=
  if HasChange d field then
    match rd_old d !! field with
    | Some v => mkResourceData (rd_Id d) (rd_old d) (<[field := v]> (rd_new d))
    | None => d
    end
  else d.

Definition revert_fields (d : ResourceData) (fields : list string) : ResourceData :=
  if bool_decide (Get_string d "last_updated" = "") then d
  else foldl revert_field d fields.

(** An [extractInterfacesMap]: the "type" and "subnet_id" of each element. *)
Definition interfaces_of (ifs : list value) : result (list routers_Interface) :=
  Ok (map (fun v => {| ri_Type := map_string (value_map v) "type";
                       ri_SubnetID := map_string (value_map v) "subnet_id" |}) ifs).

Definition key_values (metadata : list value) : result (list MetadataOpts) :=
  Ok (map (fun v => {| md_Key := map_string (value_map v) "key";
                       md_Value := map_string (value_map v) "value" |}) metadata).

Definition metadata_of_map (metadata : list (string * value)) : list MetadataOpts :=
  map (fun kv : string * value => {| md_Key := kv.1; md_Value := value_string kv.2 |}) metadata.

Definition metadata_readonly (metadata : list ImageMetadata) : value :=
  VList (map (fun md => VMap [("key", VString (imd_Key md));
                              ("value", VString (imd_Value md));
                              ("read_only", VBool (imd_ReadOnly md))]) metadata).

#[local] Instance env : Env := {|
  net_ParseIP := fun s => if bool_decide (s = "10.0.0.7") then Some [10; 0; 0; 7]%N else None;
  IP_String := fun ip => if bool_decide (ip = [10; 0; 0; 7]%N) then "10.0.0.7" else "";
  HardwareAddr_String := fun _ => "00:00:00:00:00:00";
  CIDR_String := fun _ => "0.0.0.0/0";
  strings_ToLower := ToLower;
  strconv_Itoa := pretty;
  range_order := map_to_list;
  field_writer := fun _ _ => None;
  schema_NewSet := fun _ l => VSet l;
  ExtractPoolIDFromTask := first_created "pools";
  ExtractPoolMemberIDFromTask := first_created "members";
  ExtractRouterIDFromTask := first_created "routers";
  ExtractInstanceIDFromTask := first_created "instances";
  VersionPointV1 := "v1";
  InstancePoint := "instances";
  InstanceCreatingTimeout := 1200;
  revertState := revert_fields;
  extractHealthMonitorMap := fun _ => None;
  extractSessionPersistenceMap := fun _ => None;
  extractExternalGatewayInfoMap := fun _ =>
    Ok {| gw_Type := "default"; gw_EnableSNat := None; gw_NetworkID := "" |};
  extractInterfacesMap := interfaces_of;
  extractHostRoutesMap := fun _ => Ok [];
  routerInterfaceUniqueID := fun _ => 0;
  sort_instanceInterfaces := fun l => l;
  extractInstanceInterfaceToListRead := fun _ => Ok [];
  extractKeyValue := key_values;
  extractMetadataMap := metadata_of_map;
  PrepareMetadataReadonly := metadata_readonly;
|}.

(** *** What the cloud holds *)

Definition client : ServiceClient :=
  {| sc_Endpoint := "https://api.example"; sc_point := ""; sc_version := "v1" |}.

Definition task : TaskInfo :=
  {| ti_ID := "task-1"; ti_State := "FINISHED";
     ti_CreatedResources := [("pools", ["pool-1"]); ("members", ["member-1"]);
                             ("routers", ["router-1"]); ("instances", ["instance-1"])] |}.

Definition pool : Pool :=
  {| pool_ID := "pool-1"; pool_Name := "web"; pool_LoadBalancerAlgorithm := "ROUND_ROBIN";
     pool_Protocol := "HTTP"; pool_LoadBalancers := ["lb-1"; "lb-2"]; pool_Listeners := [];
     pool_HealthMonitor :=
       Some {| hm_ID := "hm-1"; hm_Type := "HTTP"; hm_Delay := 10; hm_Timeout := 5;
               hm_MaxRetries := 3; hm_MaxRetriesDown := 2; hm_URLPath := "/";
               hm_ExpectedCodes := "200"; hm_HTTPMethod := Some "GET" |};
     pool_SessionPersistence := None;
     pool_Members := [] |}.

Definition router : Router :=
  {| router_ID := "router-1"; router_Name := "edge";
     router_ExternalGatewayInfo :=
       {| egi_EnableSNat := false; egi_NetworkID := ""; egi_ExternalFixedIPs := [] |};
     router_Interfaces := []; router_Routes := [] |}.

Definition instance : Instance :=
  {| inst_ID := "instance-1"; inst_Name := "bm";
     inst_Flavor := {| fl_FlavorID := "bm1"; fl_FlavorName := "bm1"; fl_RAM := 1; fl_VCPUS := 1 |};
     inst_Status := "ACTIVE"; inst_VMState := "active"; inst_Addresses := [] |}.

Definition images : list Image :=
  [ {| img_ID := "img-1"; img_Name := "debian-12"; img_MinDisk := 5; img_MinRAM := 1;
       img_OsDistro := "debian"; img_OsVersion := "12"; img_Description := "";
       img_Metadata := [] |};
    {| img_ID := "img-2"; img_Name := "Ubuntu-22.04-x64"; img_MinDisk := 5; img_MinRAM := 1;
       img_OsDistro := "ubuntu"; img_OsVersion := "22.04"; img_Description := "";
       img_Metadata := [] |};
    {| img_ID := "img-3"; img_Name := "ubuntu-20.04-x64"; img_MinDisk := 5; img_MinRAM := 1;
       img_OsDistro := "ubuntu"; img_OsVersion := "20.04"; img_Description := "";
       img_Metadata := [] |} ].

Definition not_found : error := Default404Error "resource not found".

(** The answer to a request that starts a task. *)
Definition started : option TaskResults := Some {| Tasks := ["task-1"] |}.

(** A cloud in which every request succeeds; a deleted resource is gone
    when the checker looks ([gone]), and a task started is ["task-1"]. *)
Definition cloud (gone : bool) : oracle := fun _ c =>
  match c return sdk_resp c with
  | CreateClient _ _ => Ok client
  | lbpools_Create _ _ | lbpools_Update _ _ _ | lbpools_Delete _ _
  | lbpools_CreateMember _ _ _ | lbpools_DeleteMember _ _ _
  | routers_Create _ _ | routers_Delete _ _
  | bminstances_Create _ _ | instances_Delete _ _ _ =>
      (started, None)
  | lbpools_Get _ _ => if gone then Err not_found else Ok pool
  | tasks_Get _ _ => Ok task
  | tasks_WaitForStatus _ _ _ _ => None
  | routers_Get _ _ => if gone then Err not_found else Ok router
  | routers_Update _ _ _ | routers_Attach _ _ _ | routers_Detach _ _ _ => Ok router
  | instances_Get _ _ => if gone then Err not_found else Ok instance
  | instances_ListInterfacesAll _ _ =>
      Ok [ {| iif_PortID := "port-1"; iif_NetworkID := "net-1"; iif_IPAssignments := [];
              iif_SubPorts := [] |} ]
  | instances_MetadataGet _ _ key => Ok {| md_Key := key; md_Value := "" |}
  | images_ListAll _ _ => Ok images
  | time_Now => "Saturday, 31-Oct-26 10:00:00 UTC"
  end.

(** A cloud in which the resource to delete does not exist: the delete
    request is answered with the typed 404 and no task. *)
Definition cloud_without_resource : oracle := fun h c =>
  match c return sdk_resp c with
  | lbpools_Delete _ _ | lbpools_DeleteMember _ _ _
  | routers_Delete _ _ | instances_Delete _ _ _ => (None, Some not_found)
  | c' => cloud true h c'
  end.

(** *** Resource data *)

Definition resource (id : string) (old new : list (string * value)) : ResourceData :=
  {| rd_Id := id; rd_old := list_to_map old; rd_new := list_to_map new |}.

(** A pool to create. *)
Definition new_pool : ResourceData :=
  resource "" [] [("name", VString "web"); ("lb_algorithm", VString "ROUND_ROBIN");
                  ("protocol", VString "HTTP"); ("listener_id", VString "listener-9")].

(** The create call that [resourceLBPoolCreate] makes for it. *)
Definition create_new_pool : sdk_call :=
  lbpools_Create client
    {| lco_Name := "web"; lco_Protocol := "HTTP"; lco_LBPoolAlgorithm := "ROUND_ROBIN";
       lco_LoadBalancerID := ""; lco_ListenerID := "listener-9";
       lco_HealthMonitor := None; lco_SessionPersistence := None |}.

(** The pool ["pool-1"], as the state has it before a read. *)
Definition known_pool : ResourceData :=
  resource "pool-1" [] [("name", VString "old"); ("listener_id", VString "listener-9")].

(** The pool ["pool-1"] with a new name and nothing else changed, and with
    a new algorithm. *)
Definition renamed_pool : ResourceData :=
  resource "pool-1"
    [("name", VString "old"); ("lb_algorithm", VString "ROUND_ROBIN")]
    [("name", VString "web"); ("lb_algorithm", VString "ROUND_ROBIN")].

Definition rebalanced_pool : ResourceData :=
  resource "pool-1"
    [("name", VString "web"); ("lb_algorithm", VString "ROUND_ROBIN")]
    [("name", VString "web"); ("lb_algorithm", VString "SOURCE_IP")].

(** A router to delete. *)
Definition known_router : ResourceData :=
  resource "router-1" [] [("name", VString "edge")].

(** A pool member to delete. *)
Definition member : ResourceData :=
  resource "member-1" [] [("pool_id", VString "pool-1")].

Definition interface (subnet : string) : value :=
  VMap [("type", VString "subnet"); ("subnet_id", VString subnet)].

(** A router whose interfaces change from subnets a and b to b and c. *)
Definition changed_router : ResourceData :=
  resource "router-1"
    [("name", VString "edge"); ("interfaces", VSet [interface "a"; interface "b"])]
    [("name", VString "edge"); ("interfaces", VSet [interface "b"; interface "c"])].

(** An image looked up by the start of its name, in another letter case. *)
Definition image_query : ResourceData :=
  resource "" [] [("name", VString "UBUNTU")].

End Demo.

(** * Further cases to run the handlers on *)

Module Scenarios.

(** *** A pool with members *)

Definition member_at (id address_last : string) (port weight : Z) : PoolMember :=
  {| pm_ID := id; pm_Address := Some [10; 0; 0; 7]%N; pm_ProtocolPort := port;
     pm_Weight := weight;
     pm_SubnetID := "subnet-" +:+ address_last; pm_InstanceID := "instance-" +:+ address_last;
     pm_OperatingStatus := "ONLINE" |}.

Definition pool_with_members : Pool :=
  {| pool_ID := "pool-1"; pool_Name := "web"; pool_LoadBalancerAlgorithm := "ROUND_ROBIN";
     pool_Protocol := "HTTP"; pool_LoadBalancers := ["lb-1"]; pool_Listeners := [];
     pool_HealthMonitor := None; pool_SessionPersistence := None;
     pool_Members := [member_at "member-0" "a" 80 1; member_at "member-1" "b" 8080 2;
                      member_at "member-2" "c" 443 3; member_at "member-1" "d" 8443 4] |}.

(** The cloud of [Demo.cloud] whose pool has these members. *)
Definition cloud_with_members : oracle := fun h c =>
  match c return sdk_resp c with
  | lbpools_Get _ _ => Ok pool_with_members
  | c' => Demo.cloud false h c'
  end.

(** The pool, had the API returned its member ["member-1"] without an
    address, and a cloud with that pool. *)
Definition pool_with_unaddressed_member : Pool :=
  {| pool_ID := "pool-1"; pool_Name := "web"; pool_LoadBalancerAlgorithm := "ROUND_ROBIN";
     pool_Protocol := "HTTP"; pool_LoadBalancers := ["lb-1"]; pool_Listeners := [];
     pool_HealthMonitor := None; pool_SessionPersistence := None;
     pool_Members :=
       [member_at "member-0" "a" 80 1;
        {| pm_ID := "member-1"; pm_Address := None; pm_ProtocolPort := 8080; pm_Weight := 2;
           pm_SubnetID := "subnet-b"; pm_InstanceID := "instance-b";
           pm_OperatingStatus := "ONLINE" |}] |}.

Definition cloud_with_unaddressed_member : oracle := fun h c =>
  match c return sdk_resp c with
  | lbpools_Get _ _ => Ok pool_with_unaddressed_member
  | c' => Demo.cloud false h c'
  end.

(** A member to create in the pool ["pool-1"]. *)
Definition new_member : ResourceData :=
  Demo.resource "" []
    [("pool_id", VString "pool-1"); ("address", VString "10.0.0.7");
     ("protocol_port", VInt 8080); ("weight", VInt 2)].

(** A member that the pool does not list. *)
Definition lost_member : ResourceData :=
  Demo.resource "member-9" [] [("pool_id", VString "pool-1"); ("weight", VInt 7)].

(** The member ["member-1"] with a new weight. *)
Definition reweighted_member : ResourceData :=
  Demo.resource "member-1"
    [("pool_id", VString "pool-1"); ("address", VString "10.0.0.7");
     ("protocol_port", VInt 8080); ("weight", VInt 2)]
    [("pool_id", VString "pool-1"); ("address", VString "10.0.0.7");
     ("protocol_port", VInt 8080); ("weight", VInt 9)].

(** *** A pool with a timestamp *)

Definition stamped_pool : ResourceData :=
  Demo.resource "pool-1" []
    [("name", VString "old"); ("last_updated", VString "Friday, 30-Oct-26 09:00:00 UTC")].

(** *** Routers *)

(** A router of which nothing has changed. *)
Definition unchanged_router : ResourceData :=
  Demo.resource "router-1" [("name", VString "edge")] [("name", VString "edge")].

(** A router to create, on the subnet a. *)
Definition new_router : ResourceData :=
  Demo.resource "" []
    [("name", VString "edge"); ("interfaces", VSet [Demo.interface "a"])].

(** The cloud of [Demo.cloud] in which no interface can be attached. *)
Definition cloud_refusing_attach : oracle := fun h c =>
  match c return sdk_resp c with
  | routers_Attach _ _ _ => Err (ErrorString "subnet is in use")
  | c' => Demo.cloud false h c'
  end.

(** A router with a gateway, two interfaces and a route. *)
Definition connected_router : Router :=
  {| router_ID := "router-1"; router_Name := "edge";
     router_ExternalGatewayInfo :=
       {| egi_EnableSNat := true; egi_NetworkID := "net-ext";
          egi_ExternalFixedIPs := [ {| efip_IPAddress := "192.0.2.7"; efip_SubnetID := "ext" |} ] |};
     router_Interfaces :=
       [ {| rif_PortID := "port-1"; rif_NetworkID := "net-1"; rif_MacAddress := [];
            rif_IPAssignments := [ {| pip_IPAddress := [10; 0; 0; 7]%N; pip_SubnetID := "a" |};
                                   {| pip_IPAddress := []; pip_SubnetID := "b" |} ] |};
         {| rif_PortID := "port-2"; rif_NetworkID := "net-2"; rif_MacAddress := [];
            rif_IPAssignments := [] |} ];
     router_Routes := [ {| hr_Destination := ([10; 0; 1; 0]%N, 24%N); hr_NextHop := [10; 0; 0; 7]%N |} ] |}.

Definition cloud_with_connected_router : oracle := fun h c =>
  match c return sdk_resp c with
  | routers_Get _ _ => Ok connected_router
  | c' => Demo.cloud false h c'
  end.

(** *** A baremetal instance without interfaces *)

Definition cloud_without_interfaces : oracle := fun h c =>
  match c return sdk_resp c with
  | instances_ListInterfacesAll _ _ => Ok []
  | c' => Demo.cloud false h c'
  end.

Definition known_instance : ResourceData :=
  Demo.resource "instance-1" [] [("name", VString "old"); ("image_id", VString "img-2")].

(** A baremetal instance to create. *)
Definition new_instance : ResourceData :=
  Demo.resource "" []
    [("name", VString "bm"); ("flavor_id", VString "bm1"); ("image_id", VString "img-2")].

(** *** Import strings *)

(** Parsers of the import strings ["1:2:pool-1"] and
    ["1:2:member-1:pool-1"], and of no other. *)
Definition parse_import (s : string) : result (Z * Z * string) :=
  if bool_decide (s = "1:2:pool-1") then Ok (1, 2, "pool-1")
  else Err (ErrorString "failed import: wrong input id").

Definition parse_import_extended (s : string) : result (Z * Z * string * string) :=
  if bool_decide (s = "1:2:member-1:pool-1") then Ok (1, 2, "member-1", "pool-1")
  else Err (ErrorString "failed import: wrong input id").

Definition to_import (s : string) : ResourceData := Demo.resource s [] [].

(** *** The interfaces of a baremetal instance *)

(** The interfaces of the configuration: one on a subnet, one on a port
    with a floating IP. *)
Definition configured_interfaces : list InterfaceOpts :=
  [ {| io_Type := "subnet"; io_NetworkID := "net-1"; io_SubnetID := "a"; io_PortID := "";
       io_IPAddress := ""; io_FloatingIP := None |};
    {| io_Type := "reserved_fixed_ip"; io_NetworkID := ""; io_SubnetID := ""; io_PortID := "port-3";
       io_IPAddress := "";
       io_FloatingIP := Some {| fip_Source := "new"; fip_ExistingFloatingID := "" |} |} ].

Definition assignment (subnet : string) : PortIP :=
  {| pip_IPAddress := [10; 0; 0; 7]%N; pip_SubnetID := subnet |}.

(** The interfaces of the API: a trunk without IP assignment whose sub-port
    has one, and a trunk on subnet a with a sub-port on the port
    ["port-3"]. *)
Definition listed_interfaces : list instances_Interface :=
  [ {| iif_PortID := "port-0"; iif_NetworkID := "net-0"; iif_IPAssignments := [];
       iif_SubPorts := [ {| subp_PortID := "port-1"; subp_NetworkID := "net-0";
                            subp_IPAssignments := [assignment "z"] |} ] |};
    {| iif_PortID := "port-2"; iif_NetworkID := "net-1"; iif_IPAssignments := [assignment "a"];
       iif_SubPorts := [ {| subp_PortID := "port-3"; subp_NetworkID := "net-3";
                            subp_IPAssignments := [assignment "c"] |} ] |} ].

(** *** Metadata *)

Definition metadata_entry (key : string) : value :=
  VMap [("key", VString key); ("value", VString "")].

(** A cloud that knows no metadata under the key ["owner"]. *)
Definition cloud_without_owner : oracle := fun h c =>
  match c return sdk_resp c with
  | instances_MetadataGet _ _ key =>
      if bool_decide (key = "owner") then Err Demo.not_found
      else Ok {| md_Key := key; md_Value := "v-" +:+ key |}
  | c' => Demo.cloud false h c'
  end.

(** *** An image query with filters *)

Definition baremetal_image_query : ResourceData :=
  Demo.resource "" []
    [("name", VString "ubuntu"); ("is_baremetal", VBool true);
     ("metadata_k", VString "os"); ("metadata_kv", VMap [("arch", VString "x64")])].

End Scenarios.

(** * Proofs *)

(** ** Tactics *)

(** Case analysis on the scrutinee of an innermost [match] of the goal. *)
Ltac destruct_inner :=
  match goal with
  | |- context [match ?x with _ => _ end] =>
      lazymatch x with
      | context [match _ with _ => _ end] => fail
      | _ => destruct x eqn:?
      end
  end.

(** Case analysis on the membership [Hin] of an event in an explicit
    trace. *)
Ltac in_trace Hin :=
  repeat (apply elem_of_cons in Hin as [Hin|Hin]);
  [ .. | apply elem_of_nil in Hin; destruct Hin ].

(** Case analysis on the next answer of the environment [o]: the one whose
    history holds no pending answer. *)
Tactic Notation "answer" constr(o) "as" simple_intropattern(pat) :=
  match goal with
  | |- context [o ?h ?c] =>
      lazymatch h with
      | context [o _ _] => fail
      | _ => destruct (o h c) as pat eqn:?
      end
  end.

(** An event of a one-call trace that is not that call. *)
Ltac single_event :=
  let Hin := fresh in
  intros Hin; apply list_elem_of_singleton in Hin; discriminate.

(** ** Runs of programs *)

(** A run of a call and of what follows it. *)
Lemma run_Call {A} o h c (k : sdk_resp c -> prog A) :
  run o h (Call c k) =
    ((run o (h ++ [(c, to_response c (o h c))]) (k (o h c))).1,
     (c, to_response c (o h c)) :: (run o (h ++ [(c, to_response c (o h c))]) (k (o h c))).2).
Proof. cbn. by destruct (run _ _ _). Qed.

(** A run of [bind p f] is a run of [p] followed by a run of [f]. *)
Lemma run_bind {A B} (o : oracle) (p : prog A) (f : A -> prog B) h :
  run o h (bind p f) =
    let '(a, t1) := run o h p in
    let '(b, t2) := run o (h ++ t1) (f a) in
    (b, t1 ++ t2).
Proof.
  revert h. induction p as [a|c k IH]; intros h; cbn.
  - rewrite app_nil_r. by destruct (run o h (f a)).
  - rewrite IH. destruct (run o _ (k _)) as [a t1].
    rewrite <- app_assoc. cbn. by destruct (run o _ (f a)).
Qed.

Lemma returns_bind {A B} (p : prog A) (f : A -> prog B) (Q : B -> Prop) :
  returns p (fun a => returns (f a) Q) -> returns (bind p f) Q.
Proof. induction p; cbn; auto. Qed.

Lemma calls_only_bind {A B} P (p : prog A) (f : A -> prog B) :
  calls_only P p -> (forall a, calls_only P (f a)) -> calls_only P (bind p f).
Proof. induction p; cbn; intuition. Qed.

(** [returns] and [calls_only] speak of every run. *)
Lemma returns_run {A} (p : prog A) Q o h : returns p Q -> Q (run o h p).1.
Proof.
  revert h. induction p as [a|c k IH]; intros h Hp; cbn in *; auto.
  specialize (IH (o h c) (h ++ [(c, to_response c (o h c))]) (Hp _)).
  by destruct (run o _ (k _)).
Qed.

Lemma calls_only_run {A} (p : prog A) P o h :
  calls_only P p -> Forall (fun ev : event => P ev.1) (run o h p).2.
Proof.
  revert h. induction p as [a|c k IH]; intros h Hp; cbn in *; auto.
  destruct Hp as [Hc Hk].
  specialize (IH (o h c) (h ++ [(c, to_response c (o h c))]) (Hk _)).
  destruct (run o _ (k _)). cbn in *. by constructor.
Qed.

Lemma returns_mono {A} (p : prog A) (Q Q' : A -> Prop) :
  (forall a, Q a -> Q' a) -> returns p Q -> returns p Q'.
Proof. induction p; cbn; eauto. Qed.

Lemma to_response_RTasks c r x : to_response c r = RTasks x -> starts_task c = true.
Proof. destruct c; cbn; congruence. Qed.

(** An answer in a trace has the type of its call, so that a program that
    starts no task has no [RTasks] answer in its traces. *)
Lemma run_typed {A} (p : prog A) o h :
  Forall (fun ev : event => exists r, ev.2 = to_response ev.1 r) (run o h p).2.
Proof.
  revert h. induction p as [a|c k IH]; intros h; cbn; [constructor|].
  specialize (IH (o h c) (h ++ [(c, to_response c (o h c))])).
  destruct (run o _ (k _)). cbn in *. constructor; eauto.
Qed.

Lemma no_task_event {A} (p : prog A) o h c x :
  calls_only no_task p ->
  (c, RTasks x) ∈ (run o h p).2 -> False.
Proof.
  intros Hp Hin.
  pose proof (calls_only_run _ _ o h Hp) as H1.
  pose proof (run_typed p o h) as H2.
  rewrite Forall_forall in H1, H2.
  specialize (H1 _ Hin). destruct (H2 _ Hin) as [r Hr]. cbn in *.
  symmetry in Hr. apply to_response_RTasks in Hr. congruence.
Qed.

(** ** Writes keep the resource ID *)

Section SetField.
Context `{Env}.

Lemma d_Set_Id d k v : Id (d_Set d k v).1 = Id d.
Proof. unfold d_Set. by destruct (field_writer k v). Qed.

Lemma d_Set__Id d k v : Id (d_Set_ d k v) = Id d.
Proof. apply d_Set_Id. Qed.

End SetField.

(** Turn the equations [d_Set d k v = (d', _)] of the context into
    [Id d' = Id d]. *)
Ltac use_d_Set_Id :=
  repeat match goal with
  | Hs : d_Set ?d ?k ?v = (?d', _) |- _ =>
      let E := fresh in pose proof (d_Set_Id d k v) as E; rewrite Hs in E; cbn in E; clear Hs
  end.

(** ** Create handlers *)

Lemma keeps_Id_read_spec read :
  (forall d, returns (read d) (keeps_Id d)) -> read_spec read no_panic.
Proof.
  intros Hread d o h. pose proof (returns_run _ _ o h (Hread d)) as Hr.
  by destruct (run o h (read d)).1.
Qed.

Lemma no_panic_upward : upward no_panic.
Proof. by intros id tr tr' _ []. Qed.

Lemma member_without_address_upward : upward member_without_address.
Proof.
  intros id tr tr' Hsub (client & pid & pool & Hin & Hex).
  exists client, pid, pool. split; [by apply Hsub|done].
Qed.

(** [created] holds of the common end of the create handlers, in any run
    and within any longer trace. *)
Lemma created_mono timeout extract msg read_panics d client results err out tr tr' :
  upward read_panics ->
  tr ⊆ tr' ->
  created timeout extract msg read_panics d client results err out tr ->
  created timeout extract msg read_panics d client results err out tr'.
Proof.
  intros Hup Hsub. unfold created.
  destruct err; [done|]. destruct (Tasks_0 results); [|done].
  intros (w & Hw & Hrest). exists w. split; [by apply Hsub|].
  destruct w; [done|]. destruct Hrest as (g & Hg & Hrest). exists g. split; [by apply Hsub|].
  destruct g as [ti|e]; [|done]. destruct (extract ti); [|done].
  destruct Hrest as [Hd|[Hp Hr]]; [by left|]. right. split; [done|]. by eapply Hup.
Qed.

Lemma create_tail_created read timeout extract msg read_panics d client results err o h :
  upward read_panics ->
  read_spec read read_panics ->
  let r := run o h (create_tail read timeout extract msg d client (results, err)) in
  created timeout extract msg read_panics d client results err r.1 r.2.
Proof.
  intros Hup Hread. unfold created. cbn.
  destruct err as [e|]; cbn; [done|].
  destruct (Tasks_0 results) as [taskID|]; cbn; [|done].
  destruct (o h _) as [e|] eqn:Ew; cbn.
  { eexists. split; [left|]. done. }
  destruct (o _ (tasks_Get _ _)) as [ti|e] eqn:Eg; cbn.
  2:{ eexists. split; [left|]. cbn. eexists. split; [right; left|]. done. }
  destruct (extract ti) as [id|e] eqn:Ex; cbn.
  2:{ eexists. split; [left|]. cbn. eexists. split; [right; left|]. cbn. by rewrite Ex. }
  rewrite run_bind.
  pose proof (Hread (SetId d id) o
                ((h ++ [(tasks_WaitForStatus client taskID timeout true, RError None)]) ++
                 [(tasks_Get client taskID, RTaskInfo (Ok ti))])) as Hr.
  destruct (run o _ (read _)) as [rr t1]. cbn in Hr.
  destruct rr as [d' ds|]; cbn.
  - eexists. split; [left|]. cbn. eexists. split; [right; left|]. cbn. rewrite Ex.
    left. eexists. split; [done|]. done.
  - eexists. split; [left|]. cbn. eexists. split; [right; left|]. cbn. rewrite Ex.
    right. split; [done|]. eapply Hup; [|exact Hr].
    intros ev Hev. rewrite app_nil_r. by do 2 right.
Qed.

Lemma create_tail_calls read timeout extract msg d client r :
  (forall d, calls_only no_task (read d)) ->
  calls_only no_task (create_tail read timeout extract msg d client r).
Proof.
  intros Hread. destruct r as [results err]. cbn.
  destruct err; cbn; [done|]. destruct (Tasks_0 results); cbn; [|done].
  split; [done|]. intros [e|]; cbn; [done|]. split; [done|].
  intros [ti|e]; cbn; [|done]. destruct (extract ti); cbn; [|done].
  apply calls_only_bind; [apply Hread|]. by intros [].
Qed.

(** The common end after a prefix [pre] of the trace in which only the
    create call [c_act] was answered with a task: an answered task in the
    whole trace is that of [c_act], and the run is as [created] says. *)
Lemma create_tail_run read timeout extract msg read_panics d cl results err o h c0 x c_act :
  upward read_panics ->
  read_spec read read_panics ->
  (forall d, calls_only no_task (read d)) ->
  let r := run o h (create_tail read timeout extract msg d cl (results, err)) in
  forall pre : list event,
  (forall ev, ev ∈ pre -> ev = (c_act, RTasks (results, err)) \/ forall y, ev.2 <> RTasks y) ->
  (c0, RTasks x) ∈ pre ++ r.2 ->
  c0 = c_act /\ x = (results, err) /\
  created timeout extract msg read_panics d cl results err r.1 (pre ++ r.2).
Proof.
  intros Hup Hid Hcalls r pre Hpre Hin.
  apply elem_of_app in Hin as [Hin|Hin].
  - destruct (Hpre _ Hin) as [Heq|Hne].
    + inversion Heq; subst. split; [done|]. split; [done|].
      eapply created_mono; [done| |apply create_tail_created; done].
      intros ev Hev. apply elem_of_app. by right.
    + exfalso. by eapply Hne.
  - exfalso. eapply no_task_event; [|exact Hin]. by apply create_tail_calls.
Qed.

(** Recognise [create_tail] in what is left of a create handler after its
    create call, and conclude with [create_tail_run]. *)
Ltac create_tail_step read timeout extract msg panics d cl Hup Hid Hcalls c results err :=
  match goal with
  | |- context [run ?o ?h ?p] =>
      match h with
      | context [(?c_act, RTasks (?res, ?er))] =>
          change (run o h p) with (run o h (create_tail read timeout extract msg d cl (res, er)));
          let Ht := fresh "Ht" in
          pose proof (create_tail_run read timeout extract msg panics d cl res er o h c
                        (results, err) c_act Hup Hid Hcalls) as Ht;
          cbn zeta in Ht;
          destruct (run o h (create_tail read timeout extract msg d cl (res, er))) as [out tr];
          cbn in *;
          let Hin := fresh "Hin" in
          let Hcr := fresh "Hcr" in
          intros Hin Hcr;
          match type of Hin with _ ∈ ?e1 :: ?e2 :: _ => specialize (Ht [e1; e2]) end;
          let Hc := fresh in let Heq := fresh in
          destruct Ht as (Hc & Heq & Ht);
          [ let ev := fresh in let Hev := fresh in
            intros ev Hev; apply elem_of_cons in Hev as [->|Hev];
            [right; intros; discriminate|];
            apply list_elem_of_singleton in Hev as ->; by left
          | exact Hin
          | inversion Heq; subst;
            repeat match type of Hcr with ex _ => destruct Hcr as [? Hcr] end;
            inversion Hcr; subst; exact Ht ]
      end
  end.

Section Create.
Context `{Env}.
Hypothesis revertState_Id : forall d fs, Id (revertState d fs) = Id d.

(** The read handlers finish without a panic, keep the resource ID and
    start no task. *)
Lemma LBPoolRead_keeps_Id d : returns (LBPool.resourceLBPoolRead d) (keeps_Id d).
Proof.
  unfold LBPool.resourceLBPoolRead. cbn. intros [client|e]; cbn; [|done].
  intros [lb|e]; cbn; [|done]. unfold LBPool.resourceLBPoolRead_set.
  repeat (destruct_inner; cbn); use_d_Set_Id;
  rewrite ?revertState_Id, ?d_Set__Id in *; try congruence.
Qed.

Lemma LBPoolRead_calls d :
  calls_only no_task (LBPool.resourceLBPoolRead d).
Proof.
  unfold LBPool.resourceLBPoolRead. cbn. split; [done|].
  intros [client|e]; cbn; [|done]. split; [done|].
  by intros [lb|e]; cbn.
Qed.

Lemma LBMemberRead_member_Id mid d d' pm :
  LBMember.resourceLBMemberRead_member mid d pm = Some d' -> Id d' = Id d.
Proof.
  unfold LBMember.resourceLBMemberRead_member. case_bool_decide; [|congruence].
  destruct (pm_Address pm); [|done]. intros [= <-]. by rewrite !d_Set__Id.
Qed.

(** The loop over the members keeps the resource ID, and it panics exactly
    on a member with the ID [mid] and a nil [Address]. *)
Lemma LBMemberRead_members_spec mid d members :
  match LBMember.resourceLBMemberRead_members mid d members with
  | Some d' =>
      Id d' = Id d /\ Forall (fun pm => pm_ID pm = mid -> pm_Address pm <> None) members
  | None => Exists (fun pm => pm_ID pm = mid /\ pm_Address pm = None) members
  end.
Proof.
  revert d. induction members as [|pm l IH]; intros d; cbn; [done|].
  destruct (LBMember.resourceLBMemberRead_member mid d pm) as [d1|] eqn:E1.
  - pose proof (LBMemberRead_member_Id _ _ _ _ E1) as Hd1.
    specialize (IH d1). destruct (LBMember.resourceLBMemberRead_members mid d1 l).
    + destruct IH as [Hid Hall]. split; [congruence|]. constructor; [|done].
      intros Hpm. unfold LBMember.resourceLBMemberRead_member in E1.
      rewrite bool_decide_eq_true_2 in E1 by done. by destruct (pm_Address pm).
    + by apply Exists_cons_tl.
  - apply Exists_cons_hd. unfold LBMember.resourceLBMemberRead_member in E1.
    case_bool_decide; [|done]. by destruct (pm_Address pm).
Qed.

Lemma LBMemberRead_spec : read_spec LBMember.resourceLBMemberRead member_without_address.
Proof.
  intros d o h. unfold LBMember.resourceLBMemberRead. cbn.
  destruct (o h _) as [client|e]; cbn; [|done].
  destruct (o _ (lbpools_Get _ _)) as [pool|e] eqn:Eg; cbn; [|done].
  pose proof (LBMemberRead_members_spec (Id d) d (pool_Members pool)) as Hm.
  destruct (LBMember.resourceLBMemberRead_members _ _ _) as [d'|]; cbn.
  - rewrite revertState_Id. by destruct Hm.
  - exists client, (Get_string d "pool_id"), pool. split; [|done]. right. by left.
Qed.

Lemma LBMemberRead_calls d : calls_only no_task (LBMember.resourceLBMemberRead d).
Proof.
  unfold LBMember.resourceLBMemberRead. cbn. split; [done|].
  intros [client|e]; cbn; [|done]. split; [done|].
  intros [pool|e]; cbn; [|done]. by destruct (LBMember.resourceLBMemberRead_members _ _ _).
Qed.

Lemma RouterRead_keeps_Id d : returns (Router.resourceRouterRead d) (keeps_Id d).
Proof.
  unfold Router.resourceRouterRead. cbn. intros [client|e]; cbn; [|done].
  intros [router|e]; cbn; [|done].
  repeat (destruct_inner; cbn); use_d_Set_Id;
  rewrite ?d_Set__Id in *; try congruence.
Qed.

Lemma RouterRead_calls d : calls_only no_task (Router.resourceRouterRead d).
Proof.
  unfold Router.resourceRouterRead. cbn. split; [done|].
  intros [client|e]; cbn; [|done]. split; [done|].
  intros [router|e]; cbn; [|done].
  repeat (destruct_inner; cbn); done.
Qed.

Lemma BmRead_metadata_returns d0 d client id l :
  Id d = Id d0 ->
  returns (BmInstance.resourceBmInstanceRead_metadata d client id l) (flow_keeps_Id d0).
Proof.
  intros Hd. induction l as [|data l IH]; cbn; [done|].
  intros [md|e]; cbn; [|done].
  apply returns_bind. eapply returns_mono; [|exact IH].
  by intros [sl|out].
Qed.

Lemma BmRead_metadata_map_returns d0 d client id l :
  Id d = Id d0 ->
  returns (BmInstance.resourceBmInstanceRead_metadata_map d client id l) (flow_keeps_Id d0).
Proof.
  intros Hd. induction l as [|[k v] l IH]; cbn; [done|].
  intros [md|e]; cbn; [|done].
  apply returns_bind. eapply returns_mono; [|exact IH].
  by intros [sl|out].
Qed.

Lemma BmRead_metadata_calls d client id l :
  calls_only no_task (BmInstance.resourceBmInstanceRead_metadata d client id l).
Proof.
  induction l as [|data l IH]; cbn; [done|]. split; [done|].
  intros [md|e]; cbn; [|done].
  apply calls_only_bind; [done|]. by intros [].
Qed.

Lemma BmRead_metadata_map_calls d client id l :
  calls_only no_task (BmInstance.resourceBmInstanceRead_metadata_map d client id l).
Proof.
  induction l as [|[k v] l IH]; cbn; [done|]. split; [done|].
  intros [md|e]; cbn; [|done].
  apply calls_only_bind; [done|]. by intros [].
Qed.

Lemma BmRead_keeps_Id d : returns (BmInstance.resourceBmInstanceRead d) (keeps_Id d).
Proof.
  unfold BmInstance.resourceBmInstanceRead. cbn. intros [client|e]; cbn; [|done].
  intros [instance|e]; cbn; [|done].
  intros [[|i0 il]|e]; cbn; [by rewrite !d_Set__Id| |by rewrite !d_Set__Id].
  destruct (extractInstanceInterfaceToListRead _) as [ile|e]; cbn; [|by rewrite !d_Set__Id].
  destruct (d_Set _ "interface" _) as [d1 [e|]] eqn:E1; cbn.
  { use_d_Set_Id. by rewrite !d_Set__Id in *. }
  assert (Id d1 = Id d) as Hd1 by (use_d_Set_Id; by rewrite !d_Set__Id in *).
  clear E1. apply returns_bind.
  assert (forall d2, Id d2 = Id d ->
    returns match d_Set d2 "addresses"
                    (VList (BmInstance.resourceBmInstanceRead_addresses instance)) with
            | (d3, Some err) => Ret (Done d3 (diag_FromErr err))
            | (d3, None) => Ret (Done (revertState d3 ["user_data"; "app_config"]) [])
            end (keeps_Id d)) as Hk.
  { intros d2 Hd2.
    destruct (d_Set d2 _ _) as [d3 [e|]] eqn:E3; cbn; use_d_Set_Id;
      rewrite ?revertState_Id; congruence. }
  destruct (GetOk d1 "metadata") as [metadataRaw|].
  - apply returns_bind. eapply returns_mono; [|by apply (BmRead_metadata_returns d1)].
    intros [sl|out] Hf; cbn.
    + apply Hk. by rewrite d_Set__Id.
    + destruct out; cbn in *; congruence.
  - apply returns_bind. eapply returns_mono; [|by apply (BmRead_metadata_map_returns d1)].
    intros [nm|out] Hf; cbn.
    + destruct (d_Set d1 "metadata_map" _) as [d2 [e|]] eqn:E2; cbn; use_d_Set_Id.
      * congruence.
      * apply Hk. congruence.
    + destruct out; cbn in *; congruence.
Qed.

Lemma BmRead_calls d : calls_only no_task (BmInstance.resourceBmInstanceRead d).
Proof.
  unfold BmInstance.resourceBmInstanceRead. cbn. split; [done|].
  intros [client|e]; cbn; [|done]. split; [done|].
  intros [instance|e]; cbn; [|done]. split; [done|].
  intros [[|i0 il]|e]; cbn; [done| |done].
  destruct (extractInstanceInterfaceToListRead _) as [ile|e]; cbn; [|done].
  destruct (d_Set _ "interface" _) as [d1 [e|]] eqn:E1; cbn; [done|].
  apply calls_only_bind.
  - destruct (GetOk d1 "metadata").
    + apply calls_only_bind; [apply BmRead_metadata_calls|]. by intros [].
    + apply calls_only_bind; [apply BmRead_metadata_map_calls|].
      intros [nm|out]; cbn; [|done]. destruct (d_Set d1 _ _) as [? []]; by cbn.
  - intros [d2|out]; cbn; [|done]. destruct (d_Set d2 _ _) as [? []]; by cbn.
Qed.

(** The four create handlers. *)
Lemma LBPoolCreate_spec :
  create_spec LBPool.resourceLBPoolCreate
    (fun client c => exists opts, c = lbpools_Create client opts)
    LBPool.LBPoolsCreateTimeout ExtractPoolIDFromTask
    "cannot retrieve LBPool ID from task info: " no_panic.
Proof.
  intros o d c client results err. unfold LBPool.resourceLBPoolCreate. cbn.
  destruct (o [] _) as [cl|e] eqn:E1; cbn.
  2:{ intros Hin. apply list_elem_of_singleton in Hin. discriminate. }
  match goal with |- context [o ?h (lbpools_Create cl ?opts)] =>
    destruct (o h (lbpools_Create cl opts)) as [res er] eqn:E2 end.
  create_tail_step LBPool.resourceLBPoolRead LBPool.LBPoolsCreateTimeout
    ExtractPoolIDFromTask "cannot retrieve LBPool ID from task info: " no_panic d cl
    no_panic_upward (keeps_Id_read_spec _ LBPoolRead_keeps_Id) LBPoolRead_calls c results err.
Qed.

Lemma LBMemberCreate_spec :
  create_spec LBMember.resourceLBMemberCreate
    (fun client c => exists poolID opts, c = lbpools_CreateMember client poolID opts)
    LBPool.LBPoolsCreateTimeout ExtractPoolMemberIDFromTask
    "cannot retrieve LBMember ID from task info: " member_without_address.
Proof.
  intros o d c client results err. unfold LBMember.resourceLBMemberCreate. cbn.
  destruct (o [] _) as [cl|e] eqn:E1; cbn.
  2:{ intros Hin. apply list_elem_of_singleton in Hin. discriminate. }
  match goal with |- context [o ?h (lbpools_CreateMember cl ?p ?opts)] =>
    destruct (o h (lbpools_CreateMember cl p opts)) as [res er] eqn:E2 end.
  create_tail_step LBMember.resourceLBMemberRead LBPool.LBPoolsCreateTimeout
    ExtractPoolMemberIDFromTask "cannot retrieve LBMember ID from task info: "
    member_without_address d cl
    member_without_address_upward LBMemberRead_spec LBMemberRead_calls c results err.
Qed.

Lemma RouterCreate_spec :
  create_spec Router.resourceRouterCreate
    (fun client c => exists opts, c = routers_Create client opts)
    Router.RouterCreatingTimeout ExtractRouterIDFromTask
    "cannot retrieve Router ID from task info: " no_panic.
Proof.
  intros o d c client results err. unfold Router.resourceRouterCreate. cbn.
  destruct (o [] _) as [cl|e] eqn:E1; cbn; [|single_event].
  destruct (Router.resourceRouterCreate_opts d) as [opts|e]; cbn; [|single_event].
  match goal with |- context [o ?h (routers_Create cl ?opts)] =>
    destruct (o h (routers_Create cl opts)) as [res er] eqn:E2 end.
  create_tail_step Router.resourceRouterRead Router.RouterCreatingTimeout
    ExtractRouterIDFromTask "cannot retrieve Router ID from task info: " no_panic d cl
    no_panic_upward (keeps_Id_read_spec _ RouterRead_keeps_Id) RouterRead_calls c results err.
Qed.

Lemma BmInstanceCreate_spec :
  create_spec BmInstance.resourceBmInstanceCreate
    (fun client c => exists opts, c = bminstances_Create client opts)
    BmInstance.BmInstanceCreatingTimeout ExtractInstanceIDFromTask
    "cannot retrieve Instance ID from task info: " no_panic.
Proof.
  intros o d c client results err. unfold BmInstance.resourceBmInstanceCreate. cbn.
  destruct (o [] _) as [cl|e] eqn:E1; cbn; [|single_event].
  destruct (BmInstance.resourceBmInstanceCreate_opts d) as [opts|e]; cbn; [|single_event].
  match goal with |- context [o ?h (bminstances_Create cl ?opts)] =>
    destruct (o h (bminstances_Create cl opts)) as [res er] eqn:E2 end.
  create_tail_step BmInstance.resourceBmInstanceRead BmInstance.BmInstanceCreatingTimeout
    ExtractInstanceIDFromTask "cannot retrieve Instance ID from task info: " no_panic d cl
    no_panic_upward (keeps_Id_read_spec _ BmRead_keeps_Id) BmRead_calls c results err.
Qed.

(** Each of them makes its create call. *)
Lemma LBPoolCreate_makes_call :
  makes_create_call LBPool.resourceLBPoolCreate LBPool.LBPoolsPoint
    (fun d => Ok (LBPool.resourceLBPoolCreate_opts d))
    (fun d client opts => lbpools_Create client opts).
Proof.
  intros o d client ev1 res Hc. subst res ev1. unfold LBPool.resourceLBPoolCreate.
  cbn [bind call]. rewrite run_Call. rewrite Hc. cbn [bind to_response fst snd].
  rewrite run_Call. by cbn.
Qed.

Lemma LBMemberCreate_makes_call :
  makes_create_call LBMember.resourceLBMemberCreate LBPool.LBPoolsPoint
    (fun d => Ok (LBMember.resourceLBMemberCreate_opts d))
    (fun d client opts => lbpools_CreateMember client (Get_string d "pool_id") opts).
Proof.
  intros o d client ev1 res Hc. subst res ev1. unfold LBMember.resourceLBMemberCreate.
  cbn [bind call]. rewrite run_Call. rewrite Hc. cbn [bind to_response fst snd].
  rewrite run_Call. by cbn.
Qed.

Lemma RouterCreate_makes_call :
  makes_create_call Router.resourceRouterCreate Router.RouterPoint
    Router.resourceRouterCreate_opts (fun d client opts => routers_Create client opts).
Proof.
  intros o d client ev1 res Hc. subst res ev1. unfold Router.resourceRouterCreate.
  cbn [bind call]. rewrite run_Call. rewrite Hc. cbn [bind to_response fst snd].
  destruct (Router.resourceRouterCreate_opts d) as [opts|e]; [|done].
  cbn [bind call]. rewrite run_Call. by cbn.
Qed.

Lemma BmInstanceCreate_makes_call :
  makes_create_call BmInstance.resourceBmInstanceCreate BmInstance.BmInstancePoint
    BmInstance.resourceBmInstanceCreate_opts
    (fun d client opts => bminstances_Create client opts).
Proof.
  intros o d client ev1 res Hc. subst res ev1. unfold BmInstance.resourceBmInstanceCreate.
  cbn [bind call]. rewrite run_Call. rewrite Hc. cbn [bind to_response fst snd].
  destruct (BmInstance.resourceBmInstanceCreate_opts d) as [opts|e]; [|done].
  cbn [bind call]. rewrite run_Call. by cbn.
Qed.

End Create.

(** ** Delete handlers *)

(** In an explicit trace, the event with an error is the last one and its
    error is the diagnostic. *)
Ltac propagation :=
  let Hin := fresh "Hin" in
  let HG := fresh "HG" in
  let He := fresh "He" in
  cbn; intros Hin HG He; in_trace Hin;
  inversion Hin; subst; cbn in *; simplify_eq; try done.

Ltac propagation_but_404 :=
  let Hin := fresh "Hin" in
  let HG := fresh "HG" in
  let He := fresh "He" in
  let H4 := fresh "H4" in
  cbn; intros Hin HG He H4; in_trace Hin;
  inversion Hin; subst; cbn in *; simplify_eq; try done;
  try (specialize (H4 eq_refl); congruence).

Ltac on_404 :=
  let Hin := fresh "Hin" in
  let HT := fresh "HT" in
  let He := fresh "He" in
  let H4 := fresh "H4" in
  cbn; intros Hin HT He H4; in_trace Hin;
  inversion Hin; subst; cbn in *; simplify_eq; try done; try congruence.

(** A run without diagnostic ends on the checker's 404. *)
Ltac delete_success :=
  let Hout := fresh "Hout" in
  cbn; intros Hout; simplify_eq;
  try (split; [reflexivity|]; do 2 eexists; split; [reflexivity|]; unfold is_404; cbn; done).

(** The three deletion checkers have the same shape. *)
Ltac checker_spec :=
  let e := fresh "e" in
  let E := fresh "E" in
  intros o h client id task; cbn;
  destruct (o h _) as [?|e]; cbn;
  [ | destruct (errors_As_Default404 e) eqn:E; cbn ];
  (eexists; split; [reflexivity|]); unfold is_404; cbn; rewrite ?E;
  (split; [split; intros; (discriminate || reflexivity)|]);
  intros; (discriminate || eauto).

Section Delete.
Context `{Env}.

Lemma RouterDelete_checker_spec :
  deletion_checker_spec Router.resourceRouterDelete_checker routers_Get.
Proof. unfold Router.resourceRouterDelete_checker. checker_spec. Qed.

Lemma LBPoolDelete_checker_spec :
  deletion_checker_spec LBPool.resourceLBPoolDelete_checker lbpools_Get.
Proof. unfold LBPool.resourceLBPoolDelete_checker. checker_spec. Qed.

Lemma BmInstanceDelete_checker_spec :
  deletion_checker_spec BmInstance.resourceBmInstanceDelete_checker instances_Get.
Proof. unfold BmInstance.resourceBmInstanceDelete_checker. checker_spec. Qed.

Lemma RouterDelete_propagates : propagates_errors Router.resourceRouterDelete.
Proof.
  intros o d c r e. unfold Router.resourceRouterDelete. cbn.
  answer o as [cl|e1]; cbn; [|propagation].
  answer o as [res [e2|]]; cbn; [propagation|].
  destruct (Tasks_0 res) as [taskID|]; cbn; [|propagation].
  answer o as [e3|]; cbn; [propagation|].
  answer o as [x|e4]; cbn; [propagation|].
  destruct (errors_As_Default404 e4); propagation.
Qed.

Lemma BmInstanceDelete_propagates : propagates_errors BmInstance.resourceBmInstanceDelete.
Proof.
  intros o d c r e. unfold BmInstance.resourceBmInstanceDelete. cbn.
  answer o as [cl|e1]; cbn; [|propagation].
  answer o as [res [e2|]]; cbn; [propagation|].
  destruct (Tasks_0 res) as [taskID|]; cbn; [|propagation].
  answer o as [e3|]; cbn; [propagation|].
  answer o as [x|e4]; cbn; [propagation|].
  destruct (errors_As_Default404 e4); propagation.
Qed.

Lemma LBPoolDelete_propagates : propagates_errors_but_404 LBPool.resourceLBPoolDelete.
Proof.
  intros o d c r e. unfold LBPool.resourceLBPoolDelete. cbn.
  answer o as [cl|e1]; cbn; [|propagation_but_404].
  answer o as [res [e2|]]; cbn.
  - destruct (errors_As_Default404 e2) eqn:E2; cbn; [|propagation_but_404].
    destruct (Tasks_0 res) as [taskID|]; cbn; [|propagation_but_404].
    answer o as [e3|]; cbn; [propagation_but_404|].
    answer o as [x|e4]; cbn; [propagation_but_404|].
    destruct (errors_As_Default404 e4); propagation_but_404.
  - destruct (Tasks_0 res) as [taskID|]; cbn; [|propagation_but_404].
    answer o as [e3|]; cbn; [propagation_but_404|].
    answer o as [x|e4]; cbn; [propagation_but_404|].
    destruct (errors_As_Default404 e4); propagation_but_404.
Qed.

Lemma LBMemberDelete_propagates : propagates_errors_but_404 LBMember.resourceLBMemberDelete.
Proof.
  intros o d c r e. unfold LBMember.resourceLBMemberDelete. cbn.
  answer o as [cl|e1]; cbn; [|propagation_but_404].
  answer o as [res [e2|]]; cbn.
  - destruct (errors_As_Default404 e2) eqn:E2; cbn; propagation_but_404.
  - destruct (Tasks_0 res) as [taskID|]; cbn; [|propagation_but_404].
    answer o as [e3|]; cbn; [propagation_but_404|].
    answer o as [pool|e4]; cbn; [|propagation_but_404].
    destruct (existsb _ _); propagation_but_404.
Qed.

Lemma LBMemberDelete_on_404 : deleted_on_404 LBMember.resourceLBMemberDelete.
Proof.
  intros o d c r e. unfold LBMember.resourceLBMemberDelete. cbn.
  answer o as [cl|e1]; cbn; [|on_404].
  answer o as [res [e2|]]; cbn.
  - destruct (errors_As_Default404 e2) eqn:E2; cbn; on_404.
  - destruct (Tasks_0 res) as [taskID|]; cbn; [|on_404].
    answer o as [e3|]; cbn; [on_404|].
    answer o as [pool|e4]; cbn; [|on_404].
    destruct (existsb _ _); on_404.
Qed.

Lemma RouterDelete_success : delete_success_spec Router.resourceRouterDelete routers_Get.
Proof.
  intros o d d'. unfold Router.resourceRouterDelete. cbn.
  answer o as [cl|e1]; cbn; [|delete_success].
  answer o as [res [e2|]]; cbn; [delete_success|].
  destruct (Tasks_0 res) as [taskID|]; cbn; [|delete_success].
  answer o as [e3|]; cbn; [delete_success|].
  answer o as [x|e4]; cbn; [delete_success|].
  destruct (errors_As_Default404 e4) eqn:E4; delete_success.
Qed.

Lemma BmInstanceDelete_success :
  delete_success_spec BmInstance.resourceBmInstanceDelete instances_Get.
Proof.
  intros o d d'. unfold BmInstance.resourceBmInstanceDelete. cbn.
  answer o as [cl|e1]; cbn; [|delete_success].
  answer o as [res [e2|]]; cbn; [delete_success|].
  destruct (Tasks_0 res) as [taskID|]; cbn; [|delete_success].
  answer o as [e3|]; cbn; [delete_success|].
  answer o as [x|e4]; cbn; [delete_success|].
  destruct (errors_As_Default404 e4) eqn:E4; delete_success.
Qed.

Lemma LBPoolDelete_success : delete_success_spec LBPool.resourceLBPoolDelete lbpools_Get.
Proof.
  intros o d d'. unfold LBPool.resourceLBPoolDelete. cbn.
  answer o as [cl|e1]; cbn; [|delete_success].
  answer o as [res [e2|]]; cbn.
  - destruct (errors_As_Default404 e2) eqn:E2; cbn; [|delete_success].
    destruct (Tasks_0 res) as [taskID|]; cbn; [|delete_success].
    answer o as [e3|]; cbn; [delete_success|].
    answer o as [x|e4]; cbn; [delete_success|].
    destruct (errors_As_Default404 e4) eqn:E4; delete_success.
  - destruct (Tasks_0 res) as [taskID|]; cbn; [|delete_success].
    answer o as [e3|]; cbn; [delete_success|].
    answer o as [x|e4]; cbn; [delete_success|].
    destruct (errors_As_Default404 e4) eqn:E4; delete_success.
Qed.

(** Each delete handler makes its delete call. *)
Ltac delete_call :=
  let Hc := fresh "Hc" in
  intros o d client; cbn zeta; intros Hc;
  cbn [bind call]; rewrite run_Call, Hc; cbn [bind to_response fst snd];
  rewrite run_Call; by cbn.

Lemma RouterDelete_makes_call :
  makes_delete_call Router.resourceRouterDelete Router.RouterPoint
    (fun d client => routers_Delete client (Id d)).
Proof. unfold Router.resourceRouterDelete. delete_call. Qed.

Lemma BmInstanceDelete_makes_call :
  makes_delete_call BmInstance.resourceBmInstanceDelete InstancePoint
    (fun d client =>
       instances_Delete client (Id d)
         {| ido_Volumes := []; ido_DeleteFloatings := true; ido_FloatingIPs := [] |}).
Proof. unfold BmInstance.resourceBmInstanceDelete. delete_call. Qed.

Lemma LBPoolDelete_makes_call :
  makes_delete_call LBPool.resourceLBPoolDelete LBPool.LBPoolsPoint
    (fun d client => lbpools_Delete client (Id d)).
Proof. unfold LBPool.resourceLBPoolDelete. delete_call. Qed.

Lemma LBMemberDelete_makes_call :
  makes_delete_call LBMember.resourceLBMemberDelete LBPool.LBPoolsPoint
    (fun d client => lbpools_DeleteMember client (Get_string d "pool_id") (Id d)).
Proof. unfold LBMember.resourceLBMemberDelete. delete_call. Qed.

(** A run in which the client, the delete call and the wait succeed goes
    on with the checker and ends as the checker says. *)
Ltac through_checker :=
  let H1 := fresh "H1" in
  let H2 := fresh "H2" in
  let H3 := fresh "H3" in
  let HT := fresh "HT" in
  let R := fresh "R" in
  intros o d client results taskID; cbn zeta; cbn [to_response];
  intros H1 H2 HT H3;
  injection H1 as H1; injection H2 as H2; injection H3 as H3;
  match goal with |- _ = ?rhs => set (R := rhs) end;
  cbn [bind call]; rewrite run_Call, H1; cbn [bind to_response fst snd app];
  rewrite run_Call; cbn [to_response]; unfold event in *; rewrite H2;
  cbn [fst snd app negb];
  rewrite HT; unfold WaitTaskAndReturnResult; cbn [bind call];
  rewrite run_Call; cbn [to_response]; unfold event in *; rewrite H3; cbn [fst snd app];
  rewrite run_bind; subst R;
  match goal with |- context [run o ?h ?p] => destruct (run o h p) as [[[]|e] tr] end;
  cbn; by rewrite ?app_nil_r.

Lemma RouterDelete_through_checker :
  deletes_through_checker Router.resourceRouterDelete Router.RouterPoint routers_Delete
    Router.RouterDeleting Router.resourceRouterDelete_checker.
Proof. unfold Router.resourceRouterDelete. through_checker. Qed.

Lemma LBPoolDelete_through_checker :
  deletes_through_checker LBPool.resourceLBPoolDelete LBPool.LBPoolsPoint lbpools_Delete
    LBPool.LBPoolsCreateTimeout LBPool.resourceLBPoolDelete_checker.
Proof. unfold LBPool.resourceLBPoolDelete. through_checker. Qed.

Lemma BmInstanceDelete_through_checker :
  deletes_through_checker BmInstance.resourceBmInstanceDelete InstancePoint
    (fun client id =>
       instances_Delete client id
         {| ido_Volumes := []; ido_DeleteFloatings := true; ido_FloatingIPs := [] |})
    BmInstance.BmInstanceDeleting BmInstance.resourceBmInstanceDelete_checker.
Proof. unfold BmInstance.resourceBmInstanceDelete. through_checker. Qed.

End Delete.

(** ** Reading an LB pool *)

Section ReadLBPool.
Context `{Env}.
Hypothesis writer_strings : forall k s, field_writer k (VString s) = None.
Hypothesis revertState_frame :
  forall d fs k, k ∉ fs -> Get (revertState d fs) k = Get d k.

Lemma Get_d_Set_eq d k v d' :
  d_Set d k v = (d', None) -> Get d' k = Some v.
Proof.
  unfold d_Set. destruct (field_writer k v); [done|].
  intros [= <-]. unfold Get. cbn. apply lookup_insert_eq.
Qed.

Lemma Get_d_Set_ne d k v d' e k' :
  d_Set d k v = (d', e) -> k <> k' -> Get d' k' = Get d k'.
Proof.
  unfold d_Set. destruct (field_writer k v); intros [= <- <-] Hne; [done|].
  unfold Get. cbn. by apply lookup_insert_ne.
Qed.

Lemma Get_d_Set_string d k s k' :
  Get (d_Set_ d k (VString s)) k' = if decide (k = k') then Some (VString s) else Get d k'.
Proof.
  unfold d_Set_. destruct (d_Set d k (VString s)) as [d' e] eqn:E.
  unfold d_Set in E. rewrite writer_strings in E. injection E as <- <-.
  unfold Get. cbn. apply lookup_insert.
Qed.

Lemma map_get_app_r m1 m2 k :
  map_get m1 k = None -> map_get (m1 ++ m2) k = map_get m2 k.
Proof.
  induction m1 as [|[k1 v1] m1 IH]; cbn; [done|].
  case_bool_decide; [done|]. exact IH.
Qed.

Lemma map_get_app_l m1 m2 k v :
  map_get m1 k = Some v -> map_get (m1 ++ m2) k = Some v.
Proof.
  induction m1 as [|[k1 v1] m1 IH]; cbn; [done|].
  case_bool_decide; [done|]. exact IH.
Qed.

Lemma LBPoolRead_set_mirrors d d' lb :
  LBPool.resourceLBPoolRead_set d lb = Done d' [] -> mirrors_pool d d' lb.
Proof.
  unfold LBPool.resourceLBPoolRead_set.
  set (d1 := d_Set_ (d_Set_ (d_Set_ d "name" _) "lb_algorithm" _) "protocol" _).
  assert (Get d1 "name" = Some (VString (pool_Name lb)) /\
          Get d1 "lb_algorithm" = Some (VString (pool_LoadBalancerAlgorithm lb)) /\
          Get d1 "protocol" = Some (VString (pool_Protocol lb)) /\
          Get d1 "loadbalancer_id" = Get d "loadbalancer_id" /\
          Get d1 "listener_id" = Get d "listener_id" /\
          Get d1 "health_monitor" = Get d "health_monitor" /\
          Get d1 "session_persistence" = Get d "session_persistence") as H1.
  { subst d1. rewrite !Get_d_Set_string. repeat split; reflexivity. }
  clearbody d1. destruct H1 as (N1 & N2 & N3 & N4 & N5 & N6 & N7).
  set (d2 := match pool_LoadBalancers lb with [] => d1 | lb0 :: _ => _ end).
  assert (Get d2 "name" = Some (VString (pool_Name lb)) /\
          Get d2 "lb_algorithm" = Some (VString (pool_LoadBalancerAlgorithm lb)) /\
          Get d2 "protocol" = Some (VString (pool_Protocol lb)) /\
          Get d2 "loadbalancer_id" =
            match pool_LoadBalancers lb with
            | lb0 :: _ => Some (VString lb0) | [] => Get d "loadbalancer_id" end /\
          Get d2 "listener_id" = Get d "listener_id" /\
          Get d2 "health_monitor" = Get d "health_monitor" /\
          Get d2 "session_persistence" = Get d "session_persistence") as H2.
  { subst d2. destruct (pool_LoadBalancers lb); [done|].
    rewrite !Get_d_Set_string. repeat split; cbn; assumption || reflexivity. }
  clearbody d2. clear d1 N1 N2 N3 N4 N5 N6 N7.
  destruct H2 as (N1 & N2 & N3 & N4 & N5 & N6 & N7).
  set (d3 := match pool_Listeners lb with [] => d2 | ls0 :: _ => _ end).
  assert (Get d3 "name" = Some (VString (pool_Name lb)) /\
          Get d3 "lb_algorithm" = Some (VString (pool_LoadBalancerAlgorithm lb)) /\
          Get d3 "protocol" = Some (VString (pool_Protocol lb)) /\
          Get d3 "loadbalancer_id" =
            match pool_LoadBalancers lb with
            | lb0 :: _ => Some (VString lb0) | [] => Get d "loadbalancer_id" end /\
          Get d3 "listener_id" =
            match pool_Listeners lb with
            | ls0 :: _ => Some (VString ls0) | [] => Get d "listener_id" end /\
          Get d3 "health_monitor" = Get d "health_monitor" /\
          Get d3 "session_persistence" = Get d "session_persistence") as H3.
  { subst d3. destruct (pool_Listeners lb); [done|].
    rewrite !Get_d_Set_string. repeat split; cbn; assumption || reflexivity. }
  clearbody d3. clear d2 N1 N2 N3 N4 N5 N6 N7.
  destruct H3 as (N1 & N2 & N3 & N4 & N5 & N6 & N7).
  assert (forall d5, Get (revertState d5 ["project_id"; "region_id"]) "name" = Get d5 "name"
    /\ Get (revertState d5 ["project_id"; "region_id"]) "lb_algorithm" = Get d5 "lb_algorithm"
    /\ Get (revertState d5 ["project_id"; "region_id"]) "protocol" = Get d5 "protocol"
    /\ Get (revertState d5 ["project_id"; "region_id"]) "loadbalancer_id"
       = Get d5 "loadbalancer_id"
    /\ Get (revertState d5 ["project_id"; "region_id"]) "listener_id" = Get d5 "listener_id"
    /\ Get (revertState d5 ["project_id"; "region_id"]) "health_monitor"
       = Get d5 "health_monitor"
    /\ Get (revertState d5 ["project_id"; "region_id"]) "session_persistence"
       = Get d5 "session_persistence") as R.
  { intros d5. repeat split; apply revertState_frame, (bool_decide_unpack _); exact I. }
  unfold mirrors_pool.
  destruct (pool_HealthMonitor lb) as [hm|];
    [destruct (d_Set d3 "health_monitor" _) as [d4 [e|]] eqn:E4; [done|]|];
    (destruct (pool_SessionPersistence lb) as [sp|];
      [destruct (d_Set _ "session_persistence" _) as [d5 [e|]] eqn:E5; [done|]|]);
    intros [= <-];
    match goal with |- context [revertState ?x _] =>
      destruct (R x) as (R1 & R2 & R3 & R4 & R5 & R6 & R7) end;
    rewrite R1, R2, R3, R4, R5, R6, R7;
    repeat match goal with
    | E : d_Set _ ?k _ = (?x, None) |- context [Get ?x ?k'] =>
        first [ rewrite (Get_d_Set_eq _ _ _ _ E)
              | rewrite (Get_d_Set_ne _ _ _ _ _ k' E) by discriminate ]
    end.
  all: repeat split; try assumption.
  all: try (unfold health_monitor_mirrors; eexists; split; [reflexivity|];
            destruct (hm_HTTPMethod hm); repeat split; reflexivity).
  all: unfold session_persistence_mirrors; eexists; split; [reflexivity|];
       repeat split; reflexivity.
Qed.

(** C7: after a read of the LB pool that returns no diagnostic, the state
    mirrors the pool that [lbpools.Get] returned: "name", "lb_algorithm" and
    "protocol" are the pool's; "loadbalancer_id" and "listener_id" are the
    first load balancer's and the first listener's ID when the pool lists
    one, and are left as they were otherwise; "health_monitor" and
    "session_persistence" hold the pool's when it has them, and are left as
    they were otherwise (see [mirrors_pool]).  The field writer is assumed
    to take strings, and [revertState] to touch only the fields it is
    given. *)
Theorem LBPoolRead_mirrors o d d' client lb :
  let res := run o [] (LBPool.resourceLBPoolRead d) in
  res.1 = Done d' [] ->
  (lbpools_Get client (Id d), RPool (Ok lb)) ∈ res.2 ->
  mirrors_pool d d' lb.
Proof.
  unfold LBPool.resourceLBPoolRead. cbn.
  answer o as [cl|e1]; cbn; [|done].
  answer o as [lb'|e2]; cbn; [|done].
  intros Hout Hin. in_trace Hin; [done|]. injection Hin as <- <-.
  by apply LBPoolRead_set_mirrors.
Qed.
End ReadLBPool.

(** ** Updating an LB pool *)

Section UpdateLBPool.
Context `{Env}.

(** C9: when none of "lb_algorithm", "health_monitor" and
    "session_persistence" has changed, whatever else has, the update of an
    LB pool makes no [lbpools.Update] call, waits for no task and takes no
    timestamp for "last_updated": after creating its client it only runs
    the read handler on the same resource data.  When one of the three has
    changed, its second call is [lbpools.Update] on the pool, under the
    name of the resource data. *)
Theorem LBPoolUpdate_only_on_change (o : oracle) (d : ResourceData) :
  let res := run o [] (LBPool.resourceLBPoolUpdate d) in
  let ev1 client := (CreateClient LBPool.LBPoolsPoint VersionPointV1, RClient (Ok client)) in
  (lbpool_changed d = false ->
     Forall (fun ev : event => is_update_step ev.1 = false) res.2 /\
     forall client, o [] (CreateClient LBPool.LBPoolsPoint VersionPointV1) = Ok client ->
       let read := run o [ev1 client] (LBPool.resourceLBPoolRead d) in
       res = (read.1, ev1 client :: read.2)) /\
  (lbpool_changed d = true ->
     forall client, o [] (CreateClient LBPool.LBPoolsPoint VersionPointV1) = Ok client ->
       exists opts r, res.2 !! 1%nat = Some (lbpools_Update client (Id d) opts, r)
         /\ luo_Name opts = Get_string d "name").
Proof.
  unfold LBPool.resourceLBPoolUpdate, lbpool_changed. cbn [bind call].
  rewrite run_Call. cbn [fst snd].
  split.
  - intros Hch.
    apply orb_false_elim in Hch as [Hch H3]. apply orb_false_elim in Hch as [H1 H2].
    rewrite H1, H2, H3. cbn [negb].
    split.
    + constructor; [done|].
      destruct (o [] _) as [cl|e1]; cbn; [|by repeat constructor].
      unfold LBPool.resourceLBPoolRead. cbn.
      answer o as [cl2|e2]; cbn; [|by repeat constructor].
      answer o as [lb|e3]; cbn; by repeat constructor.
    + intros client Hc. rewrite Hc. reflexivity.
  - intros Hch client Hc. rewrite Hc. cbn [app].
    destruct (HasChange d "lb_algorithm"), (HasChange d "health_monitor"),
      (HasChange d "session_persistence"); try discriminate; cbn [negb bind call];
      rewrite run_Call; cbn [snd lookup list_lookup]; do 2 eexists;
        (split; [reflexivity|reflexivity]).
Qed.
End UpdateLBPool.

(** ** The image data source *)

Section ReadImage.
Context `{Env}.

Lemma dataSourceImageRead_loop_first name before img after found image :
  Forall (fun i => image_matches name i = false) before ->
  image_matches name img = true ->
  ImageDataSource.dataSourceImageRead_loop name (before ++ img :: after) found image
  = (true, img).
Proof.
  intros Hb Hm. induction Hb as [|i before Hi Hb IH]; cbn.
  - unfold image_matches in Hm. unfold ImageDataSource.strings_HasPrefix. by rewrite Hm.
  - unfold image_matches in Hi. unfold ImageDataSource.strings_HasPrefix. by rewrite Hi.
Qed.

Lemma dataSourceImageRead_loop_none name allImages found image :
  Forall (fun i => image_matches name i = false) allImages ->
  ImageDataSource.dataSourceImageRead_loop name allImages found image = (found, image).
Proof.
  intros Hb. induction Hb as [|i l Hi Hb IH]; cbn; [done|].
  unfold image_matches in Hi. unfold ImageDataSource.strings_HasPrefix. by rewrite Hi.
Qed.

(** C10: of the images that [images.ListAll] returned, the data source
    takes the first, in that order, whose name starts with the "name"
    asked for, letter case apart, and makes its ID the resource ID; when
    no image's name does, it returns the diagnostic "image with name ...
    not found" and leaves the resource data as it was. *)
Theorem dataSourceImageRead_first_match (o : oracle) (d : ResourceData) client opts allImages :
  let res := run o [] (ImageDataSource.dataSourceImageRead d) in
  let name := Get_string d "name" in
  (images_ListAll client opts, RImages (Ok allImages)) ∈ res.2 ->
  (forall before img after,
     allImages = before ++ img :: after ->
     Forall (fun i => image_matches name i = false) before ->
     image_matches name img = true ->
     exists d' diags, res.1 = Done d' diags /\ Id d' = img_ID img) /\
  (Forall (fun i => image_matches name i = false) allImages ->
   res.1 = Done d (diag_Errorf ("image with name " +:+ name +:+ " not found"))).
Proof.
  unfold ImageDataSource.dataSourceImageRead. cbn.
  answer o as [cl|e1]; cbn; [|single_event].
  answer o as [imgs|e2]; cbn.
  2:{ intros Hin. in_trace Hin; discriminate. }
  destruct (ImageDataSource.dataSourceImageRead_loop _ imgs false _) as [found image] eqn:El.
  destruct found; cbn.
  - destruct (d_Set _ "metadata_read_only" _) as [d' [e|]] eqn:Ed; cbn;
      (intros Hin; in_trace Hin; [discriminate|]; injection Hin as ? ? ?; subst; split;
       [ intros before img after -> Hb Hm;
         rewrite (dataSourceImageRead_loop_first _ _ _ _ _ _ Hb Hm) in El;
         injection El as <-; do 2 eexists; split; [reflexivity|];
         use_d_Set_Id; rewrite ?d_Set__Id in *; done
       | intros Hall; rewrite (dataSourceImageRead_loop_none _ _ _ _ Hall) in El; discriminate ]).
  - intros Hin; in_trace Hin; [discriminate|]; injection Hin as ? ? ?; subst; split.
    + intros before img after -> Hb Hm.
      rewrite (dataSourceImageRead_loop_first _ _ _ _ _ _ Hb Hm) in El. discriminate.
    + done.
Qed.
End ReadImage.

(** ** Reconciling a router's interfaces *)

Lemma value_eqb_eq : forall a b, value_eqb a b = true -> a = b.
Proof.
  fix IH 1. intros [s1|z1|b1|l1|l1|m1] [s2|z2|b2|l2|l2|m2]; cbn; try discriminate.
  - intros ->%bool_decide_eq_true. done.
  - intros ->%bool_decide_eq_true. done.
  - intros ->%bool_decide_eq_true. done.
  - intros Hl. f_equal. revert l2 Hl.
    induction l1 as [|x l1 IHl]; intros [|y l2]; try discriminate; [done|].
    intros [Hx Hl]%andb_prop. f_equal; [by apply IH|by apply IHl].
  - intros Hl. f_equal. revert l2 Hl.
    induction l1 as [|x l1 IHl]; intros [|y l2]; try discriminate; [done|].
    intros [Hx Hl]%andb_prop. f_equal; [by apply IH|by apply IHl].
  - intros Hl. f_equal. revert m2 Hl.
    induction m1 as [|[k1 x] m1 IHl]; intros [|[k2 y] m2]; try discriminate; [done|].
    intros [[Hk%bool_decide_eq_true Hx]%andb_prop Hl]%andb_prop. subst.
    f_equal; [f_equal; by apply IH|by apply IHl].
Qed.

Lemma HasChange_false d k : HasChange d k = false -> rd_old d !! k = rd_new d !! k.
Proof.
  unfold HasChange. intros Hc%negb_false_iff.
  destruct (rd_old d !! k) as [a|], (rd_new d !! k) as [b|]; cbn in Hc; try done.
  f_equal. by apply value_eqb_eq.
Qed.

Section Reconcile.
Context `{Env}.

Lemma omap_snoc oifs x :
  Router.resourceRouterUpdate_omap (oifs ++ [x]) =
  <[ri_SubnetID x := length oifs]> (Router.resourceRouterUpdate_omap oifs).
Proof.
  unfold Router.resourceRouterUpdate_omap.
  rewrite imap_app, foldl_app. cbn. by rewrite Nat.add_0_r.
Qed.

Lemma omap_lookup oifs k v :
  Router.resourceRouterUpdate_omap oifs !! k = Some v ->
  exists oiface, oifs !! v = Some oiface /\ ri_SubnetID oiface = k.
Proof.
  revert k v. induction oifs as [|x oifs IH] using rev_ind; intros k v.
  - unfold Router.resourceRouterUpdate_omap. cbn. by rewrite lookup_empty.
  - rewrite omap_snoc. rewrite lookup_insert. case_decide as Hk.
    + intros [= <-]. exists x. split; [|done].
      rewrite lookup_app_r by lia. by rewrite Nat.sub_diag.
    + intros (oi & Hoi & Hkey)%IH. exists oi. split; [|done].
      by apply lookup_app_l_Some.
Qed.

Lemma omap_dom oifs k :
  is_Some (Router.resourceRouterUpdate_omap oifs !! k) <-> k ∈ subnet_ids oifs.
Proof.
  unfold subnet_ids. induction oifs as [|x oifs IH] using rev_ind.
  - unfold Router.resourceRouterUpdate_omap. cbn. rewrite lookup_empty.
    split; [by intros []|by intros ?%elem_of_nil].
  - rewrite omap_snoc, map_app, elem_of_app. cbn. rewrite list_elem_of_singleton.
    rewrite lookup_insert. case_decide as Hk.
    + split; [intros _; by right|intros _; by eexists].
    + rewrite IH. split; [by left|]. intros [?|?]; [done|congruence].
Qed.

Lemma attach_run d client id nifs (om : gmap string nat) o h :
  NoDup (subnet_ids nifs) ->
  let res := run o h (Router.resourceRouterUpdate_attach d client id nifs om) in
  Forall (fun ev : event => exists s, ev.1 = routers_Attach client id s) res.2 /\
  match res.1 with
  | Next om' =>
      NoDup (attach_calls res.2) /\
      (forall s, s ∈ attach_calls res.2 <-> s ∈ subnet_ids nifs /\ om !! s = None) /\
      (forall k v, om' !! k = Some v <-> om !! k = Some v /\ k ∉ subnet_ids nifs)
  | Return _ => True
  end.
Proof.
  revert om h. induction nifs as [|niface nifs IH]; intros om h Hnd; cbn.
  - split; [constructor|]. split; [constructor|]. split.
    + intros s. split; [by intros ?%elem_of_nil|by intros [?%elem_of_nil _]].
    + intros k v. split; [intros ?; split; [done|apply not_elem_of_nil]|by intros []].
  - cbn in Hnd. apply NoDup_cons in Hnd as [Hni Hnd].
    destruct (om !! ri_SubnetID niface) as [v|] eqn:Ek.
    + specialize (IH (delete (ri_SubnetID niface) om) h Hnd). cbn zeta in IH.
      destruct IH as [Hall IH].
      destruct (run o h _) as [[om'|out] tr]; cbn [fst snd] in *; [|done].
      split; [done|].
      destruct IH as (Hn & Hin & Hk). split; [done|]. split.
      * intros s. rewrite Hin, elem_of_cons, lookup_delete_None. split.
        -- intros [Hs [<-|Hd]]; [destruct (Hni Hs)|]. split; [by right|done].
        -- intros [[->|Hs] Hd]; [congruence|]. split; [done|by right].
      * intros k w. rewrite Hk, lookup_delete_Some, not_elem_of_cons. unfold subnet_ids.
        intuition congruence.
    + cbn.
      destruct (o h (routers_Attach client id (ri_SubnetID niface))) as [x|e] eqn:Eo; cbn.
      2:{ split; [|done]. constructor; [by eexists|constructor]. }
      specialize (IH om
        (h ++ [(routers_Attach client id (ri_SubnetID niface), RRouter (Ok x))]) Hnd).
      cbn zeta in IH. destruct IH as [Hall IH].
      destruct (run o _ _) as [[om'|out] tr]; cbn [fst snd] in *.
      2:{ split; [|done]. constructor; [by eexists|done]. }
      split; [constructor; [by eexists|done]|].
      destruct IH as (Hn & Hin & Hk).
      change (attach_calls ((routers_Attach client id (ri_SubnetID niface), RRouter (Ok x)) :: tr))
        with (ri_SubnetID niface :: attach_calls tr).
      split; [|split].
      * apply NoDup_cons. split; [|done]. rewrite Hin. intros [Hs _]. destruct (Hni Hs).
      * intros s. rewrite !elem_of_cons, Hin. split.
        -- intros [->|[? ?]]; [split; [by left|done]|split; [by right|done]].
        -- intros [[->|?] ?]; [by left|by right].
      * intros k w. rewrite Hk, not_elem_of_cons. split; [|unfold subnet_ids; tauto].
        intros [Hw Hni']. split; [done|]. split; [|done]. intros ->. congruence.
Qed.

Lemma detach_run d client id oifs vs o h :
  (forall k v, (k, v) ∈ vs -> exists oi, oifs !! v = Some oi /\ ri_SubnetID oi = k) ->
  let res := run o h (Router.resourceRouterUpdate_detach d client id oifs vs) in
  Forall (fun ev : event => exists s, ev.1 = routers_Detach client id s) res.2 /\
  match res.1 with
  | Next _ => detach_calls res.2 = vs.*1
  | Return _ => True
  end.
Proof.
  revert h. induction vs as [|[k v] vs IH]; intros h Hvs; cbn.
  - split; [constructor|done].
  - destruct (Hvs k v) as (oi & Hoi & Hk); [by left|]. rewrite Hoi. cbn.
    destruct (o h (routers_Detach client id (ri_SubnetID oi))) as [x|e] eqn:Eo; cbn.
    2:{ split; [|done]. constructor; [by eexists|constructor]. }
    specialize (IH (h ++ [(routers_Detach client id (ri_SubnetID oi), RRouter (Ok x))])).
    cbn zeta in IH. destruct IH as [Hall IH].
    { intros k' v' Hin. apply Hvs. by right. }
    destruct (run o _ _) as [[u|out] tr]; cbn [fst snd] in *.
    2:{ split; [|done]. constructor; [by eexists|done]. }
    split; [constructor; [by eexists|done]|].
    change (detach_calls ((routers_Detach client id (ri_SubnetID oi), RRouter (Ok x)) :: tr))
      with (ri_SubnetID oi :: detach_calls tr).
    by rewrite IH, Hk.
Qed.

(** The [Attach] calls of the first loop, however it ends. *)
Lemma attach_run_within d client id nifs (om : gmap string nat) o h :
  NoDup (subnet_ids nifs) ->
  let res := run o h (Router.resourceRouterUpdate_attach d client id nifs om) in
  NoDup (attach_calls res.2) /\
  (forall s, s ∈ attach_calls res.2 -> s ∈ subnet_ids nifs /\ om !! s = None).
Proof.
  revert om h. induction nifs as [|niface nifs IH]; intros om h Hnd; cbn.
  - change (attach_calls []) with (@nil string).
    split; [constructor|]. by intros s ?%elem_of_nil.
  - cbn in Hnd. apply NoDup_cons in Hnd as [Hni Hnd].
    destruct (om !! ri_SubnetID niface) as [v|] eqn:Ek.
    + specialize (IH (delete (ri_SubnetID niface) om) h Hnd). cbn zeta in IH.
      destruct IH as [Hn Hin]. split; [done|].
      intros s Hs. apply Hin in Hs as [Hs Hd]. split; [by right|].
      apply lookup_delete_None in Hd as [<-|Hd]; [destruct (Hni Hs)|done].
    + cbn.
      destruct (o h (routers_Attach client id (ri_SubnetID niface))) as [x|e] eqn:Eo; cbn.
      2:{ change (attach_calls [?e]) with [ri_SubnetID niface].
          split; [apply NoDup_singleton|].
          intros s ->%list_elem_of_singleton. split; [by left|done]. }
      specialize (IH om
        (h ++ [(routers_Attach client id (ri_SubnetID niface), RRouter (Ok x))]) Hnd).
      cbn zeta in IH. destruct IH as [Hn Hin].
      destruct (run o _ _) as [r tr]; cbn [fst snd] in *.
      change (attach_calls ((routers_Attach client id (ri_SubnetID niface), RRouter (Ok x)) :: tr))
        with (ri_SubnetID niface :: attach_calls tr).
      split.
      * apply NoDup_cons. split; [|done]. intros [Hs _]%Hin. destruct (Hni Hs).
      * intros s [->|Hs]%elem_of_cons; [split; [by left|done]|].
        apply Hin in Hs as [Hs Hd]. split; [by right|done].
Qed.

(** The [Detach] calls of the second loop, however it ends, are the first
    of those it has to make. *)
Lemma detach_run_within d client id oifs vs o h :
  (forall k v, (k, v) ∈ vs -> exists oi, oifs !! v = Some oi /\ ri_SubnetID oi = k) ->
  let res := run o h (Router.resourceRouterUpdate_detach d client id oifs vs) in
  exists rest, vs.*1 = detach_calls res.2 ++ rest.
Proof.
  revert h. induction vs as [|[k v] vs IH]; intros h Hvs; cbn.
  - by exists [].
  - destruct (Hvs k v) as (oi & Hoi & Hk); [by left|]. rewrite Hoi. cbn.
    destruct (o h (routers_Detach client id (ri_SubnetID oi))) as [x|e] eqn:Eo; cbn.
    2:{ change (detach_calls [?e]) with [ri_SubnetID oi]. exists vs.*1. by rewrite Hk. }
    specialize (IH (h ++ [(routers_Detach client id (ri_SubnetID oi), RRouter (Ok x))])).
    cbn zeta in IH. destruct IH as [rest IH].
    { intros k' v' Hin. apply Hvs. by right. }
    destruct (run o _ _) as [r tr]; cbn [fst snd] in *.
    change (detach_calls ((routers_Detach client id (ri_SubnetID oi), RRouter (Ok x)) :: tr))
      with (ri_SubnetID oi :: detach_calls tr).
    exists rest. by rewrite IH, Hk.
Qed.

Lemma attach_calls_app t1 t2 : attach_calls (t1 ++ t2) = attach_calls t1 ++ attach_calls t2.
Proof. apply omap_app. Qed.

Lemma detach_calls_app t1 t2 : detach_calls (t1 ++ t2) = detach_calls t1 ++ detach_calls t2.
Proof. apply omap_app. Qed.

Lemma attach_calls_nil tr :
  Forall (fun ev : event => forall cl r s, ev.1 <> routers_Attach cl r s) tr ->
  attach_calls tr = [].
Proof.
  induction 1 as [|[c r] tr Hc _ IH]; [done|].
  unfold attach_calls in *. destruct c; cbn in *; try done.
  by destruct (Hc client routerID subnetID).
Qed.

Lemma detach_calls_nil tr :
  Forall (fun ev : event => forall cl r s, ev.1 <> routers_Detach cl r s) tr ->
  detach_calls tr = [].
Proof.
  induction 1 as [|[c r] tr Hc _ IH]; [done|].
  unfold detach_calls in *. destruct c; cbn in *; try done.
  by destruct (Hc client routerID subnetID).
Qed.

Hypothesis range_order_perm : forall m : gmap string nat, range_order m ≡ₚ map_to_list m.

Lemma interfaces_run d client id o h oifs nifs :
  HasChange d "interfaces" = true ->
  extractInterfacesMap (set_List (GetChange d "interfaces").1) = Ok oifs ->
  extractInterfacesMap (set_List (GetChange d "interfaces").2) = Ok nifs ->
  NoDup (subnet_ids nifs) ->
  let res := run o h (Router.resourceRouterUpdate_interfaces d client id) in
  Forall (fun ev : event => is_attach_detach ev.1 = true) res.2 /\
  match res.1 with
  | Next _ => reconciled (subnet_ids oifs) (subnet_ids nifs) res.2
  | Return _ => True
  end.
Proof.
  intros Hch Ho Hn Hnd. unfold Router.resourceRouterUpdate_interfaces.
  rewrite Hch. cbn in Ho, Hn. cbn [GetChange]. rewrite Ho, Hn. cbn zeta.
  rewrite run_bind.
  pose proof (attach_run d client id nifs (Router.resourceRouterUpdate_omap oifs) o h Hnd)
    as [Ha1 Ha2]. cbn zeta in Ha1, Ha2.
  destruct (run o h (Router.resourceRouterUpdate_attach _ _ _ _ _)) as [[om'|out] t1];
    cbn [fst snd] in *.
  2:{ cbn. rewrite app_nil_r. split; [|done].
      eapply Forall_impl; [exact Ha1|]. by intros [c r] [s ->]. }
  destruct Ha2 as (Hn1 & Hin1 & Hom').
  pose proof (detach_run d client id oifs (range_order om') o (h ++ t1)) as [Hd1 Hd2].
  { intros k v Hkv. apply omap_lookup.
    rewrite range_order_perm in Hkv. apply elem_of_map_to_list in Hkv.
    by apply Hom' in Hkv as [? _]. }
  cbn zeta in Hd1, Hd2.
  destruct (run o (h ++ t1) (Router.resourceRouterUpdate_detach _ _ _ _ _)) as [[u|out] t2];
    cbn [fst snd] in *.
  2:{ split; [|done]. apply Forall_app. split.
      - eapply Forall_impl; [exact Ha1|]. by intros [c r] [s ->].
      - eapply Forall_impl; [exact Hd1|]. by intros [c r] [s ->]. }
  split.
  { apply Forall_app. split.
    - eapply Forall_impl; [exact Ha1|]. by intros [c r] [s ->].
    - eapply Forall_impl; [exact Hd1|]. by intros [c r] [s ->]. }
  unfold reconciled. rewrite attach_calls_app, detach_calls_app.
  rewrite (attach_calls_nil t2), (detach_calls_nil t1), app_nil_r, app_nil_l.
  2:{ eapply Forall_impl; [exact Ha1|]. intros [c r] [s Hs] ? ? ?. cbn in *. congruence. }
  2:{ eapply Forall_impl; [exact Hd1|]. intros [c r] [s Hs] ? ? ?. cbn in *. congruence. }
  split; [done|]. split.
  { intros s. rewrite Hin1, eq_None_not_Some, omap_dom. done. }
  rewrite Hd2. split.
  { rewrite range_order_perm. apply NoDup_fst_map_to_list. }
  intros s. rewrite range_order_perm, list_elem_of_fmap. split.
  - intros ([k v] & -> & Hkv). apply elem_of_map_to_list in Hkv.
    apply Hom' in Hkv as [Hkv Hni]. split; [|done]. apply omap_dom. by eexists.
  - intros [[v Hv]%omap_dom Hni]. exists (s, v). split; [done|].
    apply elem_of_map_to_list, Hom'. done.
Qed.

Lemma within_difference_nil old new tr :
  attach_calls tr = [] -> detach_calls tr = [] -> within_difference old new tr.
Proof.
  intros Ha Hd. unfold within_difference. rewrite Ha, Hd.
  split; [constructor|]. split; [by intros s ?%elem_of_nil|].
  split; [constructor|]. by intros s ?%elem_of_nil.
Qed.

(** The block on the interfaces, however it ends. *)
Lemma interfaces_within d client id o h oifs nifs :
  HasChange d "interfaces" = true ->
  extractInterfacesMap (set_List (GetChange d "interfaces").1) = Ok oifs ->
  extractInterfacesMap (set_List (GetChange d "interfaces").2) = Ok nifs ->
  NoDup (subnet_ids nifs) ->
  let res := run o h (Router.resourceRouterUpdate_interfaces d client id) in
  within_difference (subnet_ids oifs) (subnet_ids nifs) res.2.
Proof.
  intros Hch Ho Hn Hnd. unfold Router.resourceRouterUpdate_interfaces.
  rewrite Hch. cbn in Ho, Hn. cbn [GetChange]. rewrite Ho, Hn. cbn zeta.
  rewrite run_bind.
  pose proof (attach_run d client id nifs (Router.resourceRouterUpdate_omap oifs) o h Hnd)
    as [Ha1 Ha2].
  pose proof (attach_run_within d client id nifs (Router.resourceRouterUpdate_omap oifs)
                o h Hnd) as [Hw1 Hw2].
  cbn zeta in Ha1, Ha2, Hw1, Hw2.
  assert (forall s, s ∈ attach_calls
                      (run o h (Router.resourceRouterUpdate_attach d client id nifs
                                  (Router.resourceRouterUpdate_omap oifs))).2 ->
                    s ∈ subnet_ids nifs /\ s ∉ subnet_ids oifs) as Hw3.
  { intros s [Hs Hnone]%Hw2. split; [done|]. by rewrite <- omap_dom, <- eq_None_not_Some. }
  clear Hw2.
  destruct (run o h (Router.resourceRouterUpdate_attach _ _ _ _ _)) as [[om'|out] t1];
    cbn [fst snd] in *.
  2:{ cbn. rewrite app_nil_r. unfold within_difference. rewrite (detach_calls_nil t1).
      2:{ eapply Forall_impl; [exact Ha1|]. intros [c r] [s Hs] ? ? ?. cbn in *. congruence. }
      split; [done|]. split; [done|].
      split; [constructor|]. by intros s ?%elem_of_nil. }
  destruct Ha2 as (_ & _ & Hom').
  assert (forall k v, (k, v) ∈ range_order om' ->
            exists oi, oifs !! v = Some oi /\ ri_SubnetID oi = k) as Hvs.
  { intros k v Hkv. apply omap_lookup.
    rewrite range_order_perm in Hkv. apply elem_of_map_to_list in Hkv.
    by apply Hom' in Hkv as [? _]. }
  pose proof (detach_run d client id oifs (range_order om') o (h ++ t1) Hvs) as [Hd1 _].
  pose proof (detach_run_within d client id oifs (range_order om') o (h ++ t1) Hvs)
    as [rest Hrest].
  cbn zeta in Hd1, Hrest.
  destruct (run o (h ++ t1) (Router.resourceRouterUpdate_detach _ _ _ _ _)) as [r t2];
    cbn [fst snd] in *.
  unfold within_difference. rewrite attach_calls_app, detach_calls_app.
  rewrite (attach_calls_nil t2), (detach_calls_nil t1), app_nil_r, app_nil_l.
  2:{ eapply Forall_impl; [exact Ha1|]. intros [c r'] [s Hs] ? ? ?. cbn in *. congruence. }
  2:{ eapply Forall_impl; [exact Hd1|]. intros [c r'] [s Hs] ? ? ?. cbn in *. congruence. }
  split; [done|]. split; [done|].
  assert (NoDup (detach_calls t2 ++ rest)) as Hnd2.
  { rewrite <- Hrest, range_order_perm. apply NoDup_fst_map_to_list. }
  split; [by apply NoDup_app in Hnd2 as [? _]|].
  intros s Hs.
  assert (s ∈ (range_order om').*1) as Hin by (rewrite Hrest; apply elem_of_app; by left).
  rewrite range_order_perm in Hin. apply list_elem_of_fmap in Hin as ([k v] & -> & Hkv).
  apply elem_of_map_to_list in Hkv. apply Hom' in Hkv as [Hkv Hni].
  split; [|done]. apply omap_dom. by eexists.
Qed.

Lemma RouterRead_no_attach d :
  calls_only (fun c => is_attach_detach c = false) (Router.resourceRouterRead d).
Proof.
  unfold Router.resourceRouterRead. cbn. split; [done|].
  intros [client|e]; cbn; [|done]. split; [done|].
  intros [router|e]; cbn; [|done].
  repeat (destruct_inner; cbn); done.
Qed.

Lemma no_attach_detach tr :
  Forall (fun ev : event => is_attach_detach ev.1 = false) tr ->
  attach_calls tr = [] /\ detach_calls tr = [].
Proof.
  intros Hall. split; [apply attach_calls_nil|apply detach_calls_nil];
    (eapply Forall_impl; [exact Hall|]); intros [c r] Hc ? ? ? Heq; cbn in *;
    rewrite Heq in Hc; discriminate.
Qed.

(** C8, amended: the router's update handler reconciles the interfaces by
    subnet ID.  In every run, there is at most one [Attach] call for a subnet ID,
    and only for one of the new set that the old set lacks, and at most one
    [Detach] call, and only for one of the old set that the new set lacks
    (see [within_difference]): no call is made for a subnet ID of both
    sets.  In a run that reaches [routers.Update], no [Attach] or [Detach]
    having failed, there is exactly one [Attach] call for each subnet ID of
    the new set that the old set lacks and exactly one [Detach] call for
    each subnet ID of the old set that the new set lacks (see
    [reconciled]).  The subnet IDs of the new set are assumed distinct, and
    [range] to visit each entry of a map once. *)
Theorem RouterUpdate_reconciles (o : oracle) (d : ResourceData) oifs nifs :
  let res := run o [] (Router.resourceRouterUpdate d) in
  extractInterfacesMap (set_List (GetChange d "interfaces").1) = Ok oifs ->
  extractInterfacesMap (set_List (GetChange d "interfaces").2) = Ok nifs ->
  NoDup (subnet_ids nifs) ->
  within_difference (subnet_ids oifs) (subnet_ids nifs) res.2 /\
  ((exists ev, ev ∈ res.2 /\ is_routers_Update ev.1 = true) ->
   reconciled (subnet_ids oifs) (subnet_ids nifs) res.2).
Proof.
  intros res Ho Hn Hnd. subst res.
  unfold Router.resourceRouterUpdate. cbn [bind call]. rewrite run_Call. cbn [fst snd app].
  destruct (o [] _) as [cl|e1].
  2:{ cbn. split; [by apply within_difference_nil|].
      intros (ev & Hev & Hup). in_trace Hev. subst. discriminate. }
  set (upd := if HasChange d "name" then _ else _).
  destruct (if HasChange d "external_gateway_info" then _ else Ok upd) as [updateOpts|e2].
  2:{ cbn. split; [by apply within_difference_nil|].
      intros (ev & Hev & Hup). in_trace Hev. subst. discriminate. }
  rewrite run_bind.
  match goal with
  | |- context [run o ?h (Router.resourceRouterUpdate_interfaces d cl (Id d))] =>
      set (h1 := h)
  end.
  assert (let r := run o h1 (Router.resourceRouterUpdate_interfaces d cl (Id d)) in
          Forall (fun ev : event => is_attach_detach ev.1 = true) r.2 /\
          within_difference (subnet_ids oifs) (subnet_ids nifs) r.2 /\
          match r.1 with
          | Next _ => reconciled (subnet_ids oifs) (subnet_ids nifs) r.2
          | Return _ => True
          end) as Hblock.
  { destruct (HasChange d "interfaces") eqn:Hch.
    - pose proof (interfaces_run d cl (Id d) o h1 oifs nifs Hch Ho Hn Hnd) as [Hr1 Hr2].
      split; [exact Hr1|]. split; [by apply interfaces_within|exact Hr2].
    - unfold Router.resourceRouterUpdate_interfaces. rewrite Hch. cbn.
      split; [constructor|]. split; [by apply within_difference_nil|].
      apply HasChange_false in Hch. cbn in Ho, Hn. rewrite Hch, Hn in Ho.
      injection Ho as <-.
      unfold reconciled. change (attach_calls []) with (@nil string).
      change (detach_calls []) with (@nil string).
      split; [apply NoDup_nil_2|].
      split; [intros s; split; [by intros ?%elem_of_nil|by intros []]|].
      split; [apply NoDup_nil_2|]. intros s; split; [by intros ?%elem_of_nil|by intros []]. }
  cbn zeta in Hblock. destruct Hblock as (Hall & Hwithin & Hrec).
  destruct (run o h1 (Router.resourceRouterUpdate_interfaces d cl (Id d))) as [[u|out] t1];
    cbn [fst snd] in *.
  2:{ cbn. rewrite app_nil_r. split.
      - destruct Hwithin as (W1 & W2 & W3 & W4). unfold within_difference.
        change (attach_calls (?e :: ?t)) with (attach_calls ([e] ++ t)).
        change (detach_calls (?e :: ?t)) with (detach_calls ([e] ++ t)).
        rewrite !attach_calls_app, !detach_calls_app. done.
      - intros (ev & Hev & Hup).
        apply elem_of_cons in Hev as [->|Hev]; [discriminate|].
        rewrite Forall_forall in Hall. apply Hall in Hev. by destruct ev as [[] ?]. }
  match goal with |- context [run o ?h ?p] =>
    assert (calls_only (fun c => is_attach_detach c = false) p) as Hk end.
  { destruct (if HasChange d "routes" then _ else Ok updateOpts); cbn; [|done].
    split; [done|]. intros [x|e]; cbn; [|done]. split; [done|]. intros now.
    apply RouterRead_no_attach. }
  match goal with |- context [run o ?h ?p] =>
    pose proof (calls_only_run p _ o h Hk) as Hk2; destruct (run o h p) as [out t2] end.
  cbn [fst snd] in *. apply no_attach_detach in Hk2 as [Ha2 Hd2].
  destruct Hrec as (R1 & R2 & R3 & R4). destruct Hwithin as (W1 & W2 & W3 & W4).
  unfold reconciled, within_difference.
  change (attach_calls (?e :: ?t)) with (attach_calls ([e] ++ t)).
  change (detach_calls (?e :: ?t)) with (detach_calls ([e] ++ t)).
  rewrite !attach_calls_app, !detach_calls_app, Ha2, Hd2, !app_nil_r. done.
Qed.
End Reconcile.

(** ** The validators *)

(** C4: the "weight" validator returns no diagnostic exactly for the
    integers from 0 to 256, both included, and an error diagnostic exactly
    for the others. *)
Theorem validateWeight_accepts_0_to_256 (v : Z) :
  (Validators.validateWeight v = [] <-> 0 <= v <= 256) /\
  (HasError (Validators.validateWeight v) = true <-> ~ (0 <= v <= 256)).
Proof.
  unfold Validators.validateWeight, Validators.minWeight, Validators.maxWeight.
  destruct (v >=? 0) eqn:E1, (v <=? 256) eqn:E2; cbn; (split; split); try done; lia.
Qed.

(** C5: the "address" validator returns no diagnostic exactly for the
    strings that [net.ParseIP] parses, and an error diagnostic exactly for
    the strings it does not. *)
Theorem validateAddress_accepts_parsed {IP Path : Type} (ParseIP : string -> option IP)
    (fmt_q : Path -> string) (v : string) (key : Path) :
  (Validators.validateAddress ParseIP fmt_q v key = [] <-> ParseIP v <> None) /\
  (HasError (Validators.validateAddress ParseIP fmt_q v key) = true <-> ParseIP v = None).
Proof.
  unfold Validators.validateAddress. destruct (ParseIP v); cbn; (split; split); done.
Qed.

(** C6: the "lb_algorithm" validator returns no diagnostic exactly for the
    four algorithm names, and for every other string the error diagnostic
    that lists them as the available values. *)
Theorem validateLBAlgorithm_accepts_the_four (v : string) :
  let available := ["ROUND_ROBIN"; "LEAST_CONNECTIONS"; "SOURCE_IP"; "SOURCE_IP_PORT"] in
  (Validators.validateLBAlgorithm v = [] <-> v ∈ available) /\
  (Validators.validateLBAlgorithm v =
     [mkDiagnostic SevError
        ("wrong type " +:+ v +:+ ", available values is 'ROUND_ROBIN', "
         +:+ "'LEAST_CONNECTIONS', 'SOURCE_IP', 'SOURCE_IP_PORT'")]
   <-> v ∉ available).
Proof.
  cbn zeta. unfold Validators.validateLBAlgorithm.
  rewrite !elem_of_cons, elem_of_nil.
  repeat case_bool_decide; cbn; (split; split); try done; try tauto.
Qed.

(** ** The example environment satisfies what the theorems assume *)

Lemma Demo_revert_field_Id d field : Id (Demo.revert_field d field) = Id d.
Proof.
  unfold Demo.revert_field. destruct (HasChange d field); [|done].
  by destruct (rd_old d !! field).
Qed.

Lemma Demo_revertState_Id d fields : Id (Demo.revert_fields d fields) = Id d.
Proof.
  unfold Demo.revert_fields. case_bool_decide as Hlu; [done|]. clear Hlu.
  revert d. induction fields as [|f fields IH]; intros d; cbn; [done|].
  by rewrite IH, Demo_revert_field_Id.
Qed.

Lemma Demo_revert_field_frame d field k :
  k <> field -> Get (Demo.revert_field d field) k = Get d k.
Proof.
  intros Hk. unfold Demo.revert_field. destruct (HasChange d field); [|done].
  destruct (rd_old d !! field); [|done]. unfold Get. cbn. by apply lookup_insert_ne.
Qed.

Lemma Demo_revertState_frame d fields k :
  k ∉ fields -> Get (Demo.revert_fields d fields) k = Get d k.
Proof.
  unfold Demo.revert_fields. case_bool_decide as Hlu; [done|]. clear Hlu.
  revert d. induction fields as [|f fields IH]; intros d Hk; cbn; [done|].
  apply not_elem_of_cons in Hk as [Hf Hk].
  by rewrite IH, Demo_revert_field_frame.
Qed.

(** ** C1: create handlers *)

(** C1: each of the four create handlers makes its create call: when
    [CreateClient] has answered with a client, the second call of the run
    is the create call, with the options built from the resource data (for
    the router and the baremetal instance: unless building them fails,
    which is returned as the diagnostic; see [makes_create_call]).  Once
    the create call is answered, the handler returns the error of that call
    as the diagnostic and leaves the resource data alone, or waits for the
    first task of the answer under the handler's fixed timeout, returns an
    error of the wait as the diagnostic and leaves the resource data alone,
    or else ends with the ID extracted from the finished task as the
    resource ID and no diagnostic (see [created]).  After [d.SetId] the
    read handler runs: the LB member's panics on a pool that lists a member
    with the new ID and a nil address; the other three do not panic.  The
    repository's [revertState], which the read at the end of three of the
    handlers calls, is assumed to keep the resource ID. *)
Theorem create_handlers_set_the_created_id `{Env} :
  (forall d fields, Id (revertState d fields) = Id d) ->
  (makes_create_call LBPool.resourceLBPoolCreate LBPool.LBPoolsPoint
     (fun d => Ok (LBPool.resourceLBPoolCreate_opts d))
     (fun d client opts => lbpools_Create client opts) /\
   create_spec LBPool.resourceLBPoolCreate
     (fun client c => exists opts, c = lbpools_Create client opts)
     LBPool.LBPoolsCreateTimeout ExtractPoolIDFromTask
     "cannot retrieve LBPool ID from task info: " no_panic) /\
  (makes_create_call Router.resourceRouterCreate Router.RouterPoint
     Router.resourceRouterCreate_opts (fun d client opts => routers_Create client opts) /\
   create_spec Router.resourceRouterCreate
     (fun client c => exists opts, c = routers_Create client opts)
     Router.RouterCreatingTimeout ExtractRouterIDFromTask
     "cannot retrieve Router ID from task info: " no_panic) /\
  (makes_create_call LBMember.resourceLBMemberCreate LBPool.LBPoolsPoint
     (fun d => Ok (LBMember.resourceLBMemberCreate_opts d))
     (fun d client opts => lbpools_CreateMember client (Get_string d "pool_id") opts) /\
   create_spec LBMember.resourceLBMemberCreate
     (fun client c => exists poolID opts, c = lbpools_CreateMember client poolID opts)
     LBPool.LBPoolsCreateTimeout ExtractPoolMemberIDFromTask
     "cannot retrieve LBMember ID from task info: " member_without_address) /\
  (makes_create_call BmInstance.resourceBmInstanceCreate BmInstance.BmInstancePoint
     BmInstance.resourceBmInstanceCreate_opts
     (fun d client opts => bminstances_Create client opts) /\
   create_spec BmInstance.resourceBmInstanceCreate
     (fun client c => exists opts, c = bminstances_Create client opts)
     BmInstance.BmInstanceCreatingTimeout ExtractInstanceIDFromTask
     "cannot retrieve Instance ID from task info: " no_panic).
Proof.
  intros Hrevert. split; [|split; [|split]]; split.
  - apply LBPoolCreate_makes_call.
  - by apply LBPoolCreate_spec.
  - apply RouterCreate_makes_call.
  - by apply RouterCreate_spec.
  - apply LBMemberCreate_makes_call.
  - by apply LBMemberCreate_spec.
  - apply BmInstanceCreate_makes_call.
  - by apply BmInstanceCreate_spec.
Qed.

(** ** C3: the deletion checkers *)

(** C3: for the router, the LB pool and the baremetal instance, the checker
    handed to the task wait makes one [Get] of the resource and succeeds
    exactly when the answer is the typed 404, returning an error when the
    [Get] succeeds and when it fails otherwise.  The delete handler makes
    its delete call after creating its client, waits for the first task of
    the answer under its timeout, and then runs that checker: when the
    checker succeeds the handler returns no diagnostic and has set the
    resource ID to the empty string, and when it fails its error is the
    diagnostic and the resource data are as they were (see
    [deletes_through_checker]).  Conversely, a run of the delete handler
    without diagnostic ends on the checker's [Get], answered with the
    typed 404, and has set the resource ID to the empty string. *)
Theorem delete_checkers_succeed_on_404 `{Env} :
  (deletion_checker_spec Router.resourceRouterDelete_checker routers_Get /\
   deletes_through_checker Router.resourceRouterDelete Router.RouterPoint routers_Delete
     Router.RouterDeleting Router.resourceRouterDelete_checker /\
   delete_success_spec Router.resourceRouterDelete routers_Get) /\
  (deletion_checker_spec LBPool.resourceLBPoolDelete_checker lbpools_Get /\
   deletes_through_checker LBPool.resourceLBPoolDelete LBPool.LBPoolsPoint lbpools_Delete
     LBPool.LBPoolsCreateTimeout LBPool.resourceLBPoolDelete_checker /\
   delete_success_spec LBPool.resourceLBPoolDelete lbpools_Get) /\
  (deletion_checker_spec BmInstance.resourceBmInstanceDelete_checker instances_Get /\
   deletes_through_checker BmInstance.resourceBmInstanceDelete InstancePoint
     (fun client id =>
        instances_Delete client id
          {| ido_Volumes := []; ido_DeleteFloatings := true; ido_FloatingIPs := [] |})
     BmInstance.BmInstanceDeleting BmInstance.resourceBmInstanceDelete_checker /\
   delete_success_spec BmInstance.resourceBmInstanceDelete instances_Get).
Proof.
  split; [|split]; (split; [|split]).
  - apply RouterDelete_checker_spec.
  - apply RouterDelete_through_checker.
  - apply RouterDelete_success.
  - apply LBPoolDelete_checker_spec.
  - apply LBPoolDelete_through_checker.
  - apply LBPoolDelete_success.
  - apply BmInstanceDelete_checker_spec.
  - apply BmInstanceDelete_through_checker.
  - apply BmInstanceDelete_success.
Qed.

(** ** C2: errors of the delete handlers *)

(** C2, amended: each of the four delete handlers makes its delete call
    once its client is created.  The delete handlers of the router and of
    the baremetal instance return every error of their own calls (the
    client, the delete call, the task wait), the typed 404 included, as the
    diagnostic, and stop there; the delete handlers of the LB pool and of
    the LB member do so for every such error but a typed 404 of the delete
    call; on that 404 the LB member's handler stops with no diagnostic and
    the resource ID cleared. *)
Theorem delete_handlers_propagate_errors `{Env} :
  (makes_delete_call Router.resourceRouterDelete Router.RouterPoint
     (fun d client => routers_Delete client (Id d)) /\
   propagates_errors Router.resourceRouterDelete) /\
  (makes_delete_call BmInstance.resourceBmInstanceDelete InstancePoint
     (fun d client =>
        instances_Delete client (Id d)
          {| ido_Volumes := []; ido_DeleteFloatings := true; ido_FloatingIPs := [] |}) /\
   propagates_errors BmInstance.resourceBmInstanceDelete) /\
  (makes_delete_call LBPool.resourceLBPoolDelete LBPool.LBPoolsPoint
     (fun d client => lbpools_Delete client (Id d)) /\
   propagates_errors_but_404 LBPool.resourceLBPoolDelete) /\
  (makes_delete_call LBMember.resourceLBMemberDelete LBPool.LBPoolsPoint
     (fun d client => lbpools_DeleteMember client (Get_string d "pool_id") (Id d)) /\
   propagates_errors_but_404 LBMember.resourceLBMemberDelete /\
   deleted_on_404 LBMember.resourceLBMemberDelete).
Proof.
  split; [|split; [|split]]; split.
  - apply RouterDelete_makes_call.
  - apply RouterDelete_propagates.
  - apply BmInstanceDelete_makes_call.
  - apply BmInstanceDelete_propagates.
  - apply LBPoolDelete_makes_call.
  - apply LBPoolDelete_propagates.
  - apply LBMemberDelete_makes_call.
  - split; [apply LBMemberDelete_propagates|apply LBMemberDelete_on_404].
Qed.


(** * Further properties of the handlers *)

(** ** The validators of the LB pool *)

(** X1: the "protocol" validator returns no diagnostic exactly for the four
    protocols its message lists, and for every other string the error
    diagnostic with that message: the two protocols of the [switch]'s
    second [case] are refused like a string that is no protocol. *)
Theorem validateProtocol_accepts_the_four
    (HTTP HTTPS TCP UDP TerminatedHTTPS PROXY v : string) :
  let validate := Validators.validateProtocol HTTP HTTPS TCP UDP TerminatedHTTPS PROXY in
  (validate v = [] <-> v ∈ [HTTP; HTTPS; TCP; UDP]) /\
  (validate v =
     [mkDiagnostic SevError
        ("wrong type " +:+ v +:+ ", available values is '" +:+ HTTP +:+ "', '" +:+ HTTPS
         +:+ "', '" +:+ TCP +:+ "', '" +:+ UDP +:+ "'")]
   <-> v ∉ [HTTP; HTTPS; TCP; UDP]).
Proof.
  cbn zeta. unfold Validators.validateProtocol.
  rewrite !elem_of_cons, elem_of_nil.
  repeat case_bool_decide; cbn; (split; split); try done; try tauto.
Qed.

(** X2: the "type" validator of the health monitor returns no diagnostic
    exactly for the six types its message lists, and for every other
    string the error diagnostic with that message. *)
Theorem validateHealthMonitorType_accepts_the_six
    (HTTP HTTPS PING TCP TLSHello UDPConnect v : string) :
  let validate :=
    Validators.validateHealthMonitorType HTTP HTTPS PING TCP TLSHello UDPConnect in
  (validate v = [] <-> v ∈ [HTTP; HTTPS; PING; TCP; TLSHello; UDPConnect]) /\
  (validate v =
     [mkDiagnostic SevError
        ("wrong type " +:+ v +:+ ", available values is '" +:+ HTTP +:+ "', '" +:+ HTTPS
         +:+ "', '" +:+ PING +:+ "', '" +:+ TCP +:+ "', '" +:+ TLSHello
         +:+ "', '" +:+ UDPConnect)]
   <-> v ∉ [HTTP; HTTPS; PING; TCP; TLSHello; UDPConnect]).
Proof.
  cbn zeta. unfold Validators.validateHealthMonitorType.
  rewrite !elem_of_cons, elem_of_nil.
  repeat case_bool_decide; cbn; (split; split); try done; try tauto.
Qed.

(** ** The provider's configuration *)

(** X3: the configuration handed to [conf.Client()] never has an empty
    Terraform version: it has the provider's when that is set and
    "0.12+compatible" otherwise; the API key and the URL are those of the
    provider block. *)
Theorem ConfigureContextFunc_version {Client : Type} (Config_Client : Provider.Config -> Client)
    (p_TerraformVersion : string) (d : ResourceData) :
  exists conf,
    Provider.ConfigureContextFunc Config_Client p_TerraformVersion d = Config_Client conf /\
    Provider.TerraformVersion conf <> "" /\
    Provider.TerraformVersion conf =
      (if bool_decide (p_TerraformVersion = "") then "0.12+compatible" else p_TerraformVersion) /\
    Provider.APIKey conf = Get_string d "api_key" /\
    Provider.CloudAPIURL conf = Get_string d "edgecenter_cloud_api".
Proof.
  unfold Provider.ConfigureContextFunc, Provider.providerConfigure. cbn zeta.
  eexists. split; [reflexivity|]. cbn.
  case_bool_decide; repeat split; done.
Qed.

(** ** The image data source's filter *)

Section ImageFilter.
Context `{Env}.

(** The "metadata_kv" filter sent to [images.ListAll] holds each key of
    the attribute with its value as a string, and no other key. *)
Lemma typedMetadataKV_lookup (metadataRaw : list (string * value)) (k : string) :
  ImageDataSource.typedMetadataKV metadataRaw !! k = value_string <$> map_get metadataRaw k.
Proof.
  unfold ImageDataSource.typedMetadataKV.
  induction metadataRaw as [|[k' v] m IH]; cbn; [apply lookup_empty|].
  case_bool_decide as Hk.
  - subst. by rewrite lookup_insert_eq.
  - by rewrite lookup_insert_ne.
Qed.

End ImageFilter.

(** ** The interfaces of a baremetal instance *)

Section BmInterfaces.
Context `{Env}.

Lemma elem_of_concat {A} (x : A) (ls : list (list A)) :
  x ∈ concat ls <-> exists l, l ∈ ls /\ x ∈ l.
Proof.
  induction ls as [|l ls IH]; cbn.
  - split; [by intros ?%elem_of_nil|by intros (? & ?%elem_of_nil & _)].
  - rewrite elem_of_app, IH. split.
    + intros [Hx|(l' & Hl' & Hx)]; [exists l; split; [by left|done]|].
      exists l'. split; [by right|done].
    + intros (l' & [->|Hl']%elem_of_cons & Hx); [by left|]. right. by exists l'.
Qed.

(** The configured interface that the read handler pairs with an IP
    assignment is the first that matches. *)
Lemma BmInstanceRead_match_first extracted subnetID ipAddress portID :
  first_match extracted subnetID ipAddress portID
    (BmInstance.resourceBmInstanceRead_match extracted subnetID ipAddress portID).
Proof.
  unfold BmInstance.resourceBmInstanceRead_match, first_match.
  induction extracted as [|x extracted IH]; cbn; [left; by split|].
  assert (bool_decide (io_SubnetID x = subnetID) || bool_decide (io_IPAddress x = ipAddress)
          || bool_decide (io_PortID x = portID) = true
          <-> interface_matches subnetID ipAddress portID x) as Hx.
  { unfold interface_matches. rewrite !orb_true_iff, !bool_decide_eq_true. tauto. }
  destruct (bool_decide _ || bool_decide _ || bool_decide _) eqn:E.
  - right. exists [], extracted. split; [done|]. split; [constructor|]. by apply Hx.
  - assert (~ interface_matches subnetID ipAddress portID x) as Hn.
    { intros Hm. apply Hx in Hm. congruence. }
    destruct IH as [[Hall ->]|(before & after & Heq & Hall & Hm)].
    + left. split; [by constructor|done].
    + right. exists (x :: before), after. rewrite Heq at 1. split; [done|].
      split; [by constructor|done].
Qed.

Lemma BmInstanceRead_entry_spec extracted order networkID portID is_parent a :
  interface_entry extracted
    (BmInstance.resourceBmInstanceRead_entry extracted order networkID portID is_parent a)
    order networkID portID is_parent a.
Proof.
  unfold interface_entry, BmInstance.resourceBmInstanceRead_entry. cbn zeta.
  pose proof (BmInstanceRead_match_first extracted (pip_SubnetID a)
                (IP_String (pip_IPAddress a)) portID) as Hfirst.
  destruct (BmInstance.resourceBmInstanceRead_match _ _ _ _) as [ty ni si pi ia [fip|]];
    cbn; (repeat split; try reflexivity); eexists; (split; [exact Hfirst|]);
    cbn; repeat split; reflexivity.
Qed.

Lemma elem_of_flat_map {A B} (f : A -> list B) (l : list A) (y : B) :
  y ∈ flat_map f l <-> exists x, x ∈ l /\ y ∈ f x.
Proof.
  rewrite list_elem_of_In, in_flat_map. split; intros (x & Hx & Hy); exists x;
    by rewrite ?list_elem_of_In in *.
Qed.

Lemma length_flat_map_sum {A B} (f : A -> list B) (g : A -> nat) (l : list A) :
  (forall x, length (f x) = g x) ->
  length (flat_map f l) = sum_list_with g l.
Proof. intros Hf. induction l as [|x l IH]; cbn; [done|]. by rewrite length_app, IH, Hf. Qed.

Lemma length_concat_imap {A B} (f : nat -> A -> list B) (g : A -> nat) (l : list A) :
  (forall i x, length (f i x) = g x) ->
  length (concat (imap f l)) = sum_list_with g l.
Proof.
  revert f. induction l as [|x l IH]; intros f Hf; cbn; [done|].
  rewrite length_app, Hf. f_equal. apply IH. intros i y. apply Hf.
Qed.

(** X4: the list written under "interface" by the read handler of the
    baremetal instance.  Every entry stands for an IP assignment of an
    interface of the API's list that has at least one IP assignment of its
    own: an assignment of that interface, or one of a sub-port of it; its
    "order" is the place of the interface in the API's list, and its type
    and floating IP are those of the first configured interface that
    matches the assignment.  Every such assignment has an entry, and the
    list has as many entries as there are such assignments; the sub-ports
    of an interface without IP assignment have none. *)
Theorem BmInstanceRead_interfacesList_entries (extracted : list InterfaceOpts)
    (interfacesListAPI : list instances_Interface) :
  let interfacesList :=
    BmInstance.resourceBmInstanceRead_interfacesList extracted interfacesListAPI in
  length interfacesList = listed_assignments interfacesListAPI /\
  (forall v, v ∈ interfacesList -> entry_of_interfaces extracted interfacesListAPI v) /\
  (forall order iFace a,
     interfacesListAPI !! order = Some iFace -> a ∈ iif_IPAssignments iFace ->
     exists v, v ∈ interfacesList /\
       interface_entry extracted v order (iif_NetworkID iFace) (iif_PortID iFace) true a) /\
  (forall order iFace sp a,
     interfacesListAPI !! order = Some iFace -> iif_IPAssignments iFace <> [] ->
     sp ∈ iif_SubPorts iFace -> a ∈ subp_IPAssignments sp ->
     exists v, v ∈ interfacesList /\
       interface_entry extracted v order (subp_NetworkID sp) (subp_PortID sp) false a).
Proof.
  cbn zeta. unfold BmInstance.resourceBmInstanceRead_interfacesList.
  split; [|split; [|split]].
  - unfold listed_assignments. apply length_concat_imap. intros order iFace.
    destruct (iif_IPAssignments iFace) as [|a0 rest]; [done|].
    rewrite length_app, length_map. f_equal.
    apply length_flat_map_sum. intros sp. by rewrite length_map.
  - intros v (l & Hl & Hv)%elem_of_concat.
    apply elem_of_lookup_imap in Hl as (order & iFace & -> & Hi).
    exists order, iFace.
    destruct (iif_IPAssignments iFace) as [|a0 rest] eqn:Ea; [by apply elem_of_nil in Hv|].
    apply elem_of_app in Hv as [Hv|Hv].
    + apply list_elem_of_fmap in Hv as (a & -> & Ha).
      exists a. split; [done|]. split; [done|]. left. split; [done|].
      apply BmInstanceRead_entry_spec.
    + apply elem_of_flat_map in Hv as (sp & Hsp & Hv).
      apply list_elem_of_fmap in Hv as (a & -> & Ha).
      exists a. split; [done|]. split; [done|]. right. exists sp. split; [done|].
      split; [done|]. apply BmInstanceRead_entry_spec.
  - intros order iFace a Hi Ha. eexists. split; [|apply BmInstanceRead_entry_spec].
    apply elem_of_concat. eexists. split.
    { apply elem_of_lookup_imap. exists order, iFace. split; [reflexivity|done]. }
    destruct (iif_IPAssignments iFace) as [|a0 rest] eqn:Ea; [by apply elem_of_nil in Ha|].
    apply elem_of_app. left. apply list_elem_of_fmap. by exists a.
  - intros order iFace sp a Hi Hne Hsp Ha. eexists. split; [|apply BmInstanceRead_entry_spec].
    apply elem_of_concat. eexists. split.
    { apply elem_of_lookup_imap. exists order, iFace. split; [reflexivity|done]. }
    destruct (iif_IPAssignments iFace) as [|a0 rest] eqn:Ea; [done|].
    apply elem_of_app. right. apply elem_of_flat_map. exists sp. split; [done|].
    apply list_elem_of_fmap. by exists a.
Qed.

End BmInterfaces.

(** ** Reading fields that were written *)

Section Fields.
Context `{Env}.

Lemma Get_d_Set__ne d k v k' : k <> k' -> Get (d_Set_ d k v) k' = Get d k'.
Proof.
  intros Hne. unfold d_Set_. destruct (d_Set d k v) as [d' e] eqn:E.
  by apply (Get_d_Set_ne _ _ _ _ _ _ E).
Qed.

Lemma Get_d_Set__eq d k v : field_writer k v = None -> Get (d_Set_ d k v) k = Some v.
Proof.
  intros Hw. unfold d_Set_, d_Set. rewrite Hw. unfold Get. cbn. apply lookup_insert_eq.
Qed.

Lemma Get_SetId d id k : Get (SetId d id) k = Get d k.
Proof. reflexivity. Qed.

(** An event of a run of a program that makes no call with [P]. *)
Lemma not_in_run {A} (p : prog A) (P : sdk_call -> Prop) o h c r :
  calls_only (fun c => ~ P c) p -> (c, r) ∈ (run o h p).2 -> P c -> False.
Proof.
  intros Hp Hin Hc. pose proof (calls_only_run _ _ o h Hp) as Hall.
  rewrite Forall_forall in Hall. by apply (Hall _ Hin).
Qed.

Lemma no_task_in_run {A} (p : prog A) o h c r :
  calls_only no_task p -> (c, r) ∈ (run o h p).2 -> starts_task c = false.
Proof.
  intros Hp Hin. pose proof (calls_only_run _ _ o h Hp) as Hall.
  rewrite Forall_forall in Hall. by apply (Hall _ Hin).
Qed.

End Fields.

(** ** The LB pool *)

Section LBPoolMore.
Context `{Env}.

(** X5: the delete handler of the LB pool goes on after a typed 404 of
    [lbpools.Delete]: when that answer names no task, the handler panics on
    [results.Tasks[0]], having made no other call and without clearing the
    resource ID. *)
Theorem LBPoolDelete_404_without_task_panics (o : oracle) (d : ResourceData)
    (client : ServiceClient) (results : option TaskResults) (err : error) :
  let ev1 := (CreateClient LBPool.LBPoolsPoint VersionPointV1, RClient (Ok client)) in
  o [] (CreateClient LBPool.LBPoolsPoint VersionPointV1) = Ok client ->
  o [ev1] (lbpools_Delete client (Id d)) = (results, Some err) ->
  errors_As_Default404 err = true ->
  Tasks_0 results = None ->
  run o [] (LBPool.resourceLBPoolDelete d)
  = (Panic, [ev1; (lbpools_Delete client (Id d), RTasks (results, Some err))]).
Proof.
  intros ev1 Hc Hd H404 Ht. subst ev1.
  unfold LBPool.resourceLBPoolDelete. cbn [bind call].
  rewrite run_Call. cbn [fst snd]. rewrite Hc. cbn [to_response app bind call].
  rewrite run_Call. cbn [fst snd]. rewrite Hd. cbn [to_response app].
  rewrite H404, Ht. reflexivity.
Qed.

(** X6: the request of the update handler of the LB pool carries the name
    and, of the algorithm, the health monitor and the session persistence,
    those that have changed; it lists no member.  It is made for the
    resource's ID, and only when one of the three has changed. *)
Theorem LBPoolUpdate_sends_only_changes (o : oracle) (d : ResourceData)
    (client : ServiceClient) (id : string) (opts : lbpools_UpdateOpts) (r : response) :
  let res := run o [] (LBPool.resourceLBPoolUpdate d) in
  (lbpools_Update client id opts, r) ∈ res.2 ->
  id = Id d /\
  lbpool_changed d = true /\
  luo_Name opts = Get_string d "name" /\
  luo_LBPoolAlgorithm opts
    = (if HasChange d "lb_algorithm" then Get_string d "lb_algorithm" else "") /\
  luo_HealthMonitor opts
    = (if HasChange d "health_monitor" then extractHealthMonitorMap d else None) /\
  luo_SessionPersistence opts
    = (if HasChange d "session_persistence" then extractSessionPersistenceMap d else None) /\
  luo_Members opts = [].
Proof.
  unfold LBPool.resourceLBPoolUpdate, lbpool_changed. cbn [bind call].
  rewrite run_Call. cbn [fst snd].
  destruct (o [] _) as [cl|e1]; [|cbn; single_event].
  cbn [to_response app].
  destruct (HasChange d "lb_algorithm"), (HasChange d "health_monitor"),
    (HasChange d "session_persistence"); cbn [negb orb].
  8:{ intros [Hin|Hin]%elem_of_cons; [discriminate|].
      by apply (no_task_in_run _ _ _ _ _ (LBPoolRead_calls d)) in Hin. }
  all: cbn [bind call]; rewrite run_Call; cbn [fst snd];
    intros [Hin|[Hin|Hin]%elem_of_cons]%elem_of_cons; [discriminate| |].
  all: try (injection Hin as -> -> -> _; repeat split; reflexivity).
  all: exfalso; revert Hin;
    match goal with |- context [run _ _ ?p] =>
      assert (calls_only no_task p) as Hk end.
  all: try (intros Hin; by apply (no_task_in_run _ _ _ _ _ Hk) in Hin).
  all: match goal with |- context [let '(_, _) := ?x in _] =>
      destruct x as [results [e|]] end; cbn; [done|];
    (destruct (Tasks_0 results); cbn; [|done]);
    (split; [done|]); intros [e|]; cbn; [done|]; (split; [done|]);
    intros [ti|e]; cbn; [|done]; (split; [done|]); intros now; apply LBPoolRead_calls.
Qed.


Lemma LBPoolRead_set_frame d d' lb diags k :
  (forall d fs k, k ∉ fs -> Get (revertState d fs) k = Get d k) ->
  LBPool.resourceLBPoolRead_set d lb = Done d' diags ->
  k ∉ LBPoolRead_fields ->
  Get d' k = Get d k.
Proof.
  intros Hframe Hset Hk. unfold LBPoolRead_fields in Hk.
  repeat (apply not_elem_of_cons in Hk as [?Hne Hk]).
  assert (k ∉ ["project_id"; "region_id"]) as Hpr.
  { intros Hin. repeat (apply elem_of_cons in Hin as [->|Hin]); try done;
      by apply elem_of_nil in Hin. }
  revert Hset. unfold LBPool.resourceLBPoolRead_set.
  set (d1 := d_Set_ (d_Set_ (d_Set_ d "name" _) "lb_algorithm" _) "protocol" _).
  assert (Get d1 k = Get d k) as G1.
  { subst d1. by rewrite !Get_d_Set__ne. }
  clearbody d1.
  set (d2 := match pool_LoadBalancers lb with [] => d1 | lb0 :: _ => _ end).
  assert (Get d2 k = Get d k) as G2.
  { subst d2. destruct (pool_LoadBalancers lb); [done|]. by rewrite Get_d_Set__ne. }
  clearbody d2. clear d1 G1.
  set (d3 := match pool_Listeners lb with [] => d2 | ls0 :: _ => _ end).
  assert (Get d3 k = Get d k) as G3.
  { subst d3. destruct (pool_Listeners lb); [done|]. by rewrite Get_d_Set__ne. }
  clearbody d3. clear d2 G2.
  destruct (pool_HealthMonitor lb) as [hm|];
    [destruct (d_Set d3 "health_monitor" _) as [d4 [e|]] eqn:E4|];
    try (intros [= <- _]; by rewrite (Get_d_Set_ne _ _ _ _ _ k E4));
    (destruct (pool_SessionPersistence lb) as [sp|];
      [destruct (d_Set _ "session_persistence" _) as [d5 [e|]] eqn:E5|]);
    intros [= <- _]; rewrite ?Hframe by done;
    repeat match goal with
    | E : d_Set _ ?k0 _ = (?x, _) |- context [Get ?x k] =>
        rewrite (Get_d_Set_ne _ _ _ _ _ k E) by done
    end; done.
Qed.

(** X7: a read of the LB pool leaves every attribute alone but those it
    mirrors and the two its call of [revertState] names, and it leaves the
    resource ID alone. *)
Theorem LBPoolRead_frame (o : oracle) (h : list event) (d d' : ResourceData)
    (diags : Diagnostics) (k : string) :
  (forall d fs, Id (revertState d fs) = Id d) ->
  (forall d fs k, k ∉ fs -> Get (revertState d fs) k = Get d k) ->
  (run o h (LBPool.resourceLBPoolRead d)).1 = Done d' diags ->
  Id d' = Id d /\ (k ∉ LBPoolRead_fields -> Get d' k = Get d k).
Proof.
  intros Hid Hframe Hrun. split.
  - pose proof (returns_run _ _ o h (LBPoolRead_keeps_Id Hid d)) as Hk.
    rewrite Hrun in Hk. exact Hk.
  - revert Hrun. unfold LBPool.resourceLBPoolRead. cbn [bind call].
    rewrite run_Call. cbn [fst].
    destruct (o h _) as [cl|e]; cbn [bind call]; [|by intros [= <- _]].
    rewrite run_Call. cbn [fst].
    destruct (o _ (lbpools_Get _ _)) as [lb|e]; [|by intros [= <- _]].
    cbn. intros Hset Hk. by apply (LBPoolRead_set_frame _ _ _ _ _ Hframe Hset).
Qed.

(** A read of the LB pool that returns no diagnostic has fetched the
    pool. *)
Lemma LBPoolRead_success o h d d' :
  (run o h (LBPool.resourceLBPoolRead d)).1 = Done d' [] ->
  exists client lb,
    (lbpools_Get client (Id d), RPool (Ok lb)) ∈ (run o h (LBPool.resourceLBPoolRead d)).2 /\
    LBPool.resourceLBPoolRead_set d lb = Done d' [].
Proof.
  unfold LBPool.resourceLBPoolRead. cbn [bind call].
  rewrite run_Call. cbn [fst snd].
  destruct (o h _) as [cl|e]; cbn [bind call]; [|done].
  rewrite run_Call. cbn [fst snd].
  destruct (o _ (lbpools_Get _ _)) as [lb|e]; [|done].
  cbn. intros Hset. exists cl, lb. split; [|done]. right. left.
Qed.

(** X8: an update of the LB pool that had something to send and returns no
    diagnostic has taken the time once, after the task, and stamped
    "last_updated" with it, and the state mirrors the pool fetched after
    that. *)
Theorem LBPoolUpdate_success_stamps (o : oracle) (d d' : ResourceData) :
  (forall k s, field_writer k (VString s) = None) ->
  (forall d fs k, k ∉ fs -> Get (revertState d fs) k = Get d k) ->
  let res := run o [] (LBPool.resourceLBPoolUpdate d) in
  lbpool_changed d = true ->
  res.1 = Done d' [] ->
  exists now client lb,
    (time_Now, RString now) ∈ res.2 /\
    Get d' "last_updated" = Some (VString now) /\
    (lbpools_Get client (Id d), RPool (Ok lb)) ∈ res.2 /\
    mirrors_pool d d' lb.
Proof.
  intros Hw Hframe res Hch. subst res. revert Hch.
  unfold LBPool.resourceLBPoolUpdate, lbpool_changed. cbn [bind call].
  rewrite run_Call. cbn [fst snd].
  destruct (o [] _) as [cl|e1]; [|done]. cbn [to_response app].
  destruct (HasChange d "lb_algorithm"), (HasChange d "health_monitor"),
    (HasChange d "session_persistence"); cbn [negb orb]; try discriminate; intros _.
  all: cbn [bind call]; rewrite run_Call; cbn [fst snd].
  all: match goal with |- context [let '(_, _) := ?x in _] =>
      destruct x as [results [e|]] end; cbn [to_response app]; [done|].
  all: destruct (Tasks_0 results) as [taskID|]; [|done].
  all: unfold WaitTaskAndReturnResult, LBPool.resourceLBPoolUpdate_checker;
    cbn [bind call]; rewrite run_Call; cbn [fst snd to_response app].
  all: match goal with |- context [match ?x with Some _ => _ | None => _ end] =>
      destruct x as [e|] end; [done|].
  all: cbn [bind call]; rewrite run_Call; cbn [fst snd to_response app].
  all: match goal with |- context [match ?x with Ok _ => _ | Err _ => _ end] =>
      destruct x as [ti|e] end; [|done].
  all: cbn [bind call]; rewrite run_Call; cbn [fst snd to_response app].
  all: match goal with |- context [d_Set_ _ "last_updated" (VString ?t)] =>
      set (now := t) end.
  all: intros Hout; destruct (LBPoolRead_success _ _ _ _ Hout) as (client & lb & Hin & Hset);
    rewrite d_Set__Id in Hin;
    exists now, client, lb;
    (split; [do 4 right; left|]);
    (split;
      [rewrite (LBPoolRead_set_frame _ _ _ _ "last_updated" Hframe Hset)
         by (apply (bool_decide_unpack _); exact I);
       by apply Get_d_Set__eq|]);
    (split; [by do 5 right|]);
    pose proof (LBPoolRead_set_mirrors Hw Hframe _ _ _ Hset) as Hm;
    unfold mirrors_pool in *;
    rewrite !Get_d_Set__ne in Hm by discriminate; exact Hm.
Qed.

End LBPoolMore.

(** ** The LB pool member *)

Section LBMemberMore.
Context `{Env}.

Lemma LBMemberRead_members_absent mid d members :
  Forall (fun pm => pm_ID pm <> mid) members ->
  LBMember.resourceLBMemberRead_members mid d members = Some d.
Proof.
  intros Hall. revert d. induction Hall as [|pm members Hpm Hall IH]; intros d; cbn; [done|].
  unfold LBMember.resourceLBMemberRead_member at 1.
  rewrite bool_decide_eq_false_2 by congruence. apply IH.
Qed.

Lemma LBMemberRead_members_app mid d l1 l2 :
  LBMember.resourceLBMemberRead_members mid d (l1 ++ l2) =
    match LBMember.resourceLBMemberRead_members mid d l1 with
    | None => None
    | Some d1 => LBMember.resourceLBMemberRead_members mid d1 l2
    end.
Proof.
  revert d. induction l1 as [|pm l1 IH]; intros d; cbn; [done|].
  by destruct (LBMember.resourceLBMemberRead_member mid d pm).
Qed.

(** X9: a read of a pool member that the pool does not list is no error: it
    returns no diagnostic, writes no attribute of its own, and the resource
    data are what [revertState] makes of them. *)
Theorem LBMemberRead_absent_member (o : oracle) (h : list event) (d : ResourceData)
    (client : ServiceClient) (pool : Pool) :
  let res := run o h (LBMember.resourceLBMemberRead d) in
  (lbpools_Get client (Get_string d "pool_id"), RPool (Ok pool)) ∈ res.2 ->
  Forall (fun pm => pm_ID pm <> Id d) (pool_Members pool) ->
  res.1 = Done (revertState d ["project_id"; "region_id"]) [].
Proof.
  unfold LBMember.resourceLBMemberRead. cbn [bind call].
  rewrite run_Call. cbn [fst snd].
  destruct (o h _) as [cl|e]; cbn [bind call to_response]; [|cbn; single_event].
  rewrite run_Call. cbn [fst snd].
  destruct (o _ (lbpools_Get _ _)) as [pool'|e]; cbn.
  2:{ intros Hin. in_trace Hin; discriminate. }
  intros Hin Hall.
  assert (pool' = pool) as ->.
  { destruct (LBMember.resourceLBMemberRead_members _ _ _); cbn in Hin;
      (in_trace Hin; [discriminate|]); by injection Hin as <- <-. }
  by rewrite LBMemberRead_members_absent.
Qed.

(** X10: a read of a pool member mirrors the member of the pool that has the
    resource's ID, the last one that has it: the loop over the members does
    not stop at the first.  It dereferences the address of every member
    that has the ID: when one of them has a nil address the handler
    panics, and otherwise it returns no diagnostic. *)
Theorem LBMemberRead_mirrors_member (o : oracle) (h : list event) (d : ResourceData)
    (client : ServiceClient) (pool : Pool) (before after : list PoolMember) (pm : PoolMember) :
  (forall k v, field_writer k v = None) ->
  (forall d fs k, k ∉ fs -> Get (revertState d fs) k = Get d k) ->
  let res := run o h (LBMember.resourceLBMemberRead d) in
  (lbpools_Get client (Get_string d "pool_id"), RPool (Ok pool)) ∈ res.2 ->
  pool_Members pool = before ++ pm :: after ->
  pm_ID pm = Id d ->
  Forall (fun pm' => pm_ID pm' <> Id d) after ->
  (Exists (fun pm' => pm_ID pm' = Id d /\ pm_Address pm' = None) (pool_Members pool) ->
   res.1 = Panic) /\
  (Forall (fun pm' => pm_ID pm' = Id d -> pm_Address pm' <> None) (pool_Members pool) ->
   exists d' address,
     pm_Address pm = Some address /\
     res.1 = Done d' [] /\
     Get d' "address" = Some (VString (IP_String address)) /\
     Get d' "protocol_port" = Some (VInt (pm_ProtocolPort pm)) /\
     Get d' "weight" = Some (VInt (pm_Weight pm)) /\
     Get d' "subnet_id" = Some (VString (pm_SubnetID pm)) /\
     Get d' "instance_id" = Some (VString (pm_InstanceID pm)) /\
     Get d' "operating_status" = Some (VString (pm_OperatingStatus pm))).
Proof.
  intros Hw Hframe. unfold LBMember.resourceLBMemberRead. cbn [bind call].
  rewrite run_Call. cbn [fst snd].
  destruct (o h _) as [cl|e]; cbn [bind call to_response]; [|cbn; single_event].
  rewrite run_Call. cbn [fst snd].
  destruct (o _ (lbpools_Get _ _)) as [pool'|e]; cbn.
  2:{ intros Hin. in_trace Hin; discriminate. }
  intros Hin Hm Hid Hafter.
  assert (pool' = pool) as ->.
  { destruct (LBMember.resourceLBMemberRead_members _ _ _); cbn in Hin;
      (in_trace Hin; [discriminate|]); by injection Hin as <- <-. }
  clear Hin.
  pose proof (LBMemberRead_members_spec (Id d) d (pool_Members pool)) as Hspec.
  split.
  - intros Hex.
    destruct (LBMember.resourceLBMemberRead_members _ _ _) as [d1|]; [|done].
    exfalso. destruct Hspec as [_ Hall].
    apply Exists_exists in Hex as (pm' & Hin' & Hpm' & Hnil).
    rewrite Forall_forall in Hall. by apply (Hall pm' Hin' Hpm').
  - intros Hall. clear Hspec.
    assert (exists address, pm_Address pm = Some address) as [address Ha].
    { rewrite Forall_forall in Hall. specialize (Hall pm).
      destruct (pm_Address pm) as [address|]; [by eexists|].
      exfalso. apply Hall; [|done|done]. rewrite Hm. apply elem_of_app. right. by left. }
    assert (exists d0, LBMember.resourceLBMemberRead_members (Id d) d before = Some d0)
      as [d0 Hd0].
    { pose proof (LBMemberRead_members_spec (Id d) d before) as Hb.
      destruct (LBMember.resourceLBMemberRead_members _ _ before) as [d0|]; [by eexists|].
      exfalso. apply Exists_exists in Hb as (pm' & Hin' & Hpm' & Hnil).
      rewrite Forall_forall in Hall. apply (Hall pm'); [|done|done].
      rewrite Hm. apply elem_of_app. by left. }
    rewrite Hm, LBMemberRead_members_app, Hd0. cbn.
    unfold LBMember.resourceLBMemberRead_member at 1.
    rewrite bool_decide_eq_true_2 by done. rewrite Ha.
    rewrite LBMemberRead_members_absent by done. cbn.
    eexists _, address. split; [done|]. split; [reflexivity|].
    rewrite !Hframe by (apply (bool_decide_unpack _); exact I).
    repeat split;
      repeat first [ rewrite Get_d_Set__eq by apply Hw | rewrite Get_d_Set__ne by discriminate ];
      reflexivity.
Qed.

(** X11: the checker of the member's deletion fetches the pool and succeeds
    exactly when the pool is there and lists no member with the ID: while
    the member is listed it returns "pool member ... still exist", and an
    error of the fetch, the typed 404 of a pool that is gone included, is
    returned wrapped. *)
Theorem LBMemberDelete_checker_spec (o : oracle) (h : list event) (client : ServiceClient)
    (pid mid : string) (task : TaskID) :
  let res := run o h (LBMember.resourceLBMemberDelete_checker client pid mid task) in
  exists g, res.2 = [(lbpools_Get client pid, RPool g)] /\
    match g with
    | Err e => res.1 = Err (Errorf_w "extracting LBPool resource error: " e)
    | Ok pool =>
        (Forall (fun pm => pm_ID pm <> mid) (pool_Members pool) -> res.1 = Ok tt) /\
        (Exists (fun pm => pm_ID pm = mid) (pool_Members pool) ->
         res.1 = Err (ErrorString ("pool member " +:+ mid +:+ " still exist")))
    end.
Proof.
  unfold LBMember.resourceLBMemberDelete_checker. cbn.
  destruct (o h _) as [pool|e]; cbn; [|by eexists].
  destruct (existsb _ _) eqn:Eex; cbn; (eexists; split; [reflexivity|]); cbn.
  - apply existsb_exists in Eex as (pm & Hin & Hpm%bool_decide_eq_true).
    split; [|done]. intros Hall. rewrite Forall_forall in Hall.
    apply list_elem_of_In in Hin. destruct (Hall _ Hin Hpm).
  - split; [done|]. intros (pm & Hin & Hpm)%Exists_exists.
    assert (existsb (fun pm => bool_decide (pm_ID pm = mid)) (pool_Members pool) = true) as Ht.
    { apply existsb_exists. exists pm. split; [by apply list_elem_of_In|].
      by apply bool_decide_eq_true. }
    congruence.
Qed.

(** X12: a deletion of a pool member that returns no diagnostic has cleared the
    resource ID, and it ended in one of two ways: on the typed 404 of
    [lbpools.DeleteMember], or on the checker's fetch of a pool that does
    not list the member. *)
Theorem LBMemberDelete_success (o : oracle) (d d' : ResourceData) :
  let res := run o [] (LBMember.resourceLBMemberDelete d) in
  res.1 = Done d' [] ->
  d' = SetId d "" /\
  exists client,
    (exists results e,
       last res.2 = Some (lbpools_DeleteMember client (Get_string d "pool_id") (Id d),
                          RTasks (results, Some e)) /\
       errors_As_Default404 e = true) \/
    (exists pool,
       last res.2 = Some (lbpools_Get client (Get_string d "pool_id"), RPool (Ok pool)) /\
       Forall (fun pm => pm_ID pm <> Id d) (pool_Members pool)).
Proof.
  unfold LBMember.resourceLBMemberDelete. cbn [bind call].
  rewrite run_Call. cbn [fst snd].
  destruct (o [] _) as [cl|e1]; cbn [bind call to_response app]; [|done].
  rewrite run_Call. cbn [fst snd].
  destruct (o _ (lbpools_DeleteMember _ _ _)) as [results [e|]]; cbn [to_response app].
  - destruct (errors_As_Default404 e) eqn:E404; cbn; [|done].
    intros [= <-]. split; [done|]. exists cl. left. by exists results, e.
  - destruct (Tasks_0 results) as [taskID|]; [|done].
    unfold WaitTaskAndReturnResult, LBMember.resourceLBMemberDelete_checker.
    cbn [bind call]. rewrite run_Call. cbn [fst snd to_response app].
    destruct (o _ (tasks_WaitForStatus _ _ _ _)) as [e|]; [done|].
    cbn [bind call]. rewrite run_Call. cbn [fst snd to_response app].
    destruct (o _ (lbpools_Get _ _)) as [pool|e]; [|done].
    destruct (existsb _ _) eqn:Eex; cbn; [done|].
    intros [= <-]. split; [done|]. exists cl. right. exists pool. split; [done|].
    apply Forall_forall. intros pm Hin Hpm.
    assert (existsb (fun pm => bool_decide (pm_ID pm = Id d)) (pool_Members pool) = true) as Ht.
    { apply existsb_exists. exists pm. split; [by apply list_elem_of_In|].
      by apply bool_decide_eq_true. }
    congruence.
Qed.


Lemma LBMemberUpdate_members_spec d members ms :
  LBMember.resourceLBMemberUpdate_members d members = Some ms ->
  Forall2 (fun pm m => LBMember.resourceLBMemberUpdate_member d pm = Some m) members ms.
Proof.
  revert ms. induction members as [|pm members IH]; intros ms; cbn.
  - intros [= <-]. constructor.
  - destruct (LBMember.resourceLBMemberUpdate_member d pm) as [m|] eqn:Em; [|done].
    destruct (LBMember.resourceLBMemberUpdate_members d members) as [ms'|]; [|done].
    intros [= <-]. constructor; [done|]. by apply IH.
Qed.

Lemma LBMemberUpdate_members_None d members :
  LBMember.resourceLBMemberUpdate_members d members = None <->
  Exists (fun pm => pm_ID pm <> Id d /\ pm_Address pm = None) members.
Proof.
  induction members as [|pm members IH]; cbn.
  - split; [done|]. by intros ?%Exists_nil.
  - rewrite Exists_cons, <- IH. unfold LBMember.resourceLBMemberUpdate_member.
    case_bool_decide as Hpm; cbn.
    + destruct (LBMember.resourceLBMemberUpdate_members d members); split; try done.
      * by intros [[? _]|?].
      * by right.
    + destruct (pm_Address pm) as [address|].
      * destruct (LBMember.resourceLBMemberUpdate_members d members); split; try done.
        -- by intros [[_ ?]|?].
        -- by right.
      * split; [|done]. intros _. by left.
Qed.

(** X13: the update of a pool member rewrites the member list of its pool: the
    request goes to the pool that was fetched, under the pool's own name,
    and lists the pool's members in their order, the others as the pool
    has them and the member with the resource's ID as the resource data
    have it.  A member that the pool does not list is not added. *)
Theorem LBMemberUpdate_members (fmt_v_Task : TaskInfo -> string) (o : oracle)
    (d : ResourceData) (client : ServiceClient) (id : string) (opts : lbpools_UpdateOpts)
    (r : response) :
  let res := run o [] (LBMember.resourceLBMemberUpdate fmt_v_Task d) in
  (lbpools_Update client id opts, r) ∈ res.2 ->
  exists pool,
    (lbpools_Get client (Get_string d "pool_id"), RPool (Ok pool)) ∈ res.2 /\
    id = pool_ID pool /\
    luo_Name opts = pool_Name pool /\
    luo_LBPoolAlgorithm opts = "" /\
    luo_HealthMonitor opts = None /\
    luo_SessionPersistence opts = None /\
    cpm_ID <$> luo_Members opts = pm_ID <$> pool_Members pool /\
    forall i pm, pool_Members pool !! i = Some pm ->
      (pm_ID pm <> Id d ->
       exists address,
         pm_Address pm = Some address /\
         luo_Members opts !! i =
           Some {| cpm_Address := Some address;
                   cpm_ProtocolPort := pm_ProtocolPort pm;
                   cpm_Weight := pm_Weight pm;
                   cpm_SubnetID := pm_SubnetID pm;
                   cpm_InstanceID := pm_InstanceID pm;
                   cpm_ID := pm_ID pm |}) /\
      (pm_ID pm = Id d ->
       luo_Members opts !! i =
         Some {| cpm_Address := net_ParseIP (Get_string d "address");
                 cpm_ProtocolPort := Get_int d "protocol_port";
                 cpm_Weight := Get_int d "weight";
                 cpm_SubnetID := Get_string d "subnet_id";
                 cpm_InstanceID := Get_string d "instance_id";
                 cpm_ID := Id d |}).
Proof.
  unfold LBMember.resourceLBMemberUpdate. cbn [bind call].
  rewrite run_Call. cbn [fst snd].
  destruct (o [] _) as [cl|e1]; cbn [bind call to_response app]; [|cbn; single_event].
  rewrite run_Call. cbn [fst snd].
  destruct (o _ (lbpools_Get _ _)) as [pool|e2]; cbn [bind call to_response app].
  2:{ cbn. intros Hin. in_trace Hin; discriminate. }
  destruct (LBMember.resourceLBMemberUpdate_members d (pool_Members pool)) as [members|] eqn:Em.
  2:{ cbn. intros Hin. in_trace Hin; discriminate. }
  apply LBMemberUpdate_members_spec in Em.
  cbn [bind call]. rewrite run_Call. cbn [fst snd].
  intros [Hin|[Hin|[Hin|Hin]%elem_of_cons]%elem_of_cons]%elem_of_cons;
    [discriminate|discriminate| |].
  - injection Hin as -> -> -> _. exists pool. split; [right; left|].
    cbn. do 5 (split; [reflexivity|]). split.
    + clear -Em. induction Em as [|pm m l ms Hm _ IH]; [done|]. cbn. f_equal; [|done].
      unfold LBMember.resourceLBMemberUpdate_member in Hm.
      case_bool_decide as Hpm; cbn in Hm.
      * by injection Hm as <-.
      * destruct (pm_Address pm); [|done]. by injection Hm as <-.
    + intros i pm Hi.
      destruct (Forall2_lookup_l _ _ _ _ _ Em Hi) as (m & Hmi & Hm).
      unfold LBMember.resourceLBMemberUpdate_member in Hm. split.
      * intros Hne. rewrite bool_decide_eq_false_2 in Hm by done. cbn in Hm.
        destruct (pm_Address pm) as [address|]; [|done].
        exists address. split; [done|]. by rewrite Hmi, <- Hm.
      * intros Heq. rewrite bool_decide_eq_true_2 in Hm by done. cbn in Hm.
        by rewrite Hmi, <- Hm.
  - exfalso. revert Hin.
    match goal with |- context [run _ _ ?p] =>
      assert (calls_only no_task p) as Hk end.
    { match goal with |- context [let '(_, _) := ?x in _] =>
        destruct x as [results [e|]] end; cbn; [done|].
      destruct (Tasks_0 results); cbn; [|done].
      split; [done|]. intros [e|]; cbn; [done|]. split; [done|].
      intros [ti|e]; cbn; [|done].
      destruct (ExtractPoolMemberIDFromTask ti); cbn; [|done].
      split; [done|]. intros now. apply LBMemberRead_calls. }
    intros Hin. by apply (no_task_in_run _ _ _ _ _ Hk) in Hin.
Qed.

(** X24: the update handler dereferences the address of every member of the
    pool that does not have the resource's ID: when the pool it has
    fetched lists such a member with a nil address, the handler panics
    right after the fetch, before any request to update the pool; and
    only then does it panic there. *)
Theorem LBMemberUpdate_nil_address (fmt_v_Task : TaskInfo -> string) (o : oracle)
    (d : ResourceData) (client : ServiceClient) (pool : Pool) :
  let res := run o [] (LBMember.resourceLBMemberUpdate fmt_v_Task d) in
  let ev1 := (CreateClient LBPool.LBPoolsPoint VersionPointV1, RClient (Ok client)) in
  let ev2 := (lbpools_Get client (Get_string d "pool_id"), RPool (Ok pool)) in
  o [] (CreateClient LBPool.LBPoolsPoint VersionPointV1) = Ok client ->
  o [ev1] (lbpools_Get client (Get_string d "pool_id")) = Ok pool ->
  (Exists (fun pm => pm_ID pm <> Id d /\ pm_Address pm = None) (pool_Members pool) ->
   res = (Panic, [ev1; ev2])) /\
  (Forall (fun pm => pm_ID pm <> Id d -> pm_Address pm <> None) (pool_Members pool) ->
   exists opts r, res.2 !! 2%nat = Some (lbpools_Update client (pool_ID pool) opts, r)).
Proof.
  cbn zeta. intros Hc Hg. unfold LBMember.resourceLBMemberUpdate. cbn [bind call].
  rewrite run_Call, Hc. cbn [bind call to_response app fst snd].
  rewrite run_Call. unfold event in *. rewrite Hg. cbn [to_response app fst snd].
  split.
  - intros Hex. apply LBMemberUpdate_members_None in Hex. by rewrite Hex.
  - intros Hall.
    destruct (LBMember.resourceLBMemberUpdate_members d (pool_Members pool)) as [ms|] eqn:Em.
    + cbn [bind call]. rewrite run_Call. cbn. by do 2 eexists.
    + exfalso. apply LBMemberUpdate_members_None, Exists_exists in Em as (pm & Hin & Hne & Hnil).
      rewrite Forall_forall in Hall. by apply (Hall pm Hin Hne).
Qed.

End LBMemberMore.

(** ** The router *)

Section RouterMore.
Context `{Env}.

Lemma RouterUpdate_attach_calls d client id nifs om :
  calls_only (fun c => is_attach_detach c = true)
    (Router.resourceRouterUpdate_attach d client id nifs om).
Proof.
  revert om. induction nifs as [|niface nifs IH]; intros om; cbn; [done|].
  destruct (om !! ri_SubnetID niface); [apply IH|].
  cbn. split; [done|]. intros [x|e]; cbn; [apply IH|done].
Qed.

Lemma RouterUpdate_detach_calls d client id oifs vs :
  calls_only (fun c => is_attach_detach c = true)
    (Router.resourceRouterUpdate_detach d client id oifs vs).
Proof.
  induction vs as [|[k v] vs IH]; cbn; [done|].
  destruct (oifs !! v); cbn; [|done].
  split; [done|]. intros [x|e]; cbn; [apply IH|done].
Qed.

Lemma RouterUpdate_interfaces_calls d client id :
  calls_only (fun c => is_attach_detach c = true)
    (Router.resourceRouterUpdate_interfaces d client id).
Proof.
  unfold Router.resourceRouterUpdate_interfaces.
  destruct (HasChange d "interfaces"); cbn; [|done].
  destruct (extractInterfacesMap _); cbn; [|done].
  destruct (extractInterfacesMap _); cbn; [|done].
  apply calls_only_bind; [apply RouterUpdate_attach_calls|].
  intros [om|out]; cbn; [apply RouterUpdate_detach_calls|done].
Qed.

Lemma RouterRead_no_update d :
  calls_only (fun c => is_routers_Update c = false) (Router.resourceRouterRead d).
Proof.
  unfold Router.resourceRouterRead. cbn. split; [done|].
  intros [client|e]; cbn; [|done]. split; [done|].
  intros [router|e]; cbn; [|done].
  repeat (destruct_inner; cbn); done.
Qed.

(** X14: the request of the router's update handler is made for the resource's
    ID and carries what has changed: the name when it has changed and the
    empty name otherwise; an external gateway only when that attribute has
    changed and the gateway extracted from it is of the type "manual"; the
    routes when they have changed, an empty list of routes when the
    attribute is now empty, and no routes otherwise. *)
Theorem RouterUpdate_sends_only_changes (o : oracle) (d : ResourceData)
    (client : ServiceClient) (id : string) (opts : routers_UpdateOpts) (r : response) :
  let res := run o [] (Router.resourceRouterUpdate d) in
  (routers_Update client id opts, r) ∈ res.2 ->
  id = Id d /\
  ruo_Name opts = (if HasChange d "name" then Get_string d "name" else "") /\
  (forall gws, ruo_ExternalGatewayInfo opts = Some gws ->
     HasChange d "external_gateway_info" = true /\
     gw_Type gws = "manual" /\
     extractExternalGatewayInfoMap (Get_list d "external_gateway_info") = Ok gws) /\
  match ruo_Routes opts with
  | None => HasChange d "routes" = false
  | Some routes =>
      HasChange d "routes" = true /\
      match Get_list d "routes" with
      | [] => routes = []
      | rs => extractHostRoutesMap rs = Ok routes
      end
  end.
Proof.
  unfold Router.resourceRouterUpdate. cbn [bind call].
  rewrite run_Call. cbn [fst snd].
  destruct (o [] _) as [cl|e1]; cbn [to_response app]; [|cbn; single_event].
  set (upd := if HasChange d "name" then _ else _).
  assert (ruo_Name upd = (if HasChange d "name" then Get_string d "name" else "")
          /\ ruo_ExternalGatewayInfo upd = None /\ ruo_Routes upd = None) as (U1 & U2 & U3).
  { subst upd. by destruct (HasChange d "name"). }
  clearbody upd.
  match goal with
  | |- context [match ?x with Ok _ => _ | Err _ => Ret (Done d _) end] =>
      destruct x as [upd2|e2] eqn:E2
  end.
  2:{ cbn. single_event. }
  assert (ruo_Name upd2 = ruo_Name upd /\ ruo_Routes upd2 = None /\
          forall gws, ruo_ExternalGatewayInfo upd2 = Some gws ->
            HasChange d "external_gateway_info" = true /\ gw_Type gws = "manual" /\
            extractExternalGatewayInfoMap (Get_list d "external_gateway_info") = Ok gws)
    as (V1 & V2 & V3).
  { destruct (HasChange d "external_gateway_info").
    - destruct (Get_list d "external_gateway_info") as [|g gl] eqn:Eg.
      + injection E2 as <-. split; [done|]. split; [done|]. intros gws. by rewrite U2.
      + destruct (extractExternalGatewayInfoMap (g :: gl)) as [gws|e] eqn:Ex;
          [|discriminate E2].
        case_bool_decide as Hmanual; injection E2 as <-; cbn.
        * split; [done|]. split; [done|]. by intros ? [= <-].
        * split; [done|]. split; [done|]. intros gws'. by rewrite U2.
    - injection E2 as <-. split; [done|]. split; [done|]. intros gws. by rewrite U2. }
  clear E2. rewrite run_bind.
  pose proof (calls_only_run _ _ o
                [(CreateClient Router.RouterPoint VersionPointV1, RClient (Ok cl))]
                (RouterUpdate_interfaces_calls d cl (Id d))) as Hifs.
  destruct (run o _ (Router.resourceRouterUpdate_interfaces d cl (Id d))) as [[u|out] t1];
    cbn [fst snd] in *.
  2:{ cbn. rewrite app_nil_r. intros [Hin|Hin]%elem_of_cons; [discriminate|].
      rewrite Forall_forall in Hifs. by apply Hifs in Hin. }
  match goal with
  | |- context [match ?x with Ok _ => _ | Err _ => Ret (Done d _) end] =>
      destruct x as [upd3|e3] eqn:E3
  end.
  2:{ cbn. rewrite app_nil_r. intros [Hin|Hin]%elem_of_cons; [discriminate|].
      rewrite Forall_forall in Hifs. by apply Hifs in Hin. }
  assert (ruo_Name upd3 = ruo_Name upd2 /\
          ruo_ExternalGatewayInfo upd3 = ruo_ExternalGatewayInfo upd2 /\
          match ruo_Routes upd3 with
          | None => HasChange d "routes" = false
          | Some routes =>
              HasChange d "routes" = true /\
              match Get_list d "routes" with
              | [] => routes = []
              | rs => extractHostRoutesMap rs = Ok routes
              end
          end) as (W1 & W2 & W3).
  { destruct (HasChange d "routes").
    - destruct (Get_list d "routes") as [|g gl] eqn:Eg.
      + injection E3 as <-. by cbn.
      + destruct (extractHostRoutesMap (g :: gl)) as [routes|e] eqn:Ex;
          [|discriminate E3].
        injection E3 as <-. by cbn.
    - injection E3 as <-. by rewrite V2. }
  clear E3. cbn [bind call]. rewrite run_Call. cbn [fst snd].
  intros [Hin|Hin]%elem_of_cons; [discriminate|].
  apply elem_of_app in Hin as [Hin|Hin].
  { rewrite Forall_forall in Hifs. by apply Hifs in Hin. }
  apply elem_of_cons in Hin as [Hin|Hin].
  - injection Hin as -> -> -> _. split; [done|].
    rewrite W1, V1, U1. split; [done|]. split; [|done].
    intros gws. rewrite W2. apply V3.
  - exfalso. revert Hin.
    match goal with |- context [run _ _ ?p] =>
      assert (calls_only (fun c => is_routers_Update c = false) p) as Hk end.
    { destruct (o _ (routers_Update _ _ _)); cbn; [|done].
      split; [done|]. intros now. apply RouterRead_no_update. }
    intros Hin.
    match type of Hin with _ ∈ (run _ ?h _).2 =>
      pose proof (calls_only_run _ _ o h Hk) as Hall end.
    rewrite Forall_forall in Hall. by apply Hall in Hin.
Qed.


(** X15: an update of a router of which neither the name, the gateway, the
    interfaces nor the routes have changed still sends a request: after
    creating its client the handler calls [routers.Update] with empty
    options, and it makes no [Attach] or [Detach] call. *)
Theorem RouterUpdate_without_change (o : oracle) (d : ResourceData) (client : ServiceClient) :
  let res := run o [] (Router.resourceRouterUpdate d) in
  let ev1 := (CreateClient Router.RouterPoint VersionPointV1, RClient (Ok client)) in
  let update :=
    routers_Update client (Id d)
      {| ruo_Name := ""; ruo_ExternalGatewayInfo := None; ruo_Routes := None |} in
  HasChange d "name" = false ->
  HasChange d "external_gateway_info" = false ->
  HasChange d "interfaces" = false ->
  HasChange d "routes" = false ->
  o [] (CreateClient Router.RouterPoint VersionPointV1) = Ok client ->
  res.2 !! 0%nat = Some ev1 /\
  res.2 !! 1%nat = Some (update, RRouter (o [ev1] update)) /\
  attach_calls res.2 = [] /\
  detach_calls res.2 = [].
Proof.
  intros res ev1 update Hn Hg Hi Hr Hc. subst res ev1 update.
  unfold Router.resourceRouterUpdate, Router.resourceRouterUpdate_interfaces.
  cbn [bind call]. rewrite run_Call. cbn [fst snd].
  rewrite Hc, Hn, Hg, Hi, Hr. cbn [to_response app bind call].
  rewrite run_Call. cbn [fst snd to_response app].
  split; [reflexivity|]. split; [reflexivity|].
  match goal with |- context [run _ _ ?p] =>
    assert (calls_only (fun c => is_attach_detach c = false) p) as Hk end.
  { destruct (o _ (routers_Update _ _ _)); cbn; [|done].
    split; [done|]. intros now. apply RouterRead_no_attach. }
  match goal with |- context [run _ ?h ?p] =>
    pose proof (calls_only_run _ _ o h Hk) as Hall; destruct (run o h p) as [out t] end.
  cbn [snd] in *. apply no_attach_detach in Hall as [Ha Hd].
  change (attach_calls (?e1 :: ?e2 :: ?t)) with (attach_calls ([e1; e2] ++ t)).
  change (detach_calls (?e1 :: ?e2 :: ?t)) with (detach_calls ([e1; e2] ++ t)).
  by rewrite attach_calls_app, detach_calls_app, Ha, Hd.
Qed.

Lemma RouterRead_Get_error (o : oracle) (h : list event) (d : ResourceData)
    (client : ServiceClient) (id : string) (e : error) :
  let res := run o h (Router.resourceRouterRead d) in
  (routers_Get client id, RRouter (Err e)) ∈ res.2 ->
  res.1 = Done d (diag_Errorf ("cannot get router with ID: " +:+ Id d
                               +:+ ". Error: " +:+ Error e)).
Proof.
  unfold Router.resourceRouterRead. cbn [bind call].
  rewrite run_Call. cbn [fst snd].
  destruct (o h _) as [cl|e1]; cbn [bind call to_response]; [|cbn; single_event].
  rewrite run_Call. cbn [fst snd to_response].
  destruct (o _ (routers_Get _ _)) as [router|e2].
  - intros [Hin|[Hin|Hin]%elem_of_cons]%elem_of_cons; [discriminate|discriminate|].
    exfalso. revert Hin.
    match goal with |- context [run _ _ ?p] =>
      assert (calls_only (fun _ => False) p) as Hk end.
    { repeat (destruct_inner; cbn); done. }
    intros Hin.
    match type of Hin with _ ∈ (run _ ?h _).2 =>
      pose proof (calls_only_run _ _ o h Hk) as Hall end.
    rewrite Forall_forall in Hall. by apply Hall in Hin.
  - cbn. intros Hin. in_trace Hin; [discriminate|]. by injection Hin as _ _ <-.
Qed.

Lemma BmRead_Get_error (o : oracle) (h : list event) (d : ResourceData)
    (client : ServiceClient) (id : string) (e : error) :
  let res := run o h (BmInstance.resourceBmInstanceRead d) in
  (instances_Get client id, RInstance (Err e)) ∈ res.2 ->
  res.1 = Done d (diag_Errorf ("cannot get instance with ID: " +:+ Id d
                               +:+ ". Error: " +:+ Error e)).
Proof.
  unfold BmInstance.resourceBmInstanceRead. cbn [bind call].
  rewrite run_Call. cbn [fst snd].
  destruct (o h _) as [cl|e1]; cbn [bind call to_response]; [|cbn; single_event].
  rewrite run_Call. cbn [fst snd to_response].
  destruct (o _ (instances_Get _ _)) as [instance|e2].
  - intros [Hin|[Hin|Hin]%elem_of_cons]%elem_of_cons; [discriminate|discriminate|].
    exfalso. revert Hin.
    match goal with |- context [run _ _ ?p] =>
      assert (calls_only (fun c => is_Get c = false) p) as Hk end.
    { cbn. split; [done|].
      intros [[|i0 il]|e3]; cbn; [done| |done].
      destruct (extractInstanceInterfaceToListRead _) as [ile|e4]; cbn; [|done].
      destruct (d_Set _ "interface" _) as [d1 [e5|]] eqn:E1; cbn; [done|].
      apply calls_only_bind.
      - destruct (GetOk d1 "metadata") as [metadataRaw|].
        + apply calls_only_bind; [|by intros []].
          generalize (value_list metadataRaw). intros l.
          induction l as [|x l IH]; cbn; [done|].
          split; [done|]. intros [md|e6]; cbn; [|done].
          apply calls_only_bind; [apply IH|]. by intros [].
        + apply calls_only_bind.
          * generalize (Get_map d1 "metadata_map"). intros l.
            induction l as [|[k x] l IH]; cbn; [done|].
            split; [done|]. intros [md|e6]; cbn; [|done].
            apply calls_only_bind; [apply IH|]. by intros [].
          * intros [nm|out]; cbn; [|done]. destruct (d_Set d1 _ _) as [? []]; by cbn.
      - intros [d2|out]; cbn; [|done]. destruct (d_Set d2 _ _) as [? []]; by cbn. }
    intros Hin.
    match type of Hin with _ ∈ (run _ ?h _).2 =>
      pose proof (calls_only_run _ _ o h Hk) as Hall end.
    rewrite Forall_forall in Hall. by apply Hall in Hin.
  - cbn. intros Hin. in_trace Hin; [discriminate|]. by injection Hin as _ _ <-.
Qed.

(** X16: the read handlers of the router and of the baremetal instance turn an
    error of the [Get] of the resource, the typed 404 included, into a
    diagnostic with a text of their own, and leave the resource data, the
    ID among them, as they were. *)
Theorem Read_formats_the_error_of_Get (o : oracle) (h : list event) (d : ResourceData)
    (client : ServiceClient) (id : string) (e : error) :
  (let res := run o h (Router.resourceRouterRead d) in
   (routers_Get client id, RRouter (Err e)) ∈ res.2 ->
   res.1 = Done d (diag_Errorf ("cannot get router with ID: " +:+ Id d
                                +:+ ". Error: " +:+ Error e))) /\
  (let res := run o h (BmInstance.resourceBmInstanceRead d) in
   (instances_Get client id, RInstance (Err e)) ∈ res.2 ->
   res.1 = Done d (diag_Errorf ("cannot get instance with ID: " +:+ Id d
                                +:+ ". Error: " +:+ Error e))).
Proof. split; [apply RouterRead_Get_error|apply BmRead_Get_error]. Qed.


Lemma RouterRead_ifs_entries router :
  (forall v, v ∈ Router.resourceRouterRead_ifs router ->
     exists iface subnet, iface ∈ router_Interfaces router /\
       subnet ∈ rif_IPAssignments iface /\ router_interface_entry v iface subnet) /\
  (forall iface subnet, iface ∈ router_Interfaces router ->
     subnet ∈ rif_IPAssignments iface ->
     exists v, v ∈ Router.resourceRouterRead_ifs router /\
       router_interface_entry v iface subnet).
Proof.
  unfold Router.resourceRouterRead_ifs. split.
  - intros v Hv. apply list_elem_of_In, in_flat_map in Hv as (iface & Hi & Hv).
    apply list_elem_of_In in Hi. apply list_elem_of_In, list_elem_of_fmap in Hv as (s & -> & Hs).
    exists iface, s. split; [done|]. split; [done|].
    unfold router_interface_entry; repeat split; reflexivity.
  - intros iface s Hi Hs. eexists. split.
    + apply list_elem_of_In, in_flat_map. exists iface. split; [by apply list_elem_of_In|].
      apply list_elem_of_In, list_elem_of_fmap. by exists s.
    + unfold router_interface_entry; repeat split; reflexivity.
Qed.

(** X17: after a read of the router that returns no diagnostic, the state
    mirrors the router that [routers.Get] returned (see [mirrors_router]);
    the field writer is assumed to accept what the handler writes. *)
Theorem RouterRead_mirrors (o : oracle) (h : list event) (d d' : ResourceData)
    (client : ServiceClient) (router : Router) :
  (forall k v, field_writer k v = None) ->
  let res := run o h (Router.resourceRouterRead d) in
  res.1 = Done d' [] ->
  (routers_Get client (Id d), RRouter (Ok router)) ∈ res.2 ->
  mirrors_router d d' router.
Proof.
  intros Hw. unfold Router.resourceRouterRead. cbn [bind call].
  rewrite run_Call. cbn [fst snd].
  destruct (o h _) as [cl|e1]; cbn [bind call to_response]; [|done].
  rewrite run_Call. cbn [fst snd to_response].
  destruct (o _ (routers_Get _ _)) as [router'|e2]; [|done].
  set (d1 := d_Set_ d "name" (VString (router_Name router'))).
  assert (forall k, Get d1 k = if decide ("name" = k) then Some (VString (router_Name router'))
                               else Get d k) as Hd1.
  { intros k. subst d1. case_decide as Hk.
    - subst. by apply Get_d_Set__eq.
    - by apply Get_d_Set__ne. }
  assert (Get_list d1 "external_gateway_info" = Get_list d "external_gateway_info") as Hegi.
  { unfold Get_list. by rewrite Hd1. }
  clearbody d1.
  match goal with
  | |- context [match ?x with Next _ => _ | Return _ => _ end] =>
      destruct x as [d2|out] eqn:E2
  end.
  2:{ cbn. intros -> Hin. exfalso.
      destruct (egi_ExternalFixedIPs _); [done|].
      destruct (Get_list d1 "external_gateway_info"); [done|].
      by destruct (extractExternalGatewayInfoMap _). }
  destruct (d_Set d2 "interfaces" _) as [d3 [e3|]] eqn:E3; [done|].
  cbn. intros [= <-] Hin. in_trace Hin; [discriminate|]. injection Hin as <- <-.
  unfold mirrors_router.
  assert (forall k v, k <> "interfaces" -> k <> "routes" ->
            Get (d_Set_ d3 "routes" v) k = Get d2 k) as Hrest.
  { intros k v Hk1 Hk2. rewrite Get_d_Set__ne by done.
    by rewrite (Get_d_Set_ne _ _ _ _ _ k E3). }
  split; [|split; [|split]].
  - rewrite Hrest by discriminate.
    destruct (egi_ExternalFixedIPs _).
    + injection E2 as <-. by rewrite Hd1.
    + destruct (Get_list d1 "external_gateway_info"); [|destruct (extractExternalGatewayInfoMap _)];
        try discriminate; injection E2 as <-; rewrite Get_d_Set__ne by discriminate;
        by rewrite Hd1.
  - eexists. split.
    + rewrite Get_d_Set__ne by discriminate. apply (Get_d_Set_eq _ _ _ _ E3).
    + split; [|apply RouterRead_ifs_entries].
      unfold Router.resourceRouterRead_ifs.
      induction (router_Interfaces router) as [|iface l IH]; cbn; [done|].
      by rewrite length_app, length_map, IH.
  - eexists. split; [by apply Get_d_Set__eq|]. split; [by rewrite length_map|].
    intros i r Hr. eexists. split.
    + rewrite list_lookup_fmap, Hr. reflexivity.
    + split; reflexivity.
  - cbn zeta. rewrite Hrest by discriminate.
    assert (forall (l : list ExtFixedIPs) i fip, l !! i = Some fip ->
              exists fm,
                map (fun fip => VMap [("ip_address", VString (efip_IPAddress fip));
                                      ("subnet_id", VString (efip_SubnetID fip))]) l !! i
                = Some (VMap fm) /\
                map_get fm "ip_address" = Some (VString (efip_IPAddress fip)) /\
                map_get fm "subnet_id" = Some (VString (efip_SubnetID fip))) as Hfix.
    { intros l i fip Hl. rewrite list_lookup_fmap, Hl.
      eexists. split; [reflexivity|]. split; reflexivity. }
    destruct (egi_ExternalFixedIPs _) as [|f0 fs] eqn:Ef.
    + injection E2 as <-. by rewrite Hd1.
    + rewrite <- Hegi.
      destruct (Get_list d1 "external_gateway_info") as [|g gl] eqn:Eg.
      * injection E2 as <-. do 2 eexists. split; [by apply Get_d_Set__eq|].
        cbn. do 3 (split; [reflexivity|]). split; [cbn; by rewrite length_map|].
        split; [|done]. intros i fip Hfip. exact (Hfix (f0 :: fs) i fip Hfip).
      * destruct (extractExternalGatewayInfoMap (g :: gl)) as [gws|e] eqn:Ex; [|discriminate].
        injection E2 as <-. do 2 eexists. split; [by apply Get_d_Set__eq|].
        cbn. do 3 (split; [reflexivity|]). split; [cbn; by rewrite length_map|].
        split; [|by exists gws]. intros i fip Hfip. exact (Hfix (f0 :: fs) i fip Hfip).
Qed.

End RouterMore.

(** ** Reading a baremetal instance *)

Section BmInstanceMore.
Context `{Env}.

(** X18: when the API lists no interface for the instance, the read handler
    returns the diagnostic "interface not found" and makes no further
    call.  It has already written the instance's name, flavor and status;
    every other attribute, "interface" among them, and the resource ID are
    as they were. *)
Theorem BmInstanceRead_without_interfaces (o : oracle) (h : list event) (d : ResourceData)
    (client : ServiceClient) (id : string) :
  let res := run o h (BmInstance.resourceBmInstanceRead d) in
  let ev := (instances_ListInterfacesAll client id, RInterfaces (Ok [])) in
  ev ∈ res.2 ->
  exists d',
    res.1 = Done d' (diag_Errorf "interface not found") /\
    last res.2 = Some ev /\
    id = Id d /\
    Id d' = Id d /\
    forall k, k ∉ BmInstanceRead_first_fields -> Get d' k = Get d k.
Proof.
  unfold BmInstance.resourceBmInstanceRead. cbn [bind call].
  rewrite run_Call. cbn [fst snd].
  destruct (o h _) as [cl|e1]; cbn [bind call to_response]; [|cbn; single_event].
  rewrite run_Call. cbn [fst snd to_response].
  destruct (o _ (instances_Get _ _)) as [instance|e2].
  2:{ cbn. intros Hin. in_trace Hin; discriminate. }
  cbn [bind call]. rewrite run_Call. cbn [fst snd to_response].
  destruct (o _ (instances_ListInterfacesAll _ _)) as [[|i0 il]|e3].
  - cbn. intros Hin. in_trace Hin; [discriminate|discriminate|].
    injection Hin as -> ->. eexists. split; [reflexivity|]. split; [reflexivity|].
    split; [reflexivity|]. split; [by rewrite !d_Set__Id|].
    intros k Hk. unfold BmInstanceRead_first_fields in Hk.
    repeat (apply not_elem_of_cons in Hk as [?Hne Hk]).
    by rewrite !Get_d_Set__ne.
  - intros [Hin|[Hin|[Hin|Hin]%elem_of_cons]%elem_of_cons]%elem_of_cons;
      [discriminate|discriminate|discriminate|].
    exfalso. revert Hin.
    match goal with |- context [run _ _ ?p] =>
      assert (calls_only (fun c => exists cl id k, c = instances_MetadataGet cl id k) p)
        as Hk end.
    { destruct (extractInstanceInterfaceToListRead _) as [ile|e4]; cbn; [|done].
      destruct (d_Set _ "interface" _) as [d1 [e5|]] eqn:E1; cbn; [done|].
      apply calls_only_bind.
      - destruct (GetOk d1 "metadata") as [metadataRaw|].
        + apply calls_only_bind; [|by intros []].
          generalize (value_list metadataRaw). intros l.
          induction l as [|x l IH]; cbn; [done|].
          split; [by eexists _, _, _|]. intros [md|e6]; cbn; [|done].
          apply calls_only_bind; [apply IH|]. by intros [].
        + apply calls_only_bind.
          * generalize (Get_map d1 "metadata_map"). intros l.
            induction l as [|[k x] l IH]; cbn; [done|].
            split; [by eexists _, _, _|]. intros [md|e6]; cbn; [|done].
            apply calls_only_bind; [apply IH|]. by intros [].
          * intros [nm|out]; cbn; [|done]. destruct (d_Set d1 _ _) as [? []]; by cbn.
      - intros [d2|out]; cbn; [|done]. destruct (d_Set d2 _ _) as [? []]; by cbn. }
    intros Hin.
    match type of Hin with _ ∈ (run _ ?h _).2 =>
      pose proof (calls_only_run _ _ o h Hk) as Hall end.
    rewrite Forall_forall in Hall. apply Hall in Hin as (? & ? & ? & ?). discriminate.
  - cbn. intros Hin. in_trace Hin; discriminate.
Qed.

(** X19: the read handler fetches the metadata of the "metadata" attribute one
    key at a time, in the order of the attribute, and stops at the first
    key whose fetch fails.  When every fetch succeeds the new list has an
    entry for each key, with the key and the value that the API returned;
    when one fails, the diagnostic names the instance's ID where its text
    says "key". *)
Theorem BmInstanceRead_metadata_fetches (o : oracle) (h : list event) (d : ResourceData)
    (client : ServiceClient) (instanceID : string) (metadata : list value) :
  let res := run o h (BmInstance.resourceBmInstanceRead_metadata d client instanceID metadata) in
  let fetches := map (instances_MetadataGet client instanceID) (metadata_keys metadata) in
  match res.1 with
  | Next sliced =>
      map fst res.2 = fetches /\
      exists mds,
        map snd res.2 = map (fun md => RMetadata (Ok md)) mds /\
        sliced = map (fun md => VMap [("key", VString (md_Key md));
                                      ("value", VString (md_Value md))]) mds
  | Return out =>
      exists n e r,
        map fst res.2 = take (S n) fetches /\
        (n < length fetches)%nat /\
        last res.2 = Some (r, RMetadata (Err e)) /\
        out = Done d (diag_Errorf ("cannot get metadata with key: " +:+ instanceID
                                   +:+ ". Error: " +:+ Error e))
  end.
Proof.
  revert h. induction metadata as [|data metadata IH]; intros h; cbn; [split; [done|by exists []]|].
  destruct (o h _) as [md|e] eqn:Eo; cbn.
  - rewrite run_bind.
    specialize (IH (h ++ [(instances_MetadataGet client instanceID
                             (map_string (value_map data) "key"), RMetadata (Ok md))])).
    cbn zeta in IH.
    destruct (run o _ (BmInstance.resourceBmInstanceRead_metadata _ _ _ _)) as [[sliced|out] t];
      cbn [fst snd] in *.
    + cbn. rewrite app_nil_r. destruct IH as (Hf & mds & Hs & ->).
      split; [by rewrite Hf|]. exists (md :: mds). cbn. by rewrite Hs.
    + cbn. rewrite app_nil_r. destruct IH as (n & e & r & Hf & Hn & Hl & ->).
      exists (S n), e, r. cbn. rewrite Hf. split; [done|].
      split; [unfold metadata_keys in *; rewrite !length_map in *; lia|]. split; [|done].
      destruct t; [done|]. done.
  - exists 0%nat, e, (instances_MetadataGet client instanceID (map_string (value_map data) "key")).
    cbn. split; [by rewrite take_0|]. split; [lia|]. done.
Qed.

End BmInstanceMore.

(** ** The image data source *)

Section ImageMore.
Context `{Env}.

Lemma dataSourceImageRead_loop_found name allImages image0 image :
  ImageDataSource.dataSourceImageRead_loop name allImages false image0 = (true, image) ->
  exists before after,
    allImages = before ++ image :: after /\
    Forall (fun i => image_matches name i = false) before /\
    image_matches name image = true.
Proof.
  induction allImages as [|img allImages IH]; cbn; [done|].
  unfold ImageDataSource.strings_HasPrefix.
  destruct (String.prefix _ _) eqn:Hp.
  - intros [= <-]. exists [], allImages. split; [done|]. split; [constructor|done].
  - intros (before & after & -> & Hb & Hm)%IH. exists (img :: before), after.
    split; [done|]. split; [by constructor|done].
Qed.

(** X20: the data source asks for its client at the endpoint "bmimages" when
    "is_baremetal" is set and at "images" otherwise.  Its one
    [images.ListAll] call filters on the "metadata_k" attribute as it is,
    and on "metadata_kv" only when that attribute is set: then on each of
    its keys with the value as a string, and on no other key. *)
Theorem dataSourceImageRead_request (o : oracle) (d : ResourceData) :
  let res := run o [] (ImageDataSource.dataSourceImageRead d) in
  let point := if Get_bool d "is_baremetal" then "bmimages" else "images" in
  (exists r, res.2 !! 0%nat = Some (CreateClient point VersionPointV1, r)) /\
  forall client opts r,
    (images_ListAll client opts, r) ∈ res.2 ->
    res.2 !! 1%nat = Some (images_ListAll client opts, r) /\
    ilo_MetadataK opts = Get_string d "metadata_k" /\
    match ilo_MetadataKV opts with
    | None => GetOk d "metadata_kv" = None
    | Some kv =>
        GetOk d "metadata_kv" <> None /\
        forall k, kv !! k = value_string <$> map_get (Get_map d "metadata_kv") k
    end.
Proof.
  unfold ImageDataSource.dataSourceImageRead. cbn [bind call].
  rewrite run_Call. cbn [fst snd]. split.
  { unfold ImageDataSource.bmImagesPoint, ImageDataSource.ImagesPoint.
    destruct (Get_bool d "is_baremetal"); eexists; reflexivity. }
  intros client opts r.
  destruct (o [] _) as [cl|e1]; cbn [bind call to_response app]; [|cbn; single_event].
  rewrite run_Call. cbn [fst snd to_response].
  intros [Hin|[Hin|Hin]%elem_of_cons]%elem_of_cons; [discriminate| |].
  - injection Hin as -> -> ->. split; [reflexivity|]. cbn. split.
    + unfold GetOk, Get_string.
      destruct (Get d "metadata_k") as [[s|z|b|l|l|m]|]; cbn; [..|done];
        try case_bool_decide; subst; try done; by destruct b.
    + unfold GetOk, Get_map.
      destruct (Get d "metadata_kv") as [v|]; [|done].
      destruct (is_zero_value v) eqn:Ez; [done|]. split; [done|].
      intros k. rewrite typedMetadataKV_lookup. by destruct v.
  - exfalso. revert Hin.
    match goal with |- context [run _ _ ?p] =>
      assert (calls_only (fun _ => False) p) as Hk end.
    { destruct (o _ (images_ListAll _ _)) as [allImages|e2]; cbn; [|done].
      destruct (ImageDataSource.dataSourceImageRead_loop _ _ _ _) as [[] image]; cbn; [|done].
      by destruct (d_Set _ "metadata_read_only" _) as [? []]. }
    intros Hin.
    match type of Hin with _ ∈ (run _ ?h _).2 =>
      pose proof (calls_only_run _ _ o h Hk) as Hall end.
    rewrite Forall_forall in Hall. by apply Hall in Hin.
Qed.

(** X21: after a read of the data source that returns no diagnostic, the
    resource ID and the attributes are those of the first image whose name
    matches: its disk and memory minimum, its distribution and version, its
    description and its read-only metadata; "project_id" and "region_id"
    are rewritten with the integer they read as. *)
Theorem dataSourceImageRead_mirrors (o : oracle) (d d' : ResourceData)
    (client : ServiceClient) (opts : images_ListOpts) (allImages : list Image) :
  (forall k v, field_writer k v = None) ->
  let res := run o [] (ImageDataSource.dataSourceImageRead d) in
  let name := Get_string d "name" in
  res.1 = Done d' [] ->
  (images_ListAll client opts, RImages (Ok allImages)) ∈ res.2 ->
  exists before image after,
    allImages = before ++ image :: after /\
    Forall (fun i => image_matches name i = false) before /\
    image_matches name image = true /\
    Id d' = img_ID image /\
    Get d' "min_disk" = Some (VInt (img_MinDisk image)) /\
    Get d' "min_ram" = Some (VInt (img_MinRAM image)) /\
    Get d' "os_distro" = Some (VString (img_OsDistro image)) /\
    Get d' "os_version" = Some (VString (img_OsVersion image)) /\
    Get d' "description" = Some (VString (img_Description image)) /\
    Get d' "metadata_read_only" = Some (PrepareMetadataReadonly (img_Metadata image)) /\
    Get d' "project_id" = Some (VInt (Get_int d "project_id")) /\
    Get d' "region_id" = Some (VInt (Get_int d "region_id")).
Proof.
  intros Hw. unfold ImageDataSource.dataSourceImageRead. cbn [bind call].
  rewrite run_Call. cbn [fst snd].
  destruct (o [] _) as [cl|e1]; cbn [bind call to_response app]; [|done].
  rewrite run_Call. cbn [fst snd to_response].
  destruct (o _ (images_ListAll _ _)) as [imgs|e2]; [|done].
  destruct (ImageDataSource.dataSourceImageRead_loop _ imgs false _) as [found image] eqn:El.
  destruct found; cbn [negb]; [|done].
  apply dataSourceImageRead_loop_found in El as (before & after & Himgs & Hb & Hm).
  destruct (d_Set _ "metadata_read_only" _) as [d9 [e|]] eqn:E9; cbn; [done|].
  intros [= <-] Hin. in_trace Hin; [discriminate|]. injection Hin as _ _ <-.
  exists before, image, after. do 3 (split; [done|]).
  split.
  { match type of E9 with d_Set ?x ?k ?v = _ => pose proof (d_Set_Id x k v) as Hid end.
    rewrite E9 in Hid. cbn [fst] in Hid. rewrite Hid. by rewrite !d_Set__Id. }
  assert (Get_int (SetId d (img_ID image)) "project_id" = Get_int d "project_id") as Hp
    by reflexivity.
  assert (Get_int (d_Set_ (SetId d (img_ID image)) "project_id"
                     (VInt (Get_int (SetId d (img_ID image)) "project_id")))
            "region_id" = Get_int d "region_id") as Hr.
  { unfold Get_int. by rewrite Get_d_Set__ne. }
  repeat split;
    first [ apply (Get_d_Set_eq _ _ _ _ E9)
          | rewrite (Get_d_Set_ne _ _ _ _ _ _ E9) by discriminate ];
    repeat first [ rewrite Get_d_Set__eq by apply Hw | rewrite Get_d_Set__ne by discriminate ];
    rewrite ?Hr, ?Hp; reflexivity.
Qed.

End ImageMore.

(** ** Create handlers: the read at the end *)

Section CreateMore.
Context `{Env}.

Lemma LBPoolRead_Get_error (o : oracle) (h : list event) (d : ResourceData)
    (client : ServiceClient) (id : string) (e : error) :
  let res := run o h (LBPool.resourceLBPoolRead d) in
  (lbpools_Get client id, RPool (Err e)) ∈ res.2 ->
  res.1 = Done d (diag_FromErr e).
Proof.
  unfold LBPool.resourceLBPoolRead. cbn [bind call].
  rewrite run_Call. cbn [fst snd].
  destruct (o h _) as [cl|e1]; cbn [bind call to_response]; [|cbn; single_event].
  rewrite run_Call. cbn [fst snd to_response].
  destruct (o _ (lbpools_Get _ _)) as [lb|e2]; cbn.
  - intros Hin. in_trace Hin; discriminate.
  - intros Hin. in_trace Hin; [discriminate|]. by injection Hin as _ _ <-.
Qed.

Lemma LBMemberRead_Get_error (o : oracle) (h : list event) (d : ResourceData)
    (client : ServiceClient) (id : string) (e : error) :
  let res := run o h (LBMember.resourceLBMemberRead d) in
  (lbpools_Get client id, RPool (Err e)) ∈ res.2 ->
  res.1 = Done d (diag_FromErr e).
Proof.
  unfold LBMember.resourceLBMemberRead. cbn [bind call].
  rewrite run_Call. cbn [fst snd].
  destruct (o h _) as [cl|e1]; cbn [bind call to_response]; [|cbn; single_event].
  rewrite run_Call. cbn [fst snd to_response].
  destruct (o _ (lbpools_Get _ _)) as [lb|e2]; cbn.
  - destruct (LBMember.resourceLBMemberRead_members _ _ _); cbn;
      intros Hin; in_trace Hin; discriminate.
  - intros Hin. in_trace Hin; [discriminate|]. by injection Hin as _ _ <-.
Qed.

(** The common end of the create handlers drops what the read returns. *)
Lemma create_tail_drops_read read timeout extract msg d cl r o h
    (get : ServiceClient -> string -> sdk_call) :
  (forall client id, is_Get (get client id) = true) ->
  (forall o h d client id r e,
     (get client id, r) ∈ (run o h (read d)).2 -> response_error r = Some e ->
     exists diags, (run o h (read d)).1 = Done d diags) ->
  let res := run o h (create_tail read timeout extract msg d cl r) in
  forall client id r' e,
    (get client id, r') ∈ res.2 -> response_error r' = Some e ->
    exists id', res.1 = Done (SetId d id') [].
Proof.
  intros Hget Hread res client id r' e. subst res. destruct r as [results err].
  unfold create_tail, WaitTaskAndReturnResult, create_checker.
  destruct err as [err|]; [cbn; by intros ?%elem_of_nil|].
  destruct (Tasks_0 results) as [taskID|]; [|cbn; by intros ?%elem_of_nil].
  cbn [bind call]. rewrite run_Call. cbn [fst snd to_response].
  destruct (o h _) as [ew|].
  { cbn. intros Hin. in_trace Hin. injection Hin as Hc _.
    specialize (Hget client id). rewrite Hc in Hget. discriminate. }
  cbn [bind call]. rewrite run_Call. cbn [fst snd to_response].
  destruct (o _ (tasks_Get _ _)) as [ti|eg].
  2:{ cbn. intros Hin. in_trace Hin; injection Hin as Hc _;
        specialize (Hget client id); rewrite Hc in Hget; discriminate. }
  destruct (extract ti) as [id'|ee].
  2:{ cbn. intros Hin. in_trace Hin; injection Hin as Hc _;
        specialize (Hget client id); rewrite Hc in Hget; discriminate. }
  cbn zeta. rewrite run_bind. cbn [run]. rewrite app_nil_r. cbn [app]. rewrite run_bind.
  match goal with |- context [run o ?h' (read ?d')] =>
    specialize (Hread o h' d' client id r' e);
    destruct (run o h' (read d')) as [out t] end.
  cbn [fst snd] in *.
  intros [Hin|[Hin|Hin]%elem_of_cons]%elem_of_cons Hr.
  - injection Hin as Hc _. specialize (Hget client id). rewrite Hc in Hget. discriminate.
  - injection Hin as Hc _. specialize (Hget client id). rewrite Hc in Hget. discriminate.
  - assert ((get client id, r') ∈ t) as Hin'.
    { destruct out; cbn in Hin; by rewrite app_nil_r in Hin. }
    destruct (Hread Hin' Hr) as [diags ->]. cbn. by exists id'.
Qed.

(** Recognise [create_tail] in what is left of a create handler after its
    create call, and conclude with [create_tail_drops_read]. *)
Ltac create_tail_drops read timeout extract msg d cl get Hget Hread :=
  match goal with
  | |- context [run ?o ?h ?p] =>
      match h with
      | context [(?c_act, RTasks (?res, ?er))] =>
          change (run o h p) with (run o h (create_tail read timeout extract msg d cl (res, er)));
          let Ht := fresh "Ht" in
          pose proof (create_tail_drops_read read timeout extract msg d cl (res, er) o h get
                        Hget Hread) as Ht;
          cbn zeta in Ht;
          destruct (run o h (create_tail read timeout extract msg d cl (res, er))) as [out tr];
          cbn [fst snd] in *;
          let Hin := fresh "Hin" in
          let Hr := fresh "Hr" in
          intros Hin Hr;
          apply elem_of_cons in Hin as [Hin|Hin]; [discriminate|];
          apply elem_of_cons in Hin as [Hin|Hin]; [discriminate|by eapply Ht]
      end
  end.

(** X22: the create handlers do not report a failure of the read they end
    with: when the [Get] of that read fails, each of the four handlers
    still returns no diagnostic, and the resource data are those it was
    given, under the new ID. *)
Theorem create_handlers_drop_read_errors :
  drops_read_error LBPool.resourceLBPoolCreate lbpools_Get /\
  drops_read_error LBMember.resourceLBMemberCreate lbpools_Get /\
  drops_read_error Router.resourceRouterCreate routers_Get /\
  drops_read_error BmInstance.resourceBmInstanceCreate instances_Get.
Proof.
  assert (forall o h d client id r e,
            (lbpools_Get client id, r) ∈ (run o h (LBPool.resourceLBPoolRead d)).2 ->
            response_error r = Some e ->
            exists diags, (run o h (LBPool.resourceLBPoolRead d)).1 = Done d diags) as R1.
  { intros o h d client id r e Hin Hr.
    pose proof (run_typed (LBPool.resourceLBPoolRead d) o h) as Ht.
    rewrite Forall_forall in Ht. destruct (Ht _ Hin) as [x Hx]. cbn in Hx, x. subst r.
    destruct x as [lb|e']; [discriminate|]. eexists. by eapply LBPoolRead_Get_error. }
  assert (forall o h d client id r e,
            (lbpools_Get client id, r) ∈ (run o h (LBMember.resourceLBMemberRead d)).2 ->
            response_error r = Some e ->
            exists diags, (run o h (LBMember.resourceLBMemberRead d)).1 = Done d diags) as R2.
  { intros o h d client id r e Hin Hr.
    pose proof (run_typed (LBMember.resourceLBMemberRead d) o h) as Ht.
    rewrite Forall_forall in Ht. destruct (Ht _ Hin) as [x Hx]. cbn in Hx, x. subst r.
    destruct x as [lb|e']; [discriminate|]. eexists. by eapply LBMemberRead_Get_error. }
  assert (forall o h d client id r e,
            (routers_Get client id, r) ∈ (run o h (Router.resourceRouterRead d)).2 ->
            response_error r = Some e ->
            exists diags, (run o h (Router.resourceRouterRead d)).1 = Done d diags) as R3.
  { intros o h d client id r e Hin Hr.
    pose proof (run_typed (Router.resourceRouterRead d) o h) as Ht.
    rewrite Forall_forall in Ht. destruct (Ht _ Hin) as [x Hx]. cbn in Hx, x. subst r.
    destruct x as [lb|e']; [discriminate|]. eexists. by eapply RouterRead_Get_error. }
  assert (forall o h d client id r e,
            (instances_Get client id, r) ∈ (run o h (BmInstance.resourceBmInstanceRead d)).2 ->
            response_error r = Some e ->
            exists diags, (run o h (BmInstance.resourceBmInstanceRead d)).1 = Done d diags) as R4.
  { intros o h d client id r e Hin Hr.
    pose proof (run_typed (BmInstance.resourceBmInstanceRead d) o h) as Ht.
    rewrite Forall_forall in Ht. destruct (Ht _ Hin) as [x Hx]. cbn in Hx, x. subst r.
    destruct x as [lb|e']; [discriminate|]. eexists. by eapply BmRead_Get_error. }
  split; [|split; [|split]].
  - intros o d client id r e. unfold LBPool.resourceLBPoolCreate. cbn.
    destruct (o [] _) as [cl|e1] eqn:E1; cbn; [|single_event].
    match goal with |- context [o ?h (lbpools_Create cl ?opts)] =>
      destruct (o h (lbpools_Create cl opts)) as [res er] eqn:E2 end.
    create_tail_drops LBPool.resourceLBPoolRead LBPool.LBPoolsCreateTimeout
      ExtractPoolIDFromTask "cannot retrieve LBPool ID from task info: " d cl
      lbpools_Get (fun (_ : ServiceClient) (_ : string) => eq_refl true) R1.
  - intros o d client id r e. unfold LBMember.resourceLBMemberCreate. cbn.
    destruct (o [] _) as [cl|e1] eqn:E1; cbn; [|single_event].
    match goal with |- context [o ?h (lbpools_CreateMember cl ?p ?opts)] =>
      destruct (o h (lbpools_CreateMember cl p opts)) as [res er] eqn:E2 end.
    create_tail_drops LBMember.resourceLBMemberRead LBPool.LBPoolsCreateTimeout
      ExtractPoolMemberIDFromTask "cannot retrieve LBMember ID from task info: " d cl
      lbpools_Get (fun (_ : ServiceClient) (_ : string) => eq_refl true) R2.
  - intros o d client id r e. unfold Router.resourceRouterCreate. cbn.
    destruct (o [] _) as [cl|e1] eqn:E1; cbn; [|single_event].
    destruct (Router.resourceRouterCreate_opts d) as [opts|e2]; cbn; [|single_event].
    match goal with |- context [o ?h (routers_Create cl ?opts)] =>
      destruct (o h (routers_Create cl opts)) as [res er] eqn:E2 end.
    create_tail_drops Router.resourceRouterRead Router.RouterCreatingTimeout
      ExtractRouterIDFromTask "cannot retrieve Router ID from task info: " d cl
      routers_Get (fun (_ : ServiceClient) (_ : string) => eq_refl true) R3.
  - intros o d client id r e. unfold BmInstance.resourceBmInstanceCreate. cbn.
    destruct (o [] _) as [cl|e1] eqn:E1; cbn; [|single_event].
    destruct (BmInstance.resourceBmInstanceCreate_opts d) as [opts|e2]; cbn; [|single_event].
    match goal with |- context [o ?h (bminstances_Create cl ?opts)] =>
      destruct (o h (bminstances_Create cl opts)) as [res er] eqn:E2 end.
    create_tail_drops BmInstance.resourceBmInstanceRead BmInstance.BmInstanceCreatingTimeout
      ExtractInstanceIDFromTask "cannot retrieve Instance ID from task info: " d cl
      instances_Get (fun (_ : ServiceClient) (_ : string) => eq_refl true) R4.
Qed.

End CreateMore.

(** ** Importers *)

Section ImportMore.
Context `{Env}.
Variable ImportStringParser : string -> result (Z * Z * string).
Variable ImportStringParserExtended : string -> result (Z * Z * string * string).

Lemma imported_3 d projectID regionID id :
  (forall k z, field_writer k (VInt z) = None) ->
  imported d [("project_id", VInt projectID); ("region_id", VInt regionID)] id
    (Ok [SetId (d_Set_ (d_Set_ d "project_id" (VInt projectID)) "region_id" (VInt regionID))
           id]).
Proof.
  intros Hw. eexists. split; [reflexivity|]. split; [reflexivity|]. split; [|split].
  - intros k v Hin. rewrite Get_SetId.
    repeat (apply elem_of_cons in Hin as [[= -> ->]|Hin]).
    + rewrite Get_d_Set__ne by discriminate. by apply Get_d_Set__eq.
    + by apply Get_d_Set__eq.
    + by apply elem_of_nil in Hin.
  - intros k Hk. cbn in Hk. repeat (apply not_elem_of_cons in Hk as [?Hne Hk]).
    by rewrite Get_SetId, !Get_d_Set__ne.
  - unfold d_Set_, d_Set. by rewrite !Hw.
Qed.

(** X23: the importers hand on the error of the parser of the import string
    and return no resource; when the string parses they return the one
    resource they were given, with the parsed ID as its ID and the parsed
    project and region written, for the pool member also the parsed pool;
    no other attribute and nothing of the prior state is touched.  The
    pool member's ID is the third part that the parser returns and its
    pool the fourth. *)
Theorem importers_set_the_parsed_ids (d : ResourceData) :
  (forall k z, field_writer k (VInt z) = None) ->
  (forall k s, field_writer k (VString s) = None) ->
  match ImportStringParser (Id d) with
  | Err e =>
      Importer.resourceLBPool_StateContext ImportStringParser d = Err e /\
      Importer.resourceRouter_StateContext ImportStringParser d = Err e /\
      Importer.resourceBmInstance_StateContext ImportStringParser d = Err e
  | Ok (projectID, regionID, id) =>
      let fields := [("project_id", VInt projectID); ("region_id", VInt regionID)] in
      imported d fields id (Importer.resourceLBPool_StateContext ImportStringParser d) /\
      imported d fields id (Importer.resourceRouter_StateContext ImportStringParser d) /\
      imported d fields id (Importer.resourceBmInstance_StateContext ImportStringParser d)
  end /\
  match ImportStringParserExtended (Id d) with
  | Err e => Importer.resourceLBMember_StateContext ImportStringParserExtended d = Err e
  | Ok (projectID, regionID, memberID, lbPoolID) =>
      imported d [("project_id", VInt projectID); ("region_id", VInt regionID);
                  ("pool_id", VString lbPoolID)] memberID
        (Importer.resourceLBMember_StateContext ImportStringParserExtended d)
  end.
Proof.
  intros Hwi Hws. split.
  - unfold Importer.resourceLBPool_StateContext, Importer.resourceRouter_StateContext,
      Importer.resourceBmInstance_StateContext.
    destruct (ImportStringParser (Id d)) as [[[projectID regionID] id]|e]; [|done].
    cbn zeta. repeat split; by apply imported_3.
  - unfold Importer.resourceLBMember_StateContext.
    destruct (ImportStringParserExtended (Id d)) as [[[[projectID regionID] memberID] pid]|e];
      [|done].
    eexists. split; [reflexivity|]. split; [reflexivity|]. split; [|split].
    + intros k v Hin. rewrite Get_SetId.
      repeat (apply elem_of_cons in Hin as [[= -> ->]|Hin]).
      * rewrite !Get_d_Set__ne by discriminate. by apply Get_d_Set__eq.
      * rewrite Get_d_Set__ne by discriminate. by apply Get_d_Set__eq.
      * by apply Get_d_Set__eq.
      * by apply elem_of_nil in Hin.
    + intros k Hk. cbn in Hk. repeat (apply not_elem_of_cons in Hk as [?Hne Hk]).
      by rewrite Get_SetId, !Get_d_Set__ne.
    + unfold d_Set_, d_Set. by rewrite !Hwi, Hws.
Qed.

End ImportMore.

(** * The theorems at work in the example environment *)

#[local] Existing Instance Demo.env.

(** The pool [Demo.new_pool], the router [Scenarios.new_router], the
    member [Scenarios.new_member] and the instance
    [Scenarios.new_instance] created in the cloud [Demo.cloud]: each
    handler makes its create call as its second call and ends with the ID
    that the task lists as the resource ID.  In a cloud whose pool lists the
    new member without an address, the LB member's handler panics. *)
Lemma create_handlers_set_the_created_id_witness :
  (forall d fields, Id (Demo.revert_fields d fields) = Id d) /\
  (let r := run (Demo.cloud false) [] (LBPool.resourceLBPoolCreate Demo.new_pool) in
   r.2 !! 1%nat = Some (Demo.create_new_pool, RTasks (Demo.started, None)) /\
   created LBPool.LBPoolsCreateTimeout (Demo.first_created "pools")
     "cannot retrieve LBPool ID from task info: " no_panic Demo.new_pool Demo.client
     Demo.started None r.1 r.2 /\
   exists d', r.1 = Done d' [] /\ Id d' = "pool-1") /\
  (let r := run (Demo.cloud false) [] (Router.resourceRouterCreate Scenarios.new_router) in
   let opts := {| rco_Name := "edge"; rco_ExternalGatewayInfo := None;
                  rco_Interfaces := [ {| ri_Type := "subnet"; ri_SubnetID := "a" |} ];
                  rco_Routes := [] |} in
   r.2 !! 1%nat = Some (routers_Create Demo.client opts, RTasks (Demo.started, None)) /\
   created Router.RouterCreatingTimeout (Demo.first_created "routers")
     "cannot retrieve Router ID from task info: " no_panic Scenarios.new_router Demo.client
     Demo.started None r.1 r.2 /\
   exists d', r.1 = Done d' [] /\ Id d' = "router-1") /\
  (let r := run (Demo.cloud false) [] (LBMember.resourceLBMemberCreate Scenarios.new_member) in
   let opts := {| cpm_Address := Some [10; 0; 0; 7]%N; cpm_ProtocolPort := 8080;
                  cpm_Weight := 2; cpm_SubnetID := ""; cpm_InstanceID := ""; cpm_ID := "" |} in
   r.2 !! 1%nat = Some (lbpools_CreateMember Demo.client "pool-1" opts,
                        RTasks (Demo.started, None)) /\
   created LBPool.LBPoolsCreateTimeout (Demo.first_created "members")
     "cannot retrieve LBMember ID from task info: " member_without_address
     Scenarios.new_member Demo.client Demo.started None r.1 r.2 /\
   exists d', r.1 = Done d' [] /\ Id d' = "member-1") /\
  (let r := run (Demo.cloud false) []
              (BmInstance.resourceBmInstanceCreate Scenarios.new_instance) in
   (exists opts, r.2 !! 1%nat = Some (bminstances_Create Demo.client opts,
                                      RTasks (Demo.started, None)) /\
      bco_Names opts = ["bm"] /\ bco_Flavor opts = "bm1") /\
   (forall c, (exists opts, c = bminstances_Create Demo.client opts) ->
      (c, RTasks (Demo.started, None)) ∈ r.2 ->
      created BmInstance.BmInstanceCreatingTimeout (Demo.first_created "instances")
        "cannot retrieve Instance ID from task info: " no_panic Scenarios.new_instance
        Demo.client Demo.started None r.1 r.2) /\
   exists d', r.1 = Done d' [] /\ Id d' = "instance-1") /\
  (let r := run Scenarios.cloud_with_unaddressed_member []
              (LBMember.resourceLBMemberCreate Scenarios.new_member) in
   r.1 = Panic /\
   created LBPool.LBPoolsCreateTimeout (Demo.first_created "members")
     "cannot retrieve LBMember ID from task info: " member_without_address
     Scenarios.new_member Demo.client Demo.started None r.1 r.2).
Proof.
  pose proof (create_handlers_set_the_created_id (H := Demo.env) Demo_revertState_Id)
    as ([Hp1 Hp2] & [Hr1 Hr2] & [Hm1 Hm2] & [Hi1 Hi2]).
  split; [exact Demo_revertState_Id|]. cbn zeta.
  split; [|split; [|split; [|split]]].
  - assert (Hc := Hp1 (Demo.cloud false) Demo.new_pool Demo.client eq_refl).
    cbn zeta in Hc. destruct Hc as [_ Hc].
    split; [exact Hc|]. split.
    + apply (Hp2 (Demo.cloud false) Demo.new_pool Demo.create_new_pool).
      * apply list_elem_of_lookup_2 with 1%nat. exact Hc.
      * eexists. reflexivity.
    + eexists. split; [vm_compute; reflexivity|reflexivity].
  - assert (Hc := Hr1 (Demo.cloud false) Scenarios.new_router Demo.client eq_refl).
    vm_compute in Hc. destruct Hc as [_ Hc].
    assert ((run (Demo.cloud false) [] (Router.resourceRouterCreate Scenarios.new_router)).2
            !! 1%nat
            = Some (routers_Create Demo.client
                      {| rco_Name := "edge"; rco_ExternalGatewayInfo := None;
                         rco_Interfaces := [ {| ri_Type := "subnet"; ri_SubnetID := "a" |} ];
                         rco_Routes := [] |}, RTasks (Demo.started, None))) as Hc'.
    { vm_compute. exact Hc. }
    split; [exact Hc'|]. split.
    + eapply (Hr2 (Demo.cloud false) Scenarios.new_router).
      * apply list_elem_of_lookup_2 with 1%nat. exact Hc'.
      * eexists. reflexivity.
    + eexists. split; [vm_compute; reflexivity|reflexivity].
  - assert (Hc := Hm1 (Demo.cloud false) Scenarios.new_member Demo.client eq_refl).
    cbn zeta in Hc. destruct Hc as [_ Hc].
    split; [exact Hc|]. split.
    + eapply (Hm2 (Demo.cloud false) Scenarios.new_member).
      * apply list_elem_of_lookup_2 with 1%nat. exact Hc.
      * do 2 eexists. reflexivity.
    + eexists. split; [vm_compute; reflexivity|reflexivity].
  - split; [|split].
    + eexists. split; [vm_compute; reflexivity|]. split; reflexivity.
    + intros c Hc Hin. by apply (Hi2 (Demo.cloud false) Scenarios.new_instance c).
    + eexists. split; [vm_compute; reflexivity|reflexivity].
  - split; [vm_compute; reflexivity|].
    eapply (Hm2 Scenarios.cloud_with_unaddressed_member Scenarios.new_member).
    + apply list_elem_of_lookup_2 with 1%nat. vm_compute. reflexivity.
    + do 2 eexists. reflexivity.
Defined.

(** C2 as the claim states it fails: when [lbpools.DeleteMember] answers
    with the typed 404, [resourceLBMemberDelete] returns no diagnostic, and
    when [lbpools.Delete] answers with it, [resourceLBPoolDelete] goes on
    past the call. *)
Lemma delete_handlers_do_not_all_propagate_404 :
  ~ propagates_errors LBMember.resourceLBMemberDelete /\
  ~ propagates_errors LBPool.resourceLBPoolDelete.
Proof.
  split; intros Hp.
  - destruct (Hp Demo.cloud_without_resource Demo.member
                (lbpools_DeleteMember Demo.client "pool-1" "member-1")
                (RTasks (None, Some Demo.not_found)) Demo.not_found) as [Hout _].
    + apply list_elem_of_lookup_2 with 1%nat. vm_compute. reflexivity.
    + reflexivity.
    + reflexivity.
    + vm_compute in Hout. discriminate Hout.
  - destruct (Hp Demo.cloud_without_resource Demo.known_pool
                (lbpools_Delete Demo.client "pool-1")
                (RTasks (None, Some Demo.not_found)) Demo.not_found) as [Hout _].
    + apply list_elem_of_lookup_2 with 1%nat. vm_compute. reflexivity.
    + reflexivity.
    + reflexivity.
    + vm_compute in Hout. discriminate Hout.
Qed.

(** The pool ["pool-1"] read into [Demo.known_pool]: the name follows
    the cloud, the first of the two load balancers is taken, and the
    listener, of which the cloud lists none, stays as it was. *)
Lemma LBPoolRead_mirrors_witness :
  (forall k s, field_writer k (VString s) = None) /\
  (forall d fields k, k ∉ fields -> Get (Demo.revert_fields d fields) k = Get d k) /\
  let res := run (Demo.cloud false) [] (LBPool.resourceLBPoolRead Demo.known_pool) in
  exists d',
    res.1 = Done d' [] /\
    (lbpools_Get Demo.client "pool-1", RPool (Ok Demo.pool)) ∈ res.2 /\
    mirrors_pool Demo.known_pool d' Demo.pool.
Proof.
  split; [reflexivity|]. split; [exact Demo_revertState_frame|]. cbn zeta.
  eexists. split; [vm_compute; reflexivity|].
  split; [apply list_elem_of_lookup_2 with 1%nat; vm_compute; reflexivity|].
  apply (LBPoolRead_mirrors (H := Demo.env) (fun _ _ => eq_refl) Demo_revertState_frame
           (Demo.cloud false) Demo.known_pool _ Demo.client Demo.pool).
  - vm_compute. reflexivity.
  - apply list_elem_of_lookup_2 with 1%nat. vm_compute. reflexivity.
Defined.

(** The router [Demo.changed_router], whose subnets change from a, b to
    b, c: c is attached and a is detached. *)
Lemma RouterUpdate_reconciles_witness :
  (forall m : gmap string nat, map_to_list m ≡ₚ map_to_list m) /\
  let res := run (Demo.cloud false) [] (Router.resourceRouterUpdate Demo.changed_router) in
  NoDup ["b"; "c"] /\
  (exists ev, ev ∈ res.2 /\ is_routers_Update ev.1 = true) /\
  attach_calls res.2 = ["c"] /\
  detach_calls res.2 = ["a"] /\
  within_difference ["a"; "b"] ["b"; "c"] res.2 /\
  reconciled ["a"; "b"] ["b"; "c"] res.2.
Proof.
  assert (NoDup ["b"; "c"]) as Hnd.
  { apply (bool_decide_unpack _). vm_compute. exact I. }
  assert (exists ev, ev ∈ (run (Demo.cloud false) []
                             (Router.resourceRouterUpdate Demo.changed_router)).2
                     /\ is_routers_Update ev.1 = true) as Hup.
  { eexists. split; [apply list_elem_of_lookup_2 with 3%nat; vm_compute; reflexivity|].
    reflexivity. }
  split; [reflexivity|]. cbn zeta. split; [exact Hnd|]. split; [exact Hup|].
  split; [vm_compute; reflexivity|]. split; [vm_compute; reflexivity|].
  destruct (RouterUpdate_reconciles (H := Demo.env) (fun m => reflexivity _)
              (Demo.cloud false) Demo.changed_router
              [ {| ri_Type := "subnet"; ri_SubnetID := "a" |};
                {| ri_Type := "subnet"; ri_SubnetID := "b" |} ]
              [ {| ri_Type := "subnet"; ri_SubnetID := "b" |};
                {| ri_Type := "subnet"; ri_SubnetID := "c" |} ]
              eq_refl eq_refl Hnd) as [Hwithin Hrec].
  split; [exact Hwithin|exact (Hrec Hup)].
Defined.

(** C8 as the claim states it fails: the interfaces of
    [Demo.changed_router] change from the subnets a, b to b, c; in a
    cloud that refuses the [Attach] of c, the handler returns that error,
    and the subnet a, which only the old set has, is not detached. *)
Lemma RouterUpdate_stops_at_a_failed_attach :
  let d := Demo.changed_router in
  let res := run Scenarios.cloud_refusing_attach [] (Router.resourceRouterUpdate d) in
  extractInterfacesMap (set_List (GetChange d "interfaces").1)
  = Ok [ {| ri_Type := "subnet"; ri_SubnetID := "a" |};
         {| ri_Type := "subnet"; ri_SubnetID := "b" |} ] /\
  extractInterfacesMap (set_List (GetChange d "interfaces").2)
  = Ok [ {| ri_Type := "subnet"; ri_SubnetID := "b" |};
         {| ri_Type := "subnet"; ri_SubnetID := "c" |} ] /\
  res.1 = Done d (diag_FromErr (ErrorString "subnet is in use")) /\
  attach_calls res.2 = ["c"] /\
  detach_calls res.2 = [] /\
  ~ reconciled ["a"; "b"] ["b"; "c"] res.2.
Proof.
  cbn zeta.
  assert (detach_calls (run Scenarios.cloud_refusing_attach []
                          (Router.resourceRouterUpdate Demo.changed_router)).2 = [])
    as Hdetach by (vm_compute; reflexivity).
  split; [reflexivity|]. split; [reflexivity|].
  split; [vm_compute; reflexivity|]. split; [vm_compute; reflexivity|].
  split; [exact Hdetach|].
  intros (_ & _ & _ & Hd). rewrite Hdetach in Hd.
  assert ("a" ∈ @nil string) as Hin.
  { apply Hd. split; [by left|].
    intros Hin. apply elem_of_cons in Hin as [Hin|Hin]; [discriminate|].
    apply list_elem_of_singleton in Hin. discriminate. }
  by apply elem_of_nil in Hin.
Qed.

(** The query for "UBUNTU" selects "Ubuntu-22.04-x64", the first image
    whose name starts with it, and not the image after it. *)
Lemma dataSourceImageRead_first_match_witness :
  let res := run (Demo.cloud false) []
               (ImageDataSource.dataSourceImageRead Demo.image_query) in
  (images_ListAll Demo.client {| ilo_MetadataK := ""; ilo_MetadataKV := None |},
   RImages (Ok Demo.images)) ∈ res.2 /\
  exists d' diags, res.1 = Done d' diags /\ Id d' = "img-2".
Proof.
  cbn zeta.
  assert ((images_ListAll Demo.client {| ilo_MetadataK := ""; ilo_MetadataKV := None |},
           RImages (Ok Demo.images))
          ∈ (run (Demo.cloud false) []
               (ImageDataSource.dataSourceImageRead Demo.image_query)).2) as Hin.
  { apply list_elem_of_lookup_2 with 1%nat. vm_compute. reflexivity. }
  split; [exact Hin|].
  destruct (dataSourceImageRead_first_match (H := Demo.env) (Demo.cloud false)
              Demo.image_query _ _ _ Hin) as [Hfirst _].
  match eval unfold Demo.images in Demo.images with
  | [?i1; ?i2; ?i3] => apply (Hfirst [i1] i2 [i3])
  end.
  - reflexivity.
  - repeat constructor.
  - vm_compute. reflexivity.
Defined.

(** The router [Demo.known_router] deleted from a cloud that does not
    have it: the 404 of [routers.Delete] is the diagnostic; for the member
    [Demo.member] the 404 of [lbpools.DeleteMember] is a success. *)
Lemma delete_handlers_propagate_errors_witness :
  let res := run Demo.cloud_without_resource []
               (Router.resourceRouterDelete Demo.known_router) in
  let ev := (routers_Delete Demo.client "router-1",
             RTasks (None, Some Demo.not_found)) in
  let res' := run Demo.cloud_without_resource []
                (LBMember.resourceLBMemberDelete Demo.member) in
  let ev' := (lbpools_DeleteMember Demo.client "pool-1" "member-1",
              RTasks (None, Some Demo.not_found)) in
  ev ∈ res.2 /\
  (res.1 = Done Demo.known_router (diag_FromErr Demo.not_found) /\ last res.2 = Some ev) /\
  ev' ∈ res'.2 /\
  (res'.1 = Done (SetId Demo.member "") [] /\ last res'.2 = Some ev').
Proof.
  cbn zeta.
  destruct (delete_handlers_propagate_errors (H := Demo.env))
    as ([Hcall Hrouter] & _ & _ & (Hcall' & _ & Hmember)).
  assert ((routers_Delete Demo.client "router-1", RTasks (None, Some Demo.not_found))
          ∈ (run Demo.cloud_without_resource []
               (Router.resourceRouterDelete Demo.known_router)).2) as Hin.
  { apply list_elem_of_lookup_2 with 1%nat.
    exact (proj2 (Hcall Demo.cloud_without_resource Demo.known_router Demo.client
                    eq_refl)). }
  assert ((lbpools_DeleteMember Demo.client "pool-1" "member-1",
           RTasks (None, Some Demo.not_found))
          ∈ (run Demo.cloud_without_resource []
               (LBMember.resourceLBMemberDelete Demo.member)).2) as Hin'.
  { apply list_elem_of_lookup_2 with 1%nat.
    exact (proj2 (Hcall' Demo.cloud_without_resource Demo.member Demo.client
                    eq_refl)). }
  split; [exact Hin|]. split.
  { exact (Hrouter Demo.cloud_without_resource Demo.known_router _ _ Demo.not_found
             Hin eq_refl eq_refl). }
  split; [exact Hin'|].
  exact (Hmember Demo.cloud_without_resource Demo.member _ _ Demo.not_found
           Hin' eq_refl eq_refl eq_refl).
Defined.

(** The router [Demo.known_router], the pool [Demo.known_pool] and
    the instance [Scenarios.known_instance] deleted from the cloud: after
    the delete call and the wait the checker finds the resource gone, and
    the resource ID is cleared.  While the cloud still has the router, the
    checker's error is the diagnostic and the ID stays. *)
Lemma delete_checkers_succeed_on_404_witness :
  run (Demo.cloud true) [] (Router.resourceRouterDelete Demo.known_router)
  = (Done (SetId Demo.known_router "") [],
     [(CreateClient "routers" "v1", RClient (Ok Demo.client));
      (routers_Delete Demo.client "router-1", RTasks (Demo.started, None));
      (tasks_WaitForStatus Demo.client "task-1" 1200 true, RError None);
      (routers_Get Demo.client "router-1", RRouter (Err Demo.not_found))]) /\
  run (Demo.cloud true) [] (LBPool.resourceLBPoolDelete Demo.known_pool)
  = (Done (SetId Demo.known_pool "") [],
     [(CreateClient "lbpools" "v1", RClient (Ok Demo.client));
      (lbpools_Delete Demo.client "pool-1", RTasks (Demo.started, None));
      (tasks_WaitForStatus Demo.client "task-1" 2400 true, RError None);
      (lbpools_Get Demo.client "pool-1", RPool (Err Demo.not_found))]) /\
  run (Demo.cloud true) [] (BmInstance.resourceBmInstanceDelete Scenarios.known_instance)
  = (Done (SetId Scenarios.known_instance "") [],
     [(CreateClient "instances" "v1", RClient (Ok Demo.client));
      (instances_Delete Demo.client "instance-1"
         {| ido_Volumes := []; ido_DeleteFloatings := true; ido_FloatingIPs := [] |},
       RTasks (Demo.started, None));
      (tasks_WaitForStatus Demo.client "task-1" 1200 true, RError None);
      (instances_Get Demo.client "instance-1", RInstance (Err Demo.not_found))]) /\
  (run (Demo.cloud false) [] (Router.resourceRouterDelete Demo.known_router)).1
  = Done Demo.known_router
      (diag_FromErr (ErrorString "cannot delete router with ID: router-1")).
Proof.
  destruct (delete_checkers_succeed_on_404 (H := Demo.env))
    as ((_ & Hrouter & _) & (_ & Hpool & _) & (_ & Hinstance & _)).
  split; [|split; [|split]].
  - etransitivity.
    + exact (Hrouter (Demo.cloud true) Demo.known_router Demo.client Demo.started
               "task-1" eq_refl eq_refl eq_refl eq_refl).
    + vm_compute. reflexivity.
  - etransitivity.
    + exact (Hpool (Demo.cloud true) Demo.known_pool Demo.client Demo.started
               "task-1" eq_refl eq_refl eq_refl eq_refl).
    + vm_compute. reflexivity.
  - etransitivity.
    + exact (Hinstance (Demo.cloud true) Scenarios.known_instance Demo.client
               Demo.started "task-1" eq_refl eq_refl eq_refl eq_refl).
    + vm_compute. reflexivity.
  - etransitivity.
    + exact (f_equal fst (Hrouter (Demo.cloud false) Demo.known_router Demo.client
                            Demo.started "task-1" eq_refl eq_refl eq_refl eq_refl)).
    + vm_compute. reflexivity.
Defined.

(** The pool [Demo.renamed_pool], of which only the name has changed, is
    only read again; the pool [Demo.rebalanced_pool] is updated. *)
Lemma LBPoolUpdate_only_on_change_witness :
  lbpool_changed Demo.renamed_pool = false /\
  HasChange Demo.renamed_pool "name" = true /\
  lbpool_changed Demo.rebalanced_pool = true /\
  Demo.cloud false [] (CreateClient LBPool.LBPoolsPoint VersionPointV1) = Ok Demo.client /\
  (let res := run (Demo.cloud false) [] (LBPool.resourceLBPoolUpdate Demo.renamed_pool) in
   let ev1 := (CreateClient LBPool.LBPoolsPoint VersionPointV1, RClient (Ok Demo.client)) in
   let read := run (Demo.cloud false) [ev1] (LBPool.resourceLBPoolRead Demo.renamed_pool) in
   Forall (fun ev : event => is_update_step ev.1 = false) res.2 /\
   res = (read.1, ev1 :: read.2)) /\
  (let res := run (Demo.cloud false) [] (LBPool.resourceLBPoolUpdate Demo.rebalanced_pool) in
   exists opts r, res.2 !! 1%nat = Some (lbpools_Update Demo.client "pool-1" opts, r)
     /\ luo_Name opts = "web").
Proof.
  split; [reflexivity|]. split; [reflexivity|]. split; [reflexivity|]. split; [reflexivity|].
  cbn zeta. split.
  - destruct (proj1 (LBPoolUpdate_only_on_change (H := Demo.env) (Demo.cloud false)
                       Demo.renamed_pool) eq_refl) as [Hall Hread].
    split; [exact Hall|]. exact (Hread Demo.client eq_refl).
  - exact (proj2 (LBPoolUpdate_only_on_change (H := Demo.env) (Demo.cloud false)
                    Demo.rebalanced_pool) eq_refl Demo.client eq_refl).
Defined.

(** * The further properties at work *)

(** The pool ["pool-1"] deleted from a cloud that does not have it: the
    handler panics after the 404. *)
Lemma LBPoolDelete_404_without_task_panics_witness :
  run Demo.cloud_without_resource [] (LBPool.resourceLBPoolDelete Demo.known_pool)
  = (Panic,
     [(CreateClient LBPool.LBPoolsPoint VersionPointV1, RClient (Ok Demo.client));
      (lbpools_Delete Demo.client "pool-1", RTasks (None, Some Demo.not_found))]).
Proof.
  exact (LBPoolDelete_404_without_task_panics (H := Demo.env)
           Demo.cloud_without_resource Demo.known_pool Demo.client None
           Demo.not_found eq_refl eq_refl eq_refl eq_refl).
Defined.

(** The update of [Demo.rebalanced_pool] sends the name and the new
    algorithm. *)
Lemma LBPoolUpdate_sends_only_changes_witness :
  let res := run (Demo.cloud false) [] (LBPool.resourceLBPoolUpdate Demo.rebalanced_pool) in
  let opts := {| luo_Name := "web"; luo_LBPoolAlgorithm := "SOURCE_IP";
                 luo_HealthMonitor := None; luo_SessionPersistence := None;
                 luo_Members := [] |} in
  (lbpools_Update Demo.client "pool-1" opts, RTasks (Demo.started, None)) ∈ res.2 /\
  HasChange Demo.rebalanced_pool "lb_algorithm" = true /\
  HasChange Demo.rebalanced_pool "health_monitor" = false /\
  lbpool_changed Demo.rebalanced_pool = true.
Proof.
  cbn zeta.
  assert ((lbpools_Update Demo.client "pool-1"
             {| luo_Name := "web"; luo_LBPoolAlgorithm := "SOURCE_IP";
                luo_HealthMonitor := None; luo_SessionPersistence := None;
                luo_Members := [] |}, RTasks (Demo.started, None))
          ∈ (run (Demo.cloud false) []
               (LBPool.resourceLBPoolUpdate Demo.rebalanced_pool)).2) as Hin.
  { apply list_elem_of_lookup_2 with 1%nat. vm_compute. reflexivity. }
  split; [exact Hin|]. split; [reflexivity|]. split; [reflexivity|].
  exact (proj1 (proj2 (LBPoolUpdate_sends_only_changes (H := Demo.env) (Demo.cloud false)
                         Demo.rebalanced_pool _ _ _ _ Hin))).
Defined.

(** A read of [Scenarios.stamped_pool] leaves its timestamp alone. *)
Lemma LBPoolRead_frame_witness :
  let res := run (Demo.cloud false) [] (LBPool.resourceLBPoolRead Scenarios.stamped_pool) in
  (forall d fs, Id (Demo.revert_fields d fs) = Id d) /\
  (forall d fs k, k ∉ fs -> Get (Demo.revert_fields d fs) k = Get d k) /\
  exists d',
    res.1 = Done d' [] /\
    Id d' = "pool-1" /\
    Get d' "last_updated" = Some (VString "Friday, 30-Oct-26 09:00:00 UTC").
Proof.
  cbn zeta. split; [exact Demo_revertState_Id|]. split; [exact Demo_revertState_frame|].
  eexists. split; [vm_compute; reflexivity|].
  match goal with |- Id ?d' = _ /\ _ =>
    destruct (LBPoolRead_frame (H := Demo.env) (Demo.cloud false) []
                Scenarios.stamped_pool d' [] "last_updated"
                Demo_revertState_Id Demo_revertState_frame) as [Hid Hk]
  end.
  { vm_compute. reflexivity. }
  split; [exact Hid|]. apply Hk. apply (bool_decide_unpack _). vm_compute. exact I.
Defined.

(** The update of [Demo.rebalanced_pool] stamps the state with the
    time of the cloud. *)
Lemma LBPoolUpdate_success_stamps_witness :
  let res := run (Demo.cloud false) [] (LBPool.resourceLBPoolUpdate Demo.rebalanced_pool) in
  (forall k s, field_writer k (VString s) = None) /\
  (forall d fs k, k ∉ fs -> Get (Demo.revert_fields d fs) k = Get d k) /\
  lbpool_changed Demo.rebalanced_pool = true /\
  exists d',
    res.1 = Done d' [] /\
    exists now client lb,
      (time_Now, RString now) ∈ res.2 /\
      Get d' "last_updated" = Some (VString now) /\
      (lbpools_Get client "pool-1", RPool (Ok lb)) ∈ res.2 /\
      mirrors_pool Demo.rebalanced_pool d' lb.
Proof.
  cbn zeta. split; [reflexivity|]. split; [exact Demo_revertState_frame|].
  split; [reflexivity|].
  eexists. split; [vm_compute; reflexivity|].
  apply (LBPoolUpdate_success_stamps (H := Demo.env) (Demo.cloud false)
           Demo.rebalanced_pool _ (fun _ _ => eq_refl) Demo_revertState_frame eq_refl).
  vm_compute. reflexivity.
Defined.

(** A read of [Scenarios.lost_member], which the pool does not list: no
    diagnostic, and the weight of the state stays. *)
Lemma LBMemberRead_absent_member_witness :
  let res := run Scenarios.cloud_with_members []
               (LBMember.resourceLBMemberRead Scenarios.lost_member) in
  (lbpools_Get Demo.client "pool-1", RPool (Ok Scenarios.pool_with_members)) ∈ res.2 /\
  Forall (fun pm => pm_ID pm <> "member-9") (pool_Members Scenarios.pool_with_members) /\
  res.1 = Done Scenarios.lost_member [].
Proof.
  cbn zeta.
  assert ((lbpools_Get Demo.client "pool-1", RPool (Ok Scenarios.pool_with_members))
          ∈ (run Scenarios.cloud_with_members []
               (LBMember.resourceLBMemberRead Scenarios.lost_member)).2) as Hin.
  { apply list_elem_of_lookup_2 with 1%nat. vm_compute. reflexivity. }
  assert (Forall (fun pm => pm_ID pm <> "member-9")
            (pool_Members Scenarios.pool_with_members)) as Hall.
  { repeat constructor; discriminate. }
  split; [exact Hin|]. split; [exact Hall|].
  exact (LBMemberRead_absent_member (H := Demo.env) Scenarios.cloud_with_members []
           Scenarios.lost_member Demo.client Scenarios.pool_with_members Hin Hall).
Defined.

(** A read of [Demo.member]: of the two members of the pool with its
    ID, the state takes the port and the weight of the last.  From a cloud
    whose pool lists the member without an address, the read panics. *)
Lemma LBMemberRead_mirrors_member_witness :
  let res := run Scenarios.cloud_with_members []
               (LBMember.resourceLBMemberRead Demo.member) in
  let res' := run Scenarios.cloud_with_unaddressed_member []
                (LBMember.resourceLBMemberRead Demo.member) in
  (forall k v, field_writer k v = None) /\
  (forall d fs k, k ∉ fs -> Get (Demo.revert_fields d fs) k = Get d k) /\
  (lbpools_Get Demo.client "pool-1", RPool (Ok Scenarios.pool_with_members)) ∈ res.2 /\
  (exists d',
     res.1 = Done d' [] /\
     Get d' "address" = Some (VString "10.0.0.7") /\
     Get d' "protocol_port" = Some (VInt 8443) /\
     Get d' "weight" = Some (VInt 4) /\
     Get d' "subnet_id" = Some (VString "subnet-d") /\
     Get d' "instance_id" = Some (VString "instance-d") /\
     Get d' "operating_status" = Some (VString "ONLINE")) /\
  (lbpools_Get Demo.client "pool-1", RPool (Ok Scenarios.pool_with_unaddressed_member))
  ∈ res'.2 /\
  res'.1 = Panic.
Proof.
  cbn zeta. split; [reflexivity|]. split; [exact Demo_revertState_frame|].
  assert ((lbpools_Get Demo.client "pool-1", RPool (Ok Scenarios.pool_with_members))
          ∈ (run Scenarios.cloud_with_members []
               (LBMember.resourceLBMemberRead Demo.member)).2) as Hin.
  { apply list_elem_of_lookup_2 with 1%nat. vm_compute. reflexivity. }
  assert ((lbpools_Get Demo.client "pool-1",
           RPool (Ok Scenarios.pool_with_unaddressed_member))
          ∈ (run Scenarios.cloud_with_unaddressed_member []
               (LBMember.resourceLBMemberRead Demo.member)).2) as Hin'.
  { apply list_elem_of_lookup_2 with 1%nat. vm_compute. reflexivity. }
  split; [exact Hin|]. split; [|split; [exact Hin'|]].
  - destruct (proj2 (LBMemberRead_mirrors_member (H := Demo.env)
                       Scenarios.cloud_with_members []
                       Demo.member Demo.client Scenarios.pool_with_members
                       [Scenarios.member_at "member-0" "a" 80 1;
                        Scenarios.member_at "member-1" "b" 8080 2;
                        Scenarios.member_at "member-2" "c" 443 3]
                       [] (Scenarios.member_at "member-1" "d" 8443 4)
                       (fun _ _ => eq_refl) Demo_revertState_frame Hin eq_refl eq_refl
                       (Forall_nil_2 _)))
      as (d' & address & Ha & Hd & Hfields).
    { repeat constructor; intros _; discriminate. }
    injection Ha as <-. exists d'. split; [exact Hd|exact Hfields].
  - apply (proj1 (LBMemberRead_mirrors_member (H := Demo.env)
                    Scenarios.cloud_with_unaddressed_member []
                    Demo.member Demo.client Scenarios.pool_with_unaddressed_member
                    [Scenarios.member_at "member-0" "a" 80 1] []
                    {| pm_ID := "member-1"; pm_Address := None; pm_ProtocolPort := 8080;
                       pm_Weight := 2; pm_SubnetID := "subnet-b";
                       pm_InstanceID := "instance-b"; pm_OperatingStatus := "ONLINE" |}
                    (fun _ _ => eq_refl) Demo_revertState_frame Hin' eq_refl eq_refl
                    (Forall_nil_2 _))).
    apply Exists_cons_tl, Exists_cons_hd. split; reflexivity.
Defined.

(** The member [Demo.member] deleted from a cloud that does not have
    it: the run ends on the 404 of [lbpools.DeleteMember]. *)
Lemma LBMemberDelete_success_witness :
  let res := run Demo.cloud_without_resource []
               (LBMember.resourceLBMemberDelete Demo.member) in
  res.1 = Done (SetId Demo.member "") [] /\
  exists client,
    (exists results e,
       last res.2 = Some (lbpools_DeleteMember client "pool-1" "member-1",
                          RTasks (results, Some e)) /\
       errors_As_Default404 e = true) \/
    (exists pool,
       last res.2 = Some (lbpools_Get client "pool-1", RPool (Ok pool)) /\
       Forall (fun pm => pm_ID pm <> "member-1") (pool_Members pool)).
Proof.
  cbn zeta.
  assert ((run Demo.cloud_without_resource []
             (LBMember.resourceLBMemberDelete Demo.member)).1
          = Done (SetId Demo.member "") []) as Hout.
  { vm_compute. reflexivity. }
  split; [exact Hout|].
  exact (proj2 (LBMemberDelete_success (H := Demo.env) Demo.cloud_without_resource
                  Demo.member _ Hout)).
Defined.

(** The update of [Scenarios.reweighted_member]: the request lists the four
    members of the pool in their order, the two with the resource's ID
    under the new weight. *)
Lemma LBMemberUpdate_members_witness :
  let res := run Scenarios.cloud_with_members []
               (LBMember.resourceLBMemberUpdate (fun _ => "") Scenarios.reweighted_member) in
  exists opts r,
    (lbpools_Update Demo.client "pool-1" opts, r) ∈ res.2 /\
    cpm_Weight <$> luo_Members opts = [1; 9; 3; 9] /\
    exists pool,
      (lbpools_Get Demo.client "pool-1", RPool (Ok pool)) ∈ res.2 /\
      "pool-1" = pool_ID pool /\
      luo_Name opts = pool_Name pool /\
      cpm_ID <$> luo_Members opts = pm_ID <$> pool_Members pool.
Proof.
  cbn zeta. eexists _, _.
  match goal with |- ?P /\ _ => assert P as Hin end.
  { apply list_elem_of_lookup_2 with 2%nat. vm_compute. reflexivity. }
  split; [exact Hin|]. split; [reflexivity|].
  destruct (LBMemberUpdate_members (H := Demo.env) (fun _ => "")
              Scenarios.cloud_with_members Scenarios.reweighted_member _ _ _ _ Hin)
    as (pool & Hget & Hid & Hname & _ & _ & _ & Hids & _).
  exists pool. split; [exact Hget|]. split; [exact Hid|]. split; [exact Hname|exact Hids].
Defined.

(** The update of [Demo.changed_router], of which only the interfaces
    have changed: the request carries no name, no gateway and no routes. *)
Lemma RouterUpdate_sends_only_changes_witness :
  let res := run (Demo.cloud false) [] (Router.resourceRouterUpdate Demo.changed_router) in
  let opts := {| ruo_Name := ""; ruo_ExternalGatewayInfo := None; ruo_Routes := None |} in
  (routers_Update Demo.client "router-1" opts, RRouter (Ok Demo.router)) ∈ res.2 /\
  HasChange Demo.changed_router "name" = false /\
  HasChange Demo.changed_router "routes" = false.
Proof.
  cbn zeta.
  assert ((routers_Update Demo.client "router-1"
             {| ruo_Name := ""; ruo_ExternalGatewayInfo := None; ruo_Routes := None |},
           RRouter (Ok Demo.router))
          ∈ (run (Demo.cloud false) []
               (Router.resourceRouterUpdate Demo.changed_router)).2) as Hin.
  { apply list_elem_of_lookup_2 with 3%nat. vm_compute. reflexivity. }
  split; [exact Hin|]. split; [reflexivity|].
  exact (proj2 (proj2 (proj2 (RouterUpdate_sends_only_changes (H := Demo.env)
                                (Demo.cloud false) Demo.changed_router _ _ _ _ Hin)))).
Defined.

(** The update of [Scenarios.unchanged_router] sends an empty request. *)
Lemma RouterUpdate_without_change_witness :
  let res := run (Demo.cloud false) []
               (Router.resourceRouterUpdate Scenarios.unchanged_router) in
  res.2 !! 1%nat =
    Some (routers_Update Demo.client "router-1"
            {| ruo_Name := ""; ruo_ExternalGatewayInfo := None; ruo_Routes := None |},
          RRouter (Ok Demo.router)) /\
  attach_calls res.2 = [] /\
  detach_calls res.2 = [].
Proof.
  cbn zeta.
  exact (proj2 (RouterUpdate_without_change (H := Demo.env) (Demo.cloud false)
                  Scenarios.unchanged_router Demo.client
                  eq_refl eq_refl eq_refl eq_refl eq_refl)).
Defined.

(** A read of [Demo.known_router] from a cloud whose router has a
    gateway, two interfaces, one of them without IP assignment, and a
    route. *)
Lemma RouterRead_mirrors_witness :
  let res := run Scenarios.cloud_with_connected_router []
               (Router.resourceRouterRead Demo.known_router) in
  (forall k v, field_writer k v = None) /\
  exists d',
    res.1 = Done d' [] /\
    (routers_Get Demo.client "router-1", RRouter (Ok Scenarios.connected_router)) ∈ res.2 /\
    mirrors_router Demo.known_router d' Scenarios.connected_router.
Proof.
  cbn zeta. split; [reflexivity|].
  eexists. split; [vm_compute; reflexivity|].
  match goal with |- ?P /\ _ => assert P as Hin end.
  { apply list_elem_of_lookup_2 with 1%nat. vm_compute. reflexivity. }
  split; [exact Hin|].
  apply (RouterRead_mirrors (H := Demo.env) Scenarios.cloud_with_connected_router []
           Demo.known_router _ Demo.client Scenarios.connected_router
           (fun _ _ => eq_refl)); [vm_compute; reflexivity|exact Hin].
Defined.

(** A read of [Scenarios.known_instance] from a cloud that lists no
    interface for it. *)
Lemma BmInstanceRead_without_interfaces_witness :
  let res := run Scenarios.cloud_without_interfaces []
               (BmInstance.resourceBmInstanceRead Scenarios.known_instance) in
  let ev := (instances_ListInterfacesAll Demo.client "instance-1", RInterfaces (Ok [])) in
  ev ∈ res.2 /\
  exists d',
    res.1 = Done d' (diag_Errorf "interface not found") /\
    last res.2 = Some ev /\
    "instance-1" = Id Scenarios.known_instance /\
    Id d' = Id Scenarios.known_instance /\
    forall k, k ∉ BmInstanceRead_first_fields -> Get d' k = Get Scenarios.known_instance k.
Proof.
  cbn zeta.
  match goal with |- ?P /\ _ => assert P as Hin end.
  { apply list_elem_of_lookup_2 with 2%nat. vm_compute. reflexivity. }
  split; [exact Hin|].
  exact (BmInstanceRead_without_interfaces (H := Demo.env) Scenarios.cloud_without_interfaces
           [] Scenarios.known_instance Demo.client "instance-1" Hin).
Defined.

(** The query for "UBUNTU": the attributes are those of
    "Ubuntu-22.04-x64". *)
Lemma dataSourceImageRead_mirrors_witness :
  let res := run (Demo.cloud false) []
               (ImageDataSource.dataSourceImageRead Demo.image_query) in
  (forall k v, field_writer k v = None) /\
  (images_ListAll Demo.client {| ilo_MetadataK := ""; ilo_MetadataKV := None |},
   RImages (Ok Demo.images)) ∈ res.2 /\
  exists d',
    res.1 = Done d' [] /\
    Id d' = "img-2" /\
    Get d' "os_version" = Some (VString "22.04").
Proof.
  cbn zeta. split; [reflexivity|].
  match goal with |- ?P /\ _ => assert P as Hin end.
  { apply list_elem_of_lookup_2 with 1%nat. vm_compute. reflexivity. }
  split; [exact Hin|].
  eexists. split; [vm_compute; reflexivity|].
  match goal with |- Id ?d' = _ /\ _ =>
    destruct (dataSourceImageRead_mirrors (H := Demo.env) (Demo.cloud false)
                Demo.image_query d' _ _ _ (fun _ _ => eq_refl) eq_refl Hin)
      as (before & image & after & Himgs & Hb & Hm & Hid & _ & _ & _ & Hv & _)
  end.
  assert (image = nth 1 Demo.images ImageDataSource.Image_zero) as ->.
  { unfold Demo.images in Himgs.
    destruct before as [|b0 [|b1 [|b2 before]]]; cbn in Himgs.
    - injection Himgs as <- _. vm_compute in Hm. discriminate Hm.
    - by injection Himgs as _ <- _.
    - injection Himgs as _ <- _ _.
      apply Forall_cons in Hb as [_ Hb]. apply Forall_cons in Hb as [Hb _].
      vm_compute in Hb. discriminate Hb.
    - destruct before; discriminate Himgs. }
  split; [exact Hid|exact Hv].
Defined.

(** The imports of ["1:2:pool-1"] and of ["1:2:member-1:pool-1"]. *)
Lemma importers_set_the_parsed_ids_witness :
  (forall k z, field_writer k (VInt z) = None) /\
  (forall k s, field_writer k (VString s) = None) /\
  imported (Scenarios.to_import "1:2:pool-1")
    [("project_id", VInt 1); ("region_id", VInt 2)] "pool-1"
    (Importer.resourceLBPool_StateContext Scenarios.parse_import
       (Scenarios.to_import "1:2:pool-1")) /\
  imported (Scenarios.to_import "1:2:member-1:pool-1")
    [("project_id", VInt 1); ("region_id", VInt 2); ("pool_id", VString "pool-1")] "member-1"
    (Importer.resourceLBMember_StateContext Scenarios.parse_import_extended
       (Scenarios.to_import "1:2:member-1:pool-1")) /\
  Importer.resourceRouter_StateContext Scenarios.parse_import (Scenarios.to_import "router-1")
  = Err (ErrorString "failed import: wrong input id").
Proof.
  split; [reflexivity|]. split; [reflexivity|].
  pose proof (importers_set_the_parsed_ids (H := Demo.env) Scenarios.parse_import
                Scenarios.parse_import_extended (Scenarios.to_import "1:2:pool-1")
                (fun _ _ => eq_refl) (fun _ _ => eq_refl)) as [H3 _].
  pose proof (importers_set_the_parsed_ids (H := Demo.env) Scenarios.parse_import
                Scenarios.parse_import_extended (Scenarios.to_import "1:2:member-1:pool-1")
                (fun _ _ => eq_refl) (fun _ _ => eq_refl)) as [_ H4].
  pose proof (importers_set_the_parsed_ids (H := Demo.env) Scenarios.parse_import
                Scenarios.parse_import_extended (Scenarios.to_import "router-1")
                (fun _ _ => eq_refl) (fun _ _ => eq_refl)) as [He _].
  split; [exact (proj1 H3)|]. split; [exact H4|]. exact (proj1 (proj2 He)).
Defined.

(** The checker of a member's deletion on the pool of
    [Scenarios.cloud_with_members]: ["member-9"] is gone, ["member-1"] is
    still listed; and on a cloud whose pool is gone. *)
Lemma LBMemberDelete_checker_spec_witness :
  (run Scenarios.cloud_with_members []
     (LBMember.resourceLBMemberDelete_checker Demo.client "pool-1" "member-9" "task-1")).1
  = Ok tt /\
  (run Scenarios.cloud_with_members []
     (LBMember.resourceLBMemberDelete_checker Demo.client "pool-1" "member-1" "task-1")).1
  = Err (ErrorString "pool member member-1 still exist") /\
  (run (Demo.cloud true) []
     (LBMember.resourceLBMemberDelete_checker Demo.client "pool-1" "member-1" "task-1")).1
  = Err (Errorf_w "extracting LBPool resource error: " Demo.not_found).
Proof.
  split; [|split].
  - destruct (LBMemberDelete_checker_spec Scenarios.cloud_with_members []
                Demo.client "pool-1" "member-9" "task-1") as (g & Htr & Hg).
    injection Htr as <-. apply Hg. repeat constructor; discriminate.
  - destruct (LBMemberDelete_checker_spec Scenarios.cloud_with_members []
                Demo.client "pool-1" "member-1" "task-1") as (g & Htr & Hg).
    injection Htr as <-. apply Hg. apply Exists_cons_tl, Exists_cons_hd. reflexivity.
  - destruct (LBMemberDelete_checker_spec (Demo.cloud true) []
                Demo.client "pool-1" "member-1" "task-1") as (g & Htr & Hg).
    injection Htr as <-. exact Hg.
Defined.

(** A read of [Demo.known_router] from a cloud that does not have the
    router: the 404 becomes a diagnostic of the handler's own text. *)
Lemma Read_formats_the_error_of_Get_witness :
  let res := run (Demo.cloud true) [] (Router.resourceRouterRead Demo.known_router) in
  (routers_Get Demo.client "router-1", RRouter (Err Demo.not_found)) ∈ res.2 /\
  res.1 = Done Demo.known_router
            (diag_Errorf "cannot get router with ID: router-1. Error: resource not found").
Proof.
  cbn zeta.
  match goal with |- ?P /\ _ => assert P as Hin end.
  { apply list_elem_of_lookup_2 with 1%nat. vm_compute. reflexivity. }
  split; [exact Hin|].
  exact (proj1 (Read_formats_the_error_of_Get (Demo.cloud true) []
                  Demo.known_router Demo.client "router-1" Demo.not_found) Hin).
Defined.

(** [Demo.new_pool] created in a cloud whose pools cannot be fetched:
    no diagnostic, and the attributes as they were configured. *)
Lemma create_handlers_drop_read_errors_witness :
  let res := run (Demo.cloud true) [] (LBPool.resourceLBPoolCreate Demo.new_pool) in
  (lbpools_Get Demo.client "pool-1", RPool (Err Demo.not_found)) ∈ res.2 /\
  exists id', res.1 = Done (SetId Demo.new_pool id') [].
Proof.
  cbn zeta.
  match goal with |- ?P /\ _ => assert P as Hin end.
  { apply list_elem_of_lookup_2 with 5%nat. vm_compute. reflexivity. }
  split; [exact Hin|].
  exact (proj1 (create_handlers_drop_read_errors) (Demo.cloud true)
           Demo.new_pool Demo.client "pool-1" _ Demo.not_found Hin eq_refl).
Defined.

(** The interfaces of [Scenarios.listed_interfaces]: the trunk on subnet a
    and its sub-port have an entry each, at the order 1; the sub-port of the
    trunk without IP assignment has none. *)
Lemma BmInstanceRead_interfacesList_entries_witness :
  let interfacesList :=
    BmInstance.resourceBmInstanceRead_interfacesList Scenarios.configured_interfaces
      Scenarios.listed_interfaces in
  length interfacesList = 2%nat /\
  (exists v, v ∈ interfacesList /\
     interface_entry Scenarios.configured_interfaces v 1 "net-1" "port-2" true
       (Scenarios.assignment "a")) /\
  (exists v, v ∈ interfacesList /\
     interface_entry Scenarios.configured_interfaces v 1 "net-3" "port-3" false
       (Scenarios.assignment "c")).
Proof.
  cbn zeta.
  destruct (BmInstanceRead_interfacesList_entries
              Scenarios.configured_interfaces Scenarios.listed_interfaces)
    as (Hlen & _ & Hp & Hs).
  split; [exact Hlen|]. split.
  - apply (Hp 1%nat _ _ eq_refl). by left.
  - refine (Hs 1%nat _ {| subp_PortID := "port-3"; subp_NetworkID := "net-3";
                           subp_IPAssignments := [Scenarios.assignment "c"] |}
              (Scenarios.assignment "c") eq_refl _ _ _); [done|by left|by left].
Defined.

(** The metadata ["env"], ["owner"] and ["team"] fetched from a cloud that
    has none under ["owner"]: the fetches stop at the failure, and the
    diagnostic names the instance. *)
Lemma BmInstanceRead_metadata_fetches_witness :
  let res := run Scenarios.cloud_without_owner []
               (BmInstance.resourceBmInstanceRead_metadata Scenarios.known_instance
                  Demo.client "instance-1"
                  [Scenarios.metadata_entry "env"; Scenarios.metadata_entry "owner";
                   Scenarios.metadata_entry "team"]) in
  res.1 = Return (Done Scenarios.known_instance
                    (diag_Errorf ("cannot get metadata with key: instance-1. "
                                  +:+ "Error: resource not found"))) /\
  exists n e r,
    map fst res.2 = take (S n) (map (instances_MetadataGet Demo.client "instance-1")
                                  ["env"; "owner"; "team"]) /\
    (n < 3)%nat /\
    last res.2 = Some (r, RMetadata (Err e)).
Proof.
  cbn zeta.
  pose proof (BmInstanceRead_metadata_fetches Scenarios.cloud_without_owner
                [] Scenarios.known_instance Demo.client "instance-1"
                [Scenarios.metadata_entry "env"; Scenarios.metadata_entry "owner";
                 Scenarios.metadata_entry "team"]) as Hf.
  cbn zeta in Hf.
  match goal with |- ?P /\ _ => assert P as E by (vm_compute; reflexivity) end.
  split; [exact E|]. rewrite E in Hf.
  destruct Hf as (n & e & r & H1 & H2 & H3 & _). exists n, e, r.
  split; [exact H1|]. split; [exact H2|exact H3].
Defined.

(** The query [Scenarios.baremetal_image_query] asks at "bmimages" and
    filters on the key "os" and on "arch" being "x64". *)
Lemma dataSourceImageRead_request_witness :
  let res := run (Demo.cloud false) []
               (ImageDataSource.dataSourceImageRead Scenarios.baremetal_image_query) in
  (exists r, res.2 !! 0%nat = Some (CreateClient "bmimages" VersionPointV1, r)) /\
  exists opts r kv,
    res.2 !! 1%nat = Some (images_ListAll Demo.client opts, r) /\
    ilo_MetadataK opts = "os" /\
    ilo_MetadataKV opts = Some kv /\
    kv !! "arch" = Some "x64" /\
    kv !! "os" = None.
Proof.
  cbn zeta.
  destruct (dataSourceImageRead_request (Demo.cloud false)
              Scenarios.baremetal_image_query) as [Hc Hl].
  split; [exact Hc|].
  eexists _, _, _.
  match goal with |- ?P /\ _ => assert P as H1 end.
  { vm_compute. reflexivity. }
  split; [exact H1|].
  specialize (Hl _ _ _ (list_elem_of_lookup_2 _ _ _ H1)) as (_ & Hk & Hkv).
  split; [exact Hk|]. cbn in Hkv. split; [reflexivity|].
  destruct Hkv as [_ Hkv]. split; [exact (Hkv "arch")|exact (Hkv "os")].
Defined.

(** An update in a cloud whose pool lists ["member-1"] without an address:
    the update of another member panics right after the pool is fetched;
    the update of ["member-1"] itself does not touch that address and
    goes on to update the pool. *)
Lemma LBMemberUpdate_nil_address_witness :
  let o := Scenarios.cloud_with_unaddressed_member in
  let ev1 := (CreateClient "lbpools" "v1", RClient (Ok Demo.client)) in
  let ev2 := (lbpools_Get Demo.client "pool-1",
              RPool (Ok Scenarios.pool_with_unaddressed_member)) in
  run o [] (LBMember.resourceLBMemberUpdate (fun _ => "") Scenarios.lost_member)
  = (Panic, [ev1; ev2]) /\
  exists opts r,
    (run o [] (LBMember.resourceLBMemberUpdate (fun _ => "") Demo.member)).2 !! 2%nat
    = Some (lbpools_Update Demo.client "pool-1" opts, r).
Proof.
  cbn zeta. split.
  - apply (proj1 (LBMemberUpdate_nil_address (H := Demo.env) (fun _ => "")
                    Scenarios.cloud_with_unaddressed_member Scenarios.lost_member
                    Demo.client Scenarios.pool_with_unaddressed_member eq_refl eq_refl)).
    apply Exists_cons_tl, Exists_cons_hd. split; [discriminate|reflexivity].
  - apply (proj2 (LBMemberUpdate_nil_address (H := Demo.env) (fun _ => "")
                    Scenarios.cloud_with_unaddressed_member Demo.member
                    Demo.client Scenarios.pool_with_unaddressed_member eq_refl eq_refl)).
    repeat constructor; [discriminate|]. intros Hne. by destruct Hne.
Defined.
